(** * hackerone_parser: the ingest-then-enrich pipeline and its SQLite store

    A shallow embedding of [data_manager.py], [graphql_requests.py],
    [db.py] and [main.py].  Python values coming from the GraphQL API are
    JSON documents; functions that may raise return a [pyres]; the store
    operations thread the database file through a state-and-exception
    monad in which committed rows survive a raised exception. *)

From Stdlib Require Import List String Ascii ZArith Arith Bool Lia.
From Stdlib Require Import Sorting.Sorted Sorting.Permutation.
From Stdlib Require Import DecimalString.
Import ListNotations.
Local Open Scope string_scope.
Local Open Scope Z_scope.
Local Open Scope list_scope.

(** ** Python values *)

(** The documents exchanged with the API.  Numbers are integers: no claim
    looks at a fractional number.  A dict keeps its items in insertion
    order; lookups take the first item with the key. *)
#[warnings="-register-all"]
Inductive json : Type :=
| JNull
| JBool (b : bool)
| JNum (z : Z)
| JStr (s : string)
| JList (items : list json)
| JDict (items : list (string * json)).

(** The exceptions the modelled code can meet. *)
Inductive exn : Type :=
| KeyError
| TypeError
| AttributeError
| ValueError
| IntegrityError
| InterfaceError
| OverflowError
| OperationalError.

Inductive pyres (A : Type) : Type :=
| Ok (a : A)
| Raise (e : exn).
Arguments Ok {A} a.
Arguments Raise {A} e.

Definition pbind {A B} (r : pyres A) (k : A -> pyres B) : pyres B :=
  match r with
  | Ok a => k a
  | Raise e => Raise e
  end.

Declare Scope py_scope.
Delimit Scope py_scope with py.
Notation "x <- r ;; k" := (pbind r (fun x => k))
  (at level 61, r at next level, right associativity) : py_scope.

(** [bool(v)] *)
Definition truthy (v : json) : bool :=
  match v with
  | JNull => false
  | JBool b => b
  | JNum z => negb (z =? 0)
  | JStr s => negb (String.eqb s "")
  | JList l => match l with [] => false | _ => true end
  | JDict l => match l with [] => false | _ => true end
  end.

Fixpoint assoc (k : string) (l : list (string * json)) : option json :=
  match l with
  | [] => None
  | (k', v) :: r => if String.eqb k k' then Some v else assoc k r
  end.

(** [v[k]] with a string key *)
Definition getitem (v : json) (k : string) : pyres json :=
  match v with
  | JDict l => match assoc k l with Some x => Ok x | None => Raise KeyError end
  | _ => Raise TypeError
  end.

(** [v.get(k, default)] *)
Definition dict_get (v : json) (k : string) (default : json) : pyres json :=
  match v with
  | JDict l => Ok (match assoc k l with Some x => x | None => default end)
  | _ => Raise AttributeError
  end.

(** [isinstance(v, dict)] *)
Definition is_dict (v : json) : bool :=
  match v with JDict _ => true | _ => false end.

Definition is_list (v : json) : bool :=
  match v with JList _ => true | _ => false end.

(** ** The two record shapes of db.py *)

(** Timestamps assigned by the store ([CURRENT_TIMESTAMP]) are held as a
    count of seconds; their text form orders the same way. *)
Definition timestamp := nat.

Module PrimaryData.
Record t : Type := mk {
  id : option Z;
  username : json;
  source : json;
  json_info : json;
  created_at : option timestamp
}.
End PrimaryData.

Module FinallyData.
Record t : Type := mk {
  id : option Z;
  username : json;
  name : json;
  intro : json;
  profileActivated : json;
  profile_created_at : json;
  location : json;
  website : json;
  bio : json;
  bugcrowd_handle : json;
  hack_the_box_handle : json;
  github_handle : json;
  gitlab_handle : json;
  linkedin_handle : json;
  twitter_handle : json;
  cleared : json;
  verified : json;
  open_for_employment : json;
  mark_as_company_on_leaderboards : json;
  resolved_report_count : json;
  thanks_items_total_count : json;
  badges_json : json;
  public_reviews_json : json;
  created_at : option timestamp
}.

(** [edges_of c] is the value the source computes for a nested
    container [c] already fetched with [.get(key, {})]. *)
Definition edges_of (c : json) : pyres json :=
  if is_dict c then dict_get c "edges" (JList []) else Ok (JList []).

Definition from_user_data (user_data : json) : pyres t :=
  (badges <- dict_get user_data "badges" (JDict []) ;;
   badges_json <- edges_of badges ;;
   public_reviews <- dict_get user_data "public_reviews" (JDict []) ;;
   public_reviews_json <- edges_of public_reviews ;;
   username <- dict_get user_data "username" (JStr "") ;;
   name <- dict_get user_data "name" JNull ;;
   intro <- dict_get user_data "intro" JNull ;;
   profileActivated <- dict_get user_data "profileActivated" (JBool false) ;;
   profile_created_at <- dict_get user_data "created_at" JNull ;;
   location <- dict_get user_data "location" JNull ;;
   website <- dict_get user_data "website" JNull ;;
   bio <- dict_get user_data "bio" JNull ;;
   bugcrowd_handle <- dict_get user_data "bugcrowd_handle" JNull ;;
   hack_the_box_handle <- dict_get user_data "hack_the_box_handle" JNull ;;
   github_handle <- dict_get user_data "github_handle" JNull ;;
   gitlab_handle <- dict_get user_data "gitlab_handle" JNull ;;
   linkedin_handle <- dict_get user_data "linkedin_handle" JNull ;;
   twitter_handle <- dict_get user_data "twitter_handle" JNull ;;
   cleared <- dict_get user_data "cleared" (JBool false) ;;
   verified <- dict_get user_data "verified" (JBool false) ;;
   open_for_employment <- dict_get user_data "open_for_employment" JNull ;;
   mark_as_company_on_leaderboards <-
     dict_get user_data "mark_as_company_on_leaderboards" (JBool false) ;;
   resolved_report_count <- dict_get user_data "resolved_report_count" (JNum 0) ;;
   thanks_items_total_count <-
     dict_get user_data "thanks_items_total_count" (JNum 0) ;;
   Ok (mk None username name intro profileActivated profile_created_at
          location website bio bugcrowd_handle hack_the_box_handle
          github_handle gitlab_handle linkedin_handle twitter_handle
          cleared verified open_for_employment
          mark_as_company_on_leaderboards resolved_report_count
          thanks_items_total_count badges_json public_reviews_json
          None))%py.
End FinallyData.

(** ** data_manager.py *)

Module DataManager.

(** One turn of the loop of [process_nodes]: the records the node adds
    to [data] (none or one), or the exception it raises. *)
Definition process_node (node : json) : pyres (list PrimaryData.t) :=
  (reporter <- getitem node "reporter" ;;
   if truthy reporter then
     username <- getitem reporter "username" ;;
     source <- getitem node "__typename" ;;
     Ok [PrimaryData.mk None username source node None]
   else Ok [])%py.

Fixpoint process_nodes (nodes : list json) : pyres (list PrimaryData.t) :=
  match nodes with
  | [] => Ok []
  | node :: rest =>
      (objs <- process_node node ;;
       data <- process_nodes rest ;;
       Ok (objs ++ data))%py
  end.

Definition process_edge (edge : json) : pyres PrimaryData.t :=
  (node <- getitem edge "node" ;;
   user <- getitem node "user" ;;
   username <- getitem user "username" ;;
   source <- getitem edge "__typename" ;;
   Ok (PrimaryData.mk None username source edge None))%py.

Fixpoint process_edges (edges : list json) : pyres (list PrimaryData.t) :=
  match edges with
  | [] => Ok []
  | edge :: rest =>
      (obj <- process_edge edge ;;
       data <- process_edges rest ;;
       Ok (obj :: data))%py
  end.

(** [user_data] is [None] when the API returned no profile. *)
Definition process_profile (user_data : json) : pyres (option FinallyData.t) :=
  match user_data with
  | JNull => Ok None
  | _ => (obj <- FinallyData.from_user_data user_data ;; Ok (Some obj))%py
  end.

End DataManager.

(** ** json.dumps

    [json.dumps(v, ensure_ascii=False)] with the default separators. *)

Definition string_of_Z (z : Z) : string := NilZero.string_of_int (Z.to_int z).

Definition hex_digit (n : nat) : ascii :=
  ascii_of_nat (if Nat.ltb n 10 then 48 + n else 87 + n).

Definition dquote : string := String (ascii_of_nat 34) EmptyString.

Definition escape_char (c : ascii) : string :=
  let n := nat_of_ascii c in
  (if Nat.eqb n 34 then "\" ++ dquote
  else if Nat.eqb n 92 then "\\"
  else if Nat.eqb n 10 then "\n"
  else if Nat.eqb n 13 then "\r"
  else if Nat.eqb n 9 then "\t"
  else if Nat.eqb n 8 then "\b"
  else if Nat.eqb n 12 then "\f"
  else if Nat.ltb n 32 then
    "\u00" ++ String (hex_digit (Nat.div n 16)) (String (hex_digit (Nat.modulo n 16)) "")
  else String c "")%string.

Fixpoint escape_string (s : string) : string :=
  match s with
  | EmptyString => ""
  | String c r => escape_char c ++ escape_string r
  end%string.

Definition quote (s : string) : string := (dquote ++ escape_string s ++ dquote)%string.

Fixpoint json_dumps (v : json) : string :=
  match v with
  | JNull => "null"
  | JBool true => "true"
  | JBool false => "false"
  | JNum z => string_of_Z z
  | JStr s => quote s
  | JList l =>
      "[" ++
      (fix items (l : list json) : string :=
         match l with
         | [] => ""
         | x :: r =>
             json_dumps x ++ match r with [] => "" | _ => ", " ++ items r end
         end) l ++ "]"
  | JDict l =>
      "{" ++
      (fix items (l : list (string * json)) : string :=
         match l with
         | [] => ""
         | (k, x) :: r =>
             quote k ++ ": " ++ json_dumps x ++
             match r with [] => "" | _ => ", " ++ items r end
         end) l ++ "}"
  end%string.

(** ** SQLite values, rows and the database file *)

Inductive sqlval : Type :=
| SNull
| SInt (z : Z)
| SText (s : string).

(** How the driver adapts a Python value given as a statement parameter:
    [None], [bool], [int] and [str] are accepted, an integer outside 64
    bits or a list or dict is refused. *)
Definition bind_param (v : json) : pyres sqlval :=
  match v with
  | JNull => Ok SNull
  | JBool b => Ok (SInt (if b then 1 else 0))
  | JNum z =>
      if (-(2 ^ 63) <=? z) && (z <? 2 ^ 63) then Ok (SInt z)
      else Raise OverflowError
  | JStr s => Ok (SText s)
  | JList _ => Raise InterfaceError
  | JDict _ => Raise InterfaceError
  end.

Fixpoint bind_params (vs : list json) : pyres (list sqlval) :=
  match vs with
  | [] => Ok []
  | v :: r => (x <- bind_param v ;; xs <- bind_params r ;; Ok (x :: xs))%py
  end.

(** The value a fetched cell has in Python. *)
Definition py_of_sql (c : sqlval) : json :=
  match c with
  | SNull => JNull
  | SInt z => JNum z
  | SText s => JStr s
  end.

Inductive affinity : Type := AffText | AffNumeric | AffInteger.

(** A TEXT column stores an integer as its decimal text.  The conversion
    of number-like text under the numeric affinities is not modelled:
    those columns hold the value as bound. *)
Definition apply_affinity (a : affinity) (c : sqlval) : sqlval :=
  match a, c with
  | AffText, SInt z => SText (string_of_Z z)
  | _, _ => c
  end.

Definition is_null (c : sqlval) : bool :=
  match c with SNull => true | _ => false end.

(** [a = b] in a WHERE clause: NULL equals nothing, and an integer never
    equals a text. *)
Definition sql_eq (a b : sqlval) : bool :=
  match a, b with
  | SInt x, SInt y => x =? y
  | SText x, SText y => String.eqb x y
  | _, _ => false
  end.

Definition lower (c : ascii) : ascii :=
  let n := nat_of_ascii c in
  if Nat.leb 65 n && Nat.leb n 90 then ascii_of_nat (n + 32) else c.

(** [s LIKE p] on ASCII text: [%] stands for any run of characters, [_]
    for one character, letters compare without case. *)
Fixpoint like_match (p s : string) : bool :=
  match p with
  | EmptyString => match s with EmptyString => true | _ => false end
  | String c p' =>
      if Ascii.eqb c "%" then
        (fix star (s : string) : bool :=
           like_match p' s ||
           match s with EmptyString => false | String _ s' => star s' end) s
      else
        match s with
        | EmptyString => false
        | String d s' =>
            (Ascii.eqb c "_" || Ascii.eqb (lower c) (lower d)) && like_match p' s'
        end
  end.

Definition sql_like (cell : sqlval) (pattern : string) : bool :=
  match cell with
  | SNull => false
  | SInt z => like_match pattern (string_of_Z z)
  | SText s => like_match pattern s
  end.

(** primary_table: id, username, source, json_info, created_at.  The
    json_info cell holds [json.dumps] of a document; the row keeps the
    document, which is what [json.loads] gives back on every read. *)
Record PrimaryRow : Type := mkPrimaryRow {
  p_id : Z;
  p_username : sqlval;
  p_source : sqlval;
  p_json_info : json;
  p_created_at : timestamp
}.

(** finally_table: id, the 22 profile columns in their declared order,
    created_at. *)
Record FinallyRow : Type := mkFinallyRow {
  f_id : Z;
  f_cols : list sqlval;
  f_created_at : timestamp
}.

(** The profile columns of finally_table: name, affinity of the declared
    type, NOT NULL. *)
Definition finally_schema : list (string * affinity * bool) :=
  [ ("username", AffText, true);
    ("name", AffText, false);
    ("intro", AffText, false);
    ("profileActivated", AffNumeric, false);
    ("profile_created_at", AffNumeric, false);
    ("location", AffText, false);
    ("website", AffText, false);
    ("bio", AffText, false);
    ("bugcrowd_handle", AffText, false);
    ("hack_the_box_handle", AffText, false);
    ("github_handle", AffText, false);
    ("gitlab_handle", AffText, false);
    ("linkedin_handle", AffText, false);
    ("twitter_handle", AffText, false);
    ("cleared", AffNumeric, false);
    ("verified", AffNumeric, false);
    ("open_for_employment", AffNumeric, false);
    ("mark_as_company_on_leaderboards", AffNumeric, false);
    ("resolved_report_count", AffInteger, false);
    ("thanks_items_total_count", AffInteger, false);
    ("badges_json", AffText, true);
    ("public_reviews_json", AffText, true) ].

(** The cells written for the columns [schema] from the bound values
    [vals]; a NULL in a NOT NULL column is an integrity error. *)
Fixpoint store_cells (schema : list (string * affinity * bool)) (vals : list sqlval)
  : pyres (list sqlval) :=
  match schema, vals with
  | [], [] => Ok []
  | (_, a, notnull) :: schema', v :: vals' =>
      if notnull && is_null v then Raise IntegrityError
      else (cells <- store_cells schema' vals' ;; Ok (apply_affinity a v :: cells))%py
  | _, _ => Raise InterfaceError
  end.

Fixpoint column_index (field : string) (schema : list (string * affinity * bool))
  : option nat :=
  match schema with
  | [] => None
  | (n, _, _) :: r =>
      if String.eqb field n then Some O
      else match column_index field r with Some i => Some (S i) | None => None end
  end.

(** The cell of a profile column, by name. *)
Definition column (field : string) (row : FinallyRow) : sqlval :=
  match column_index field finally_schema with
  | Some i => nth i (f_cols row) SNull
  | None => SNull
  end.

(** The database file.  [primary_seq] and [finally_seq] are the
    AUTOINCREMENT counters, [clock] is the time CURRENT_TIMESTAMP reads,
    and [available] tells whether the engine serves the connection: in
    an available store every statement is run and every commit that
    follows it succeeds; otherwise every statement is refused before it
    runs (the connection is closed, the file cannot be read). *)
Record Store : Type := mkStore {
  primary_table : list PrimaryRow;
  primary_seq : Z;
  finally_table : list FinallyRow;
  finally_seq : Z;
  clock : timestamp;
  available : bool
}.

(** The rowid AUTOINCREMENT gives: above the counter and above every
    rowid in the table. *)
Definition next_id (seq : Z) (ids : list Z) : Z :=
  fold_right Z.max seq ids + 1.

(** ** Store operations: state that survives an exception *)

Definition M (A : Type) : Type := Store -> pyres A * Store.

Definition ret {A} (a : A) : M A := fun s => (Ok a, s).

Definition raise {A} (e : exn) : M A := fun s => (Raise e, s).

Definition mbind {A B} (m : M A) (k : A -> M B) : M B :=
  fun s =>
    match m s with
    | (Ok a, s') => k a s'
    | (Raise e, s') => (Raise e, s')
    end.

Definition lift {A} (r : pyres A) : M A := fun s => (r, s).

(** [try: m except Exception as e: h e] *)
Definition try_except {A} (m : M A) (h : exn -> M A) : M A :=
  fun s =>
    match m s with
    | (Ok a, s') => (Ok a, s')
    | (Raise e, s') => h e s'
    end.

Declare Scope db_scope.
Delimit Scope db_scope with db.
Notation "x <- m ;; k" := (mbind m (fun x => k))
  (at level 61, m at next level, right associativity) : db_scope.
Notation "m ;;; k" := (mbind m (fun _ => k))
  (at level 61, right associativity) : db_scope.

(** Every statement goes through the engine first, which refuses it,
    before anything is written, when the store is not available.  The
    methods of db.py run [execute] and then [commit]; a commit that
    fails after its statement ran leaves the write pending on the
    connection, and that is not a state of this model: here the commit
    of a statement that ran succeeds, so what is said of a write that
    fails is said of a failure of the statement itself. *)
Definition engine : M unit :=
  fun s => if available s then (Ok tt, s) else (Raise OperationalError, s).

Definition get_store : M Store := fun s => (Ok s, s).

Definition put_store (s' : Store) : M unit := fun _ => (Ok tt, s').

(** ** ORDER BY created_at DESC LIMIT n *)

Section OrderBy.
Context {A : Type} (key : A -> nat).

(** Rows with the same key keep the order of the table. *)
Fixpoint insert_desc (x : A) (l : list A) : list A :=
  match l with
  | [] => [x]
  | y :: r => if Nat.leb (key y) (key x) then x :: y :: r else y :: insert_desc x r
  end.

Fixpoint order_desc (l : list A) : list A :=
  match l with
  | [] => []
  | x :: r => insert_desc x (order_desc r)
  end.

(** The rows a LIMIT clause keeps, for a limit the engine takes (see
    [limit_literal]): a negative LIMIT is no limit. *)
Definition sql_limit (limit : Z) (l : list A) : list A :=
  if limit <? 0 then l else firstn (Z.to_nat limit) l.
End OrderBy.

(** [f'... LIMIT {limit}']: the number is written into the statement in
    decimal.  The engine reads a literal that fits 64 bits as an integer
    and any other as a floating-point number, which a LIMIT clause
    refuses (datatype mismatch). *)
Definition limit_literal (limit : Z) : pyres unit :=
  if (-(2 ^ 63) <=? limit) && (limit <? 2 ^ 63) then Ok tt
  else Raise IntegrityError.

(** ** Timestamps of db.py *)

(** The fields of a [datetime] that the format of [_parse_timestamp]
    prints. *)
Record datetime : Type := mkDatetime {
  year : nat;
  month : nat;
  day : nat;
  hour : nat;
  minute : nat;
  second : nat
}.

Definition string_of_nat (n : nat) : string := NilZero.string_of_uint (Nat.to_uint n).

Fixpoint zeros (n : nat) : string :=
  match n with
  | O => EmptyString
  | S k => String "0" (zeros k)
  end.

(** A number printed in at least [width] digits, zeros first. *)
Definition zero_pad (width n : nat) : string :=
  let d := string_of_nat n in
  (zeros (width - String.length d) ++ d)%string.

(** [dt.strftime('%Y-%m-%d %H:%M:%S')], as CPython prints it through the
    C library of Linux: the year is written in decimal without padding,
    so a year below 1000 takes fewer than four digits; the other fields
    take two digits each. *)
Definition strftime (dt : datetime) : string :=
  (string_of_nat (year dt) ++ "-" ++ zero_pad 2 (month dt) ++ "-" ++ zero_pad 2 (day dt)
   ++ " " ++ zero_pad 2 (hour dt) ++ ":" ++ zero_pad 2 (minute dt) ++ ":"
   ++ zero_pad 2 (second dt))%string.

(** [s.replace('Z', '+00:00')] *)
Fixpoint replace_Z (s : string) : string :=
  match s with
  | EmptyString => EmptyString
  | String c r =>
      if Ascii.eqb c "Z" then ("+00:00" ++ replace_Z r)%string
      else String c (replace_Z r)
  end.

(** [v.replace('Z', '+00:00')]: only a [str] has the method. *)
Definition py_replace_Z (v : json) : pyres string :=
  match v with
  | JStr s => Ok (replace_Z s)
  | _ => Raise AttributeError
  end.

(** [try: r except Exception: return d] on a computation without state *)
Definition catch {A} (r : pyres A) (d : A) : pyres A :=
  match r with
  | Ok a => Ok a
  | Raise _ => Ok d
  end.

(** [to_db_dict]: the dict handed to the INSERT and UPDATE statements;
    the two sequence attributes are serialized. *)
Definition to_db_dict (d : FinallyData.t) : json :=
  JDict
    [ ("username", FinallyData.username d);
      ("name", FinallyData.name d);
      ("intro", FinallyData.intro d);
      ("profileActivated", FinallyData.profileActivated d);
      ("profile_created_at", FinallyData.profile_created_at d);
      ("location", FinallyData.location d);
      ("website", FinallyData.website d);
      ("bio", FinallyData.bio d);
      ("bugcrowd_handle", FinallyData.bugcrowd_handle d);
      ("hack_the_box_handle", FinallyData.hack_the_box_handle d);
      ("github_handle", FinallyData.github_handle d);
      ("gitlab_handle", FinallyData.gitlab_handle d);
      ("linkedin_handle", FinallyData.linkedin_handle d);
      ("twitter_handle", FinallyData.twitter_handle d);
      ("cleared", FinallyData.cleared d);
      ("verified", FinallyData.verified d);
      ("open_for_employment", FinallyData.open_for_employment d);
      ("mark_as_company_on_leaderboards",
        FinallyData.mark_as_company_on_leaderboards d);
      ("resolved_report_count", FinallyData.resolved_report_count d);
      ("thanks_items_total_count", FinallyData.thanks_items_total_count d);
      ("badges_json", JStr (json_dumps (FinallyData.badges_json d)));
      ("public_reviews_json", JStr (json_dumps (FinallyData.public_reviews_json d))) ].

(** The class body of FinallyData (db.py, lines 34 to 135) binds
    from_user_data, to_db_dict and to_dict, and nothing named
    from_db_row: the expression [FinallyData.from_db_row(row)] raises
    AttributeError when the attribute is looked up. *)
Definition FinallyData_from_db_row (row : FinallyRow) : pyres FinallyData.t :=
  Raise AttributeError.

Definition set_primary (s : Store) (rows : list PrimaryRow) (seq : Z) : Store :=
  mkStore rows seq (finally_table s) (finally_seq s) (clock s) (available s).

Definition set_finally (s : Store) (rows : list FinallyRow) (seq : Z) : Store :=
  mkStore (primary_table s) (primary_seq s) rows seq (clock s) (available s).

(** ** Statements *)

(** INSERT INTO primary_table (username, source, json_info) VALUES (?, ?, ?),
    the third value being the serialization of [json_info]; gives
    [cursor.lastrowid]. *)
Definition insert_primary (username source : sqlval) (json_info : json) : M Z :=
  fun s =>
    if is_null username || is_null source then (Raise IntegrityError, s)
    else
      let rowid := next_id (primary_seq s) (map p_id (primary_table s)) in
      let row := mkPrimaryRow rowid (apply_affinity AffText username)
                   (apply_affinity AffText source) json_info (clock s) in
      (Ok rowid, set_primary s (primary_table s ++ [row]) rowid).

(** UPDATE primary_table SET username = ?, source = ?, json_info = ?
    WHERE id = ?; gives [cursor.rowcount]. *)
Definition update_primary (username source : sqlval) (json_info : json) (record_id : Z)
  : M nat :=
  fun s =>
    let hit := fun r => p_id r =? record_id in
    if existsb hit (primary_table s) then
      if is_null username || is_null source then (Raise IntegrityError, s)
      else
        let upd := fun r =>
          if hit r then
            mkPrimaryRow (p_id r) (apply_affinity AffText username)
              (apply_affinity AffText source) json_info (p_created_at r)
          else r in
        (Ok (List.length (filter hit (primary_table s))),
         set_primary s (map upd (primary_table s)) (primary_seq s))
    else (Ok O, s).

(** DELETE FROM primary_table WHERE id = ? *)
Definition delete_primary (record_id : Z) : M nat :=
  fun s =>
    let hit := fun r => p_id r =? record_id in
    (Ok (List.length (filter hit (primary_table s))),
     set_primary s (filter (fun r => negb (hit r)) (primary_table s)) (primary_seq s)).

(** INSERT INTO finally_table (the 22 profile columns) VALUES (...) *)
Definition insert_finally (vals : list sqlval) : M Z :=
  fun s =>
    match store_cells finally_schema vals with
    | Raise e => (Raise e, s)
    | Ok cells =>
        let rowid := next_id (finally_seq s) (map f_id (finally_table s)) in
        (Ok rowid,
         set_finally s (finally_table s ++ [mkFinallyRow rowid cells (clock s)]) rowid)
    end.

(** [username = ?] on the TEXT column username *)
Definition username_is (username : sqlval) (r : FinallyRow) : bool :=
  sql_eq (column "username" r) (apply_affinity AffText username).

(** UPDATE finally_table SET (the 21 columns after username) WHERE username = ? *)
Definition update_finally (vals : list sqlval) (username : sqlval) : M nat :=
  fun s =>
    let hit := username_is username in
    if existsb hit (finally_table s) then
      match store_cells (tl finally_schema) vals with
      | Raise e => (Raise e, s)
      | Ok cells =>
          let upd := fun r =>
            if hit r then mkFinallyRow (f_id r) (column "username" r :: cells) (f_created_at r)
            else r in
          (Ok (List.length (filter hit (finally_table s))),
           set_finally s (map upd (finally_table s)) (finally_seq s))
      end
    else (Ok O, s).

(** DELETE FROM finally_table WHERE ... *)
Definition delete_finally (hit : FinallyRow -> bool) : M nat :=
  fun s =>
    (Ok (List.length (filter hit (finally_table s))),
     set_finally s (filter (fun r => negb (hit r)) (finally_table s)) (finally_seq s)).

(** SELECT * FROM finally_table WHERE {field} LIKE ? *)
Definition select_like (field pattern : string) : M (list FinallyRow) :=
  fun s =>
    match column_index field finally_schema with
    | None => (Raise OperationalError, s)
    | Some _ => (Ok (filter (fun r => sql_like (column field r) pattern) (finally_table s)), s)
    end.

Definition primary_data_of_row (row : PrimaryRow) : PrimaryData.t :=
  PrimaryData.mk (Some (p_id row)) (py_of_sql (p_username row)) (py_of_sql (p_source row))
    (p_json_info row) (Some (p_created_at row)).

(** The first item a cursor fetches, if any. *)
Definition fetchone {A} (rows : list A) : option A := hd_error rows.

Fixpoint sequence {A} (l : list (pyres A)) : pyres (list A) :=
  match l with
  | [] => Ok []
  | r :: rest => (x <- r ;; xs <- sequence rest ;; Ok (x :: xs))%py
  end.

(** [[f(x) for x in l]] *)
Definition comprehension {A B} (f : A -> pyres B) (l : list A) : pyres (list B) :=
  sequence (map f l).

(** [for x in l: body x] *)
Fixpoint for_each {A} (l : list A) (body : A -> M unit) : M unit :=
  match l with
  | [] => ret tt
  | x :: rest => (body x ;;; for_each rest body)%db
  end.

(** [data.id = existing.id; data.created_at = existing.created_at] *)
Definition keep_existing (data existing : FinallyData.t) : FinallyData.t :=
  FinallyData.mk (FinallyData.id existing)
    (FinallyData.username data) (FinallyData.name data) (FinallyData.intro data)
    (FinallyData.profileActivated data) (FinallyData.profile_created_at data)
    (FinallyData.location data) (FinallyData.website data) (FinallyData.bio data)
    (FinallyData.bugcrowd_handle data) (FinallyData.hack_the_box_handle data)
    (FinallyData.github_handle data) (FinallyData.gitlab_handle data)
    (FinallyData.linkedin_handle data) (FinallyData.twitter_handle data)
    (FinallyData.cleared data) (FinallyData.verified data)
    (FinallyData.open_for_employment data)
    (FinallyData.mark_as_company_on_leaderboards data)
    (FinallyData.resolved_report_count data)
    (FinallyData.thanks_items_total_count data)
    (FinallyData.badges_json data) (FinallyData.public_reviews_json data)
    (FinallyData.created_at existing).

(** ** db.py: DatabaseManager *)

Module DatabaseManager.
Section Methods.

(** [datetime.fromisoformat], of the Python library. *)
Variable fromisoformat : string -> pyres datetime.

(** What [FinallyData.from_db_row(row)] evaluates to. *)
Variable from_db_row : FinallyRow -> pyres FinallyData.t.

Definition _parse_timestamp (timestamp_str : json) : pyres json :=
  if negb (truthy timestamp_str) then Ok JNull
  else
    catch (s <- py_replace_Z timestamp_str ;;
           dt <- fromisoformat s ;;
           Ok (JStr (strftime dt)))%py
          JNull.

Definition add_primary_record (data : PrimaryData.t) : M Z :=
  try_except
    (engine ;;;
     username <- lift (bind_param (PrimaryData.username data)) ;;
     source <- lift (bind_param (PrimaryData.source data)) ;;
     record_id <- insert_primary username source (PrimaryData.json_info data) ;;
     ret record_id)%db
    (fun e => raise e).

Definition get_primary_by_id (record_id : Z) : M (option PrimaryData.t) :=
  try_except
    (engine ;;;
     s <- get_store ;;
     match fetchone (filter (fun r => p_id r =? record_id) (primary_table s)) with
     | Some row => ret (Some (primary_data_of_row row))
     | None => ret None
     end)%db
    (fun _ => ret None).

Definition get_primary_by_username (username : json) : M (option PrimaryData.t) :=
  try_except
    (engine ;;;
     u <- lift (bind_param username) ;;
     s <- get_store ;;
     match fetchone (filter (fun r => sql_eq (p_username r) (apply_affinity AffText u))
                       (primary_table s)) with
     | Some row => ret (Some (primary_data_of_row row))
     | None => ret None
     end)%db
    (fun _ => ret None).

Definition get_all_primary_records (limit : Z) : M (list PrimaryData.t) :=
  try_except
    (engine ;;;
     lift (limit_literal limit) ;;;
     s <- get_store ;;
     let rows := sql_limit limit (order_desc p_created_at (primary_table s)) in
     ret (map primary_data_of_row rows))%db
    (fun _ => ret []).

Definition update_primary_record (record_id : Z) (data : PrimaryData.t) : M bool :=
  try_except
    (engine ;;;
     username <- lift (bind_param (PrimaryData.username data)) ;;
     source <- lift (bind_param (PrimaryData.source data)) ;;
     rowcount <- update_primary username source (PrimaryData.json_info data) record_id ;;
     ret (Nat.ltb 0 rowcount))%db
    (fun _ => ret false).

Definition delete_primary_record (record_id : Z) : M bool :=
  try_except
    (engine ;;;
     rowcount <- delete_primary record_id ;;
     ret (Nat.ltb 0 rowcount))%db
    (fun _ => ret false).

Definition add_finally_record (data : option FinallyData.t) : M (option Z) :=
  try_except
    (match data with
     | None => ret None
     | Some data =>
         let db_data := to_db_dict data in
         engine ;;;
         params <- lift (sequence
           [ getitem db_data "username";
             getitem db_data "name";
             getitem db_data "intro";
             getitem db_data "profileActivated";
             (v <- getitem db_data "profile_created_at" ;; _parse_timestamp v)%py;
             getitem db_data "location";
             getitem db_data "website";
             getitem db_data "bio";
             getitem db_data "bugcrowd_handle";
             getitem db_data "hack_the_box_handle";
             getitem db_data "github_handle";
             getitem db_data "gitlab_handle";
             getitem db_data "linkedin_handle";
             getitem db_data "twitter_handle";
             getitem db_data "cleared";
             getitem db_data "verified";
             getitem db_data "open_for_employment";
             getitem db_data "mark_as_company_on_leaderboards";
             getitem db_data "resolved_report_count";
             getitem db_data "thanks_items_total_count";
             getitem db_data "badges_json";
             getitem db_data "public_reviews_json" ]) ;;
         vals <- lift (bind_params params) ;;
         record_id <- insert_finally vals ;;
         ret (Some record_id)
     end)%db
    (fun e => raise e).

Definition get_finally_by_id (record_id : Z) : M (option FinallyData.t) :=
  try_except
    (engine ;;;
     s <- get_store ;;
     match fetchone (filter (fun r => f_id r =? record_id) (finally_table s)) with
     | Some row => d <- lift (from_db_row row) ;; ret (Some d)
     | None => ret None
     end)%db
    (fun _ => ret None).

Definition get_finally_by_username (username : json) : M (option FinallyData.t) :=
  try_except
    (engine ;;;
     u <- lift (bind_param username) ;;
     s <- get_store ;;
     match fetchone (filter (username_is u) (finally_table s)) with
     | Some row => d <- lift (from_db_row row) ;; ret (Some d)
     | None => ret None
     end)%db
    (fun _ => ret None).

Definition get_all_finally_records (limit : Z) : M (list FinallyData.t) :=
  try_except
    (engine ;;;
     lift (limit_literal limit) ;;;
     s <- get_store ;;
     let rows := sql_limit limit (order_desc f_created_at (finally_table s)) in
     lift (comprehension from_db_row rows))%db
    (fun _ => ret []).

Definition valid_fields : list string :=
  ["username"; "name"; "location"; "github_handle"].

Definition search_finally_records (search_query field : string)
  : M (list FinallyData.t) :=
  try_except
    (let field :=
       if negb (existsb (String.eqb field) valid_fields) then "username" else field in
     engine ;;;
     rows <- select_like field ("%" ++ search_query ++ "%")%string ;;
     lift (comprehension from_db_row rows))%db
    (fun _ => ret []).

Definition update_finally_record (username : json) (data : FinallyData.t) : M bool :=
  try_except
    (let db_data := to_db_dict data in
     engine ;;;
     params <- lift (sequence
       [ getitem db_data "name";
         getitem db_data "intro";
         getitem db_data "profileActivated";
         (v <- getitem db_data "profile_created_at" ;; _parse_timestamp v)%py;
         getitem db_data "location";
         getitem db_data "website";
         getitem db_data "bio";
         getitem db_data "bugcrowd_handle";
         getitem db_data "hack_the_box_handle";
         getitem db_data "github_handle";
         getitem db_data "gitlab_handle";
         getitem db_data "linkedin_handle";
         getitem db_data "twitter_handle";
         getitem db_data "cleared";
         getitem db_data "verified";
         getitem db_data "open_for_employment";
         getitem db_data "mark_as_company_on_leaderboards";
         getitem db_data "resolved_report_count";
         getitem db_data "thanks_items_total_count";
         getitem db_data "badges_json";
         getitem db_data "public_reviews_json" ]) ;;
     vals <- lift (bind_params params) ;;
     u <- lift (bind_param username) ;;
     rowcount <- update_finally vals u ;;
     ret (Nat.ltb 0 rowcount))%db
    (fun _ => ret false).

Definition delete_finally_record (username : json) : M bool :=
  try_except
    (engine ;;;
     u <- lift (bind_param username) ;;
     rowcount <- delete_finally (username_is u) ;;
     ret (Nat.ltb 0 rowcount))%db
    (fun _ => ret false).

Definition delete_finally_by_id (record_id : Z) : M bool :=
  try_except
    (engine ;;;
     rowcount <- delete_finally (fun r => f_id r =? record_id) ;;
     ret (Nat.ltb 0 rowcount))%db
    (fun _ => ret false).

Definition add_or_update_finally_record (user_data : json) : M (option Z) :=
  try_except
    (data <- lift (FinallyData.from_user_data user_data) ;;
     existing <- get_finally_by_username (FinallyData.username data) ;;
     match existing with
     | Some existing =>
         let data := keep_existing data existing in
         updated <- update_finally_record (FinallyData.username data) data ;;
         ret (if updated then FinallyData.id existing else Some 0)
     | None => add_finally_record (Some data)
     end)%db
    (fun e => raise e).

Definition clear_all_data : M unit :=
  try_except
    (engine ;;;
     s <- get_store ;;
     put_store (set_primary (set_finally s [] (finally_seq s)) [] (primary_seq s)))%db
    (fun e => raise e).

(** [async with DatabaseManager('data.db') as db: body]: connecting and
    creating the tables if they are missing are statements too. *)
Definition with_database {A} (body : M A) : M A :=
  (engine ;;; body)%db.

End Methods.
End DatabaseManager.

(** ** graphql_requests.py and main.py *)

(** What [client.post] does with one request: it raises (no connection,
    timeout), or it gives a response with a status code whose body
    [response.json()] decodes, or fails to decode. *)
Inductive http_reply : Type :=
| PostRaised
| Response (status_code : Z) (body : pyres json).

(** [iter(v)], as a list of the items *)
Definition py_iter (v : json) : pyres (list json) :=
  match v with
  | JList l => Ok l
  | JDict l => Ok (map (fun kv => JStr (fst kv)) l)
  | JStr s => Ok (map (fun c => JStr (String c EmptyString)) (list_ascii_of_string s))
  | _ => Raise TypeError
  end.

Section Pipeline.

Variable fromisoformat : string -> pyres datetime.

(** The remote endpoint, as seen through [client.post]. *)
Variable client_post : json -> http_reply.

(** The two builders of query_builder.py: the pipeline only hands their
    results to the transport. *)
Variable build_hacktivity_search_query : Z -> Z -> json.
Variable build_profile_info_query : json -> json.

(** The result is [None] ([JNull]) on every failure. *)
Definition graphql_post_request (query_data : json) : json :=
  match client_post query_data with
  | PostRaised => JNull
  | Response status_code body =>
      if status_code =? 200 then
        match body with
        | Ok v => v
        | Raise _ => JNull
        end
      else JNull
  end.

Definition hacktivity_search (size offset : Z) : M unit :=
  (let query := build_hacktivity_search_query size offset in
   let response := graphql_post_request query in
   nodes <- lift (data <- getitem response "data" ;;
                  search <- getitem data "search" ;;
                  getitem search "nodes")%py ;;
   processed_data <- lift (l <- py_iter nodes ;; DataManager.process_nodes l)%py ;;
   DatabaseManager.with_database
     (for_each processed_data
        (fun obj => _ <- DatabaseManager.add_primary_record obj ;; ret tt)))%db.

Definition profile_info_search : M unit :=
  DatabaseManager.with_database
    (primary_data <- DatabaseManager.get_all_primary_records 100 ;;
     for_each primary_data
       (fun hunter =>
          let username := PrimaryData.username hunter in
          let query := build_profile_info_query username in
          let response := graphql_post_request query in
          user_data <- lift (data <- getitem response "data" ;;
                             getitem data "user")%py ;;
          processed_data <- lift (DataManager.process_profile user_data) ;;
          _ <- DatabaseManager.add_finally_record fromisoformat processed_data ;;
          ret tt))%db.

Definition primary_search : M unit := hacktivity_search 100 0.

Definition finally_search : M unit := profile_info_search.

Definition main : M unit := (primary_search ;;; finally_search)%db.

End Pipeline.

(** ** Vocabulary of the statements *)

(** A node carries reporter information when its reporter entry is there
    and is not empty. *)
Definition carries_reporter (node : json) : bool :=
  match getitem node "reporter" with
  | Ok reporter => truthy reporter
  | Raise _ => false
  end.

(** The shape the API gives an activity node: a reporter entry (possibly
    null), and for a node with a reporter its username and the type tag. *)
Definition well_shaped (node : json) : bool :=
  match getitem node "reporter" with
  | Ok reporter =>
      if truthy reporter then
        match getitem reporter "username", getitem node "__typename" with
        | Ok _, Ok _ => true
        | _, _ => false
        end
      else true
  | Raise _ => false
  end.

(** The record of a node: identity, origin and payload as the spec names
    them. *)
Definition is_record_of (node : json) (record : PrimaryData.t) : Prop :=
  (exists reporter,
      getitem node "reporter" = Ok reporter /\
      getitem reporter "username" = Ok (PrimaryData.username record)) /\
  getitem node "__typename" = Ok (PrimaryData.source record) /\
  PrimaryData.json_info record = node /\
  PrimaryData.id record = None /\
  PrimaryData.created_at record = None.

Definition is_digit (c : ascii) : bool :=
  let n := nat_of_ascii c in Nat.leb 48 n && Nat.leb n 57.



Definition digit_value (c : ascii) : option nat :=
  if is_digit c then Some (nat_of_ascii c - 48)%nat else None.

Fixpoint number (digits : list ascii) (acc : nat) : option nat :=
  match digits with
  | [] => Some acc
  | c :: r =>
      match digit_value c with
      | Some d => number r (10 * acc + d)%nat
      | None => None
      end
  end.

Definition is_leap (y : nat) : bool :=
  (Nat.eqb (y mod 4) 0 && negb (Nat.eqb (y mod 100) 0)) || Nat.eqb (y mod 400) 0.

Definition days_in_month (y m : nat) : nat :=
  match m with
  | 2 => if is_leap y then 29 else 28
  | 4 | 6 | 9 | 11 => 30
  | _ => 31
  end%nat.

(** The core of [datetime.fromisoformat]: a date YYYY-MM-DD of the
    calendar in the years 1 to 9999, one ASCII character, a time
    HH:MM:SS and an optional offset +HH:MM or -HH:MM below 24 hours.
    Every version of the library reads these texts and builds the
    datetime of the six numbers.  Every other text is refused here; the
    library reads some of them (a date alone, a fraction of a second)
    and refuses others (a second 60, a day of the year, a week date
    before Python 3.11). *)
Definition iso_reference (s : string) : pyres datetime :=
  match list_ascii_of_string s with
  | y1 :: y2 :: y3 :: y4 :: "-"%char :: m1 :: m2 :: "-"%char :: d1 :: d2 :: sep ::
    h1 :: h2 :: ":"%char :: n1 :: n2 :: ":"%char :: c1 :: c2 :: rest =>
      let offset_ok :=
        match rest with
        | [] => true
        | [sign; a; b; ":"%char; c; d] =>
            (Ascii.eqb sign "+" || Ascii.eqb sign "-")
            && match number [a; b] 0, number [c; d] 0 with
               | Some oh, Some om => Nat.leb oh 23 && Nat.leb om 59
               | _, _ => false
               end
        | _ => false
        end in
      match number [y1; y2; y3; y4] 0, number [m1; m2] 0, number [d1; d2] 0,
            number [h1; h2] 0, number [n1; n2] 0, number [c1; c2] 0 with
      | Some y, Some m, Some d, Some h, Some n, Some c =>
          if offset_ok && Nat.ltb (nat_of_ascii sep) 128
             && Nat.leb 1 y && Nat.leb 1 m && Nat.leb m 12 && Nat.leb 1 d
             && Nat.leb d (days_in_month y m)
             && Nat.leb h 23 && Nat.leb n 59 && Nat.leb c 59
          then Ok (mkDatetime y m d h n c)
          else Raise ValueError
      | _, _, _, _, _, _ => Raise ValueError
      end
  | _ => Raise ValueError
  end.


(** ** Sample documents *)

Definition redacted_node : json :=
  JDict [("__typename", JStr "Disclosed"); ("reporter", JNull)].

Definition alice_node : json :=
  JDict [("__typename", JStr "Disclosed");
         ("reporter", JDict [("username", JStr "alice")])].

Definition bob_node : json :=
  JDict [("__typename", JStr "Undisclosed");
         ("reporter", JDict [("username", JStr "bob")])].

Definition bare_node : json := JDict [("__typename", JStr "Disclosed")].

(** ** Vocabulary for from_user_data and the upsert *)

(** The value of a scalar attribute: the entry of the document, or the
    default of the attribute when the document has no such entry. *)
Definition entry_or (kvs : list (string * json)) (key : string) (default : json) : json :=
  match assoc key kvs with
  | Some v => v
  | None => default
  end.

(** The value of a sequence attribute: the edges entry of the container
    when the container is a dict that has one, the empty list when the
    container is missing, is not a dict, or is a dict without edges. *)
Definition edges_or_empty (kvs : list (string * json)) (key : string) : json :=
  match assoc key kvs with
  | Some (JDict container) =>
      match assoc "edges" container with
      | Some edges => edges
      | None => JList []
      end
  | _ => JList []
  end.

Definition bindable (v : json) : bool :=
  match bind_param v with
  | Ok _ => true
  | Raise _ => false
  end.

Definition is_none (v : json) : bool :=
  match v with JNull => true | _ => false end.

(** The scalar attributes handed to the driver as they are. *)
Definition scalars (d : FinallyData.t) : list json :=
  [ FinallyData.name d; FinallyData.intro d; FinallyData.profileActivated d;
    FinallyData.location d; FinallyData.website d; FinallyData.bio d;
    FinallyData.bugcrowd_handle d; FinallyData.hack_the_box_handle d;
    FinallyData.github_handle d; FinallyData.gitlab_handle d;
    FinallyData.linkedin_handle d; FinallyData.twitter_handle d;
    FinallyData.cleared d; FinallyData.verified d;
    FinallyData.open_for_employment d;
    FinallyData.mark_as_company_on_leaderboards d;
    FinallyData.resolved_report_count d;
    FinallyData.thanks_items_total_count d ].

(** A record the driver and the schema accept: a username that is not
    [None], and scalars of the types the driver adapts. *)
Definition storable (d : FinallyData.t) : bool :=
  negb (is_none (FinallyData.username d))
  && bindable (FinallyData.username d)
  && forallb bindable (scalars d).

(** The parameters of the UPDATE statement before the username, and those
    of the INSERT statement, [ts] being the normalized profile
    timestamp. *)
Definition update_parameters (ts : json) (d : FinallyData.t) : list json :=
  [ FinallyData.name d; FinallyData.intro d; FinallyData.profileActivated d; ts;
    FinallyData.location d; FinallyData.website d; FinallyData.bio d;
    FinallyData.bugcrowd_handle d; FinallyData.hack_the_box_handle d;
    FinallyData.github_handle d; FinallyData.gitlab_handle d;
    FinallyData.linkedin_handle d; FinallyData.twitter_handle d;
    FinallyData.cleared d; FinallyData.verified d;
    FinallyData.open_for_employment d;
    FinallyData.mark_as_company_on_leaderboards d;
    FinallyData.resolved_report_count d;
    FinallyData.thanks_items_total_count d;
    JStr (json_dumps (FinallyData.badges_json d));
    JStr (json_dumps (FinallyData.public_reviews_json d)) ].

Definition insert_parameters (ts : json) (d : FinallyData.t) : list json :=
  FinallyData.username d :: update_parameters ts d.

(** The value [_parse_timestamp] returns. *)
Definition parsed_timestamp (fromisoformat : string -> pyres datetime) (v : json) : json :=
  match DatabaseManager._parse_timestamp fromisoformat v with
  | Ok t => t
  | Raise _ => JNull
  end.

(** The cells of the row that the INSERT of [add_finally_record] writes
    for a record, or the exception of the driver or of the schema. *)
Definition cells_of (fromisoformat : string -> pyres datetime) (d : FinallyData.t)
  : pyres (list sqlval) :=
  (vals <- bind_params
             (insert_parameters
                (parsed_timestamp fromisoformat (FinallyData.profile_created_at d)) d) ;;
   store_cells finally_schema vals)%py.

(** The store after one more row of finally_table. *)
Definition with_new_finally_row (s : Store) (cells : list sqlval) : Store :=
  let rowid := next_id (finally_seq s) (map f_id (finally_table s)) in
  set_finally s (finally_table s ++ [mkFinallyRow rowid cells (clock s)]) rowid.

(** A sequence attribute is flattened from its container: the edges of a
    dict that has them, the empty list in the three other cases. *)
Definition flattened (kvs : list (string * json)) (key : string) (value : json) : Prop :=
  (assoc key kvs = None -> value = JList []) /\
  (forall c, assoc key kvs = Some c -> is_dict c = false -> value = JList []) /\
  (forall container,
      assoc key kvs = Some (JDict container) ->
      assoc "edges" container = None -> value = JList []) /\
  (forall container edges,
      assoc key kvs = Some (JDict container) ->
      assoc "edges" container = Some edges -> value = edges).

(** ** Vocabulary for stage 2 *)

(** What the loop of [profile_info_search] computes for one staged
    record before it touches the store: the profile, [None] when the API
    has none for the identity, or the exception that ends the stage. *)
Definition fetch_profile (client_post : json -> http_reply)
    (build_profile_info_query : json -> json) (username : json)
  : pyres (option FinallyData.t) :=
  let response := graphql_post_request client_post (build_profile_info_query username) in
  (data <- getitem response "data" ;;
   user_data <- getitem data "user" ;;
   DataManager.process_profile user_data)%py.

(** The loop of [profile_info_search] over the listed records. *)
Fixpoint enrich (fromisoformat : string -> pyres datetime)
    (client_post : json -> http_reply) (build_profile_info_query : json -> json)
    (hunters : list PrimaryData.t) (s : Store) : pyres unit * Store :=
  match hunters with
  | [] => (Ok tt, s)
  | hunter :: rest =>
      match fetch_profile client_post build_profile_info_query
              (PrimaryData.username hunter) with
      | Raise e => (Raise e, s)
      | Ok None => enrich fromisoformat client_post build_profile_info_query rest s
      | Ok (Some d) =>
          if available s then
            match cells_of fromisoformat d with
            | Ok cells =>
                enrich fromisoformat client_post build_profile_info_query rest
                  (with_new_finally_row s cells)
            | Raise e => (Raise e, s)
            end
          else (Raise OperationalError, s)
      end
  end.

(** The records stage 2 works through: the listing with its default
    limit. *)
Definition listed (s : Store) : list PrimaryData.t :=
  map primary_data_of_row (sql_limit 100 (order_desc p_created_at (primary_table s))).

(** The usernames of finally_table, row by row. *)
Definition identities (s : Store) : list sqlval :=
  map (column "username") (finally_table s).

(** ** A sample world *)

Definition empty_store : Store := mkStore [] 0 [] 0 O true.

Definition at_time (t : timestamp) (s : Store) : Store :=
  mkStore (primary_table s) (primary_seq s) (finally_table s) (finally_seq s) t
    (available s).

(** A stand-in for the query builder: the query names the identity. *)
Definition sample_query (username : json) : json :=
  JDict [("operationName", JStr "ProfileInfo");
         ("variables", JDict [("username", username)])].

Definition profile_response (user : json) : http_reply :=
  Response 200 (Ok (JDict [("data", JDict [("user", user)])])).

Definition bob_profile (resolved : Z) : json :=
  JDict [("username", JStr "bob"); ("resolved_report_count", JNum resolved)].

(** A remote that cannot be reached for alice, has no profile for carol,
    and has bob's profile with [resolved] reports. *)
Definition sample_remote (resolved : Z) (query : json) : http_reply :=
  match query with
  | JDict [_; (_, JDict [(_, JStr who)])] =>
      if String.eqb who "alice" then PostRaised
      else if String.eqb who "bob" then profile_response (bob_profile resolved)
      else if String.eqb who "carol" then profile_response JNull
      else Response 404 (Raise ValueError)
  | _ => Response 400 (Raise ValueError)
  end.

Definition staged (rowid : Z) (who : string) (t : timestamp) : PrimaryRow :=
  mkPrimaryRow rowid (SText who) (SText "Disclosed")
    (JDict [("__typename", JStr "Disclosed");
            ("reporter", JDict [("username", JStr who)])]) t.

Definition store_of (rows : list PrimaryRow) : Store :=
  mkStore rows (Z.of_nat (List.length rows)) [] 0 10%nat true.

(** What is looked at in a row of finally_table: id, username, report
    count, creation time. *)
Definition summary (r : FinallyRow) : Z * sqlval * sqlval * timestamp :=
  (f_id r, column "username" r, column "resolved_report_count" r, f_created_at r).

(** ** Vocabulary for the listing *)

(** Newest first: no row is followed by a newer one. *)
Definition newest_first (rows : list PrimaryRow) : Prop :=
  StronglySorted (fun a b => (p_created_at b <= p_created_at a)%nat) rows.

(** A hundred and one identities, staged one second apart. *)
Definition crowd : list PrimaryRow :=
  map (fun i => staged (Z.of_nat i) (string_of_nat i) i) (seq 1 101).

Definition names_user (who : string) (hunter : PrimaryData.t) : bool :=
  match PrimaryData.username hunter with
  | JStr n => String.eqb n who
  | _ => false
  end.

(** The row stage 2 writes for a listed record: the username cell is the
    bound username of the profile fetched for the record. *)
Definition enriched_as (client_post : json -> http_reply)
    (build_profile_info_query : json -> json)
    (hunter : PrimaryData.t) (row : FinallyRow) : Prop :=
  exists d u,
    fetch_profile client_post build_profile_info_query (PrimaryData.username hunter)
    = Ok (Some d) /\
    bind_param (FinallyData.username d) = Ok u /\
    column "username" row = apply_affinity AffText u.

(** The fetch for the record gives a profile that can be stored. *)
Definition fetch_stores (client_post : json -> http_reply)
    (build_profile_info_query : json -> json) (hunter : PrimaryData.t) : Prop :=
  exists d,
    fetch_profile client_post build_profile_info_query (PrimaryData.username hunter)
    = Ok (Some d) /\
    storable d = true.

(** ** Vocabulary for timestamps and searches *)



(** A stand-in for the reconstruction of a row that the class does not
    define: it reads the key, the scalar columns and the creation time,
    and leaves the two sequences empty. *)
Definition sample_from_db_row (row : FinallyRow) : pyres FinallyData.t :=
  let cell := fun field => py_of_sql (column field row) in
  Ok (FinallyData.mk (Some (f_id row))
        (cell "username") (cell "name") (cell "intro") (cell "profileActivated")
        (cell "profile_created_at") (cell "location") (cell "website") (cell "bio")
        (cell "bugcrowd_handle") (cell "hack_the_box_handle") (cell "github_handle")
        (cell "gitlab_handle") (cell "linkedin_handle") (cell "twitter_handle")
        (cell "cleared") (cell "verified") (cell "open_for_employment")
        (cell "mark_as_company_on_leaderboards") (cell "resolved_report_count")
        (cell "thanks_items_total_count") (JList []) (JList [])
        (Some (f_created_at row))).

(** The rows a search on the username selects. *)
Definition username_matches (search_query : string) (s : Store) : list FinallyRow :=
  filter (fun r => sql_like (column "username" r) ("%" ++ search_query ++ "%")%string)
    (finally_table s).

(** The cells the UPDATE of [update_finally_record] writes after the
    username, or the exception of the driver or of the schema. *)
Definition update_cells_of (fromisoformat : string -> pyres datetime) (d : FinallyData.t)
  : pyres (list sqlval) :=
  (vals <- bind_params
             (update_parameters
                (parsed_timestamp fromisoformat (FinallyData.profile_created_at d)) d) ;;
   store_cells (tl finally_schema) vals)%py.

(** A row after the UPDATE: key, username and creation time stay, the 21
    other columns are replaced. *)
Definition overwritten (cells : list sqlval) (r : FinallyRow) : FinallyRow :=
  mkFinallyRow (f_id r) (column "username" r :: cells) (f_created_at r).

(** The text with its ASCII capitals made small. *)
Fixpoint fold_case (s : string) : string :=
  match s with
  | EmptyString => EmptyString
  | String c r => String (lower c) (fold_case r)
  end.

(** A query without the wildcards of LIKE. *)
Fixpoint plain (q : string) : bool :=
  match q with
  | EmptyString => true
  | String c r => negb (Ascii.eqb c "%") && negb (Ascii.eqb c "_") && plain r
  end.

(** [q] occurs in [s], letters compared without case. *)
Definition occurs_in (q s : string) : Prop :=
  exists pre mid post,
    s = (pre ++ mid ++ post)%string /\ fold_case mid = fold_case q.

(** A stand-in for the builder of the bulk query, and a remote that
    answers every bulk query with the same page of three nodes. *)
Definition sample_search_query (size offset : Z) : json :=
  JDict [("operationName", JStr "HacktivitySearch");
         ("variables", JDict [("size", JNum size); ("from", JNum offset)])].

Definition sample_page (query : json) : http_reply :=
  Response 200
    (Ok (JDict [("data",
           JDict [("search",
             JDict [("nodes", JList [alice_node; redacted_node; bob_node])])])])).

(** ** Vocabulary for the leaderboard edges and for stage 1 *)

(** An edge from which [process_edges] can read its four entries. *)
Definition edge_shaped (edge : json) : bool :=
  match getitem edge "node" with
  | Ok node =>
      match getitem node "user" with
      | Ok user =>
          match getitem user "username", getitem edge "__typename" with
          | Ok _, Ok _ => true
          | _, _ => false
          end
      | Raise _ => false
      end
  | Raise _ => false
  end.

(** The record of an edge: the username two levels down, the type tag
    of the edge, and the whole edge. *)
Definition is_edge_record (edge : json) (record : PrimaryData.t) : Prop :=
  (exists node user,
      getitem edge "node" = Ok node /\
      getitem node "user" = Ok user /\
      getitem user "username" = Ok (PrimaryData.username record)) /\
  getitem edge "__typename" = Ok (PrimaryData.source record) /\
  PrimaryData.json_info record = edge /\
  PrimaryData.id record = None /\
  PrimaryData.created_at record = None.

(** The request brought no usable answer: [client.post] raised, the
    status is not 200, or the body is no JSON. *)
Definition transport_fails (client_post : json -> http_reply) (query : json) : Prop :=
  client_post query = PostRaised \/
  (exists status_code body, client_post query = Response status_code body /\ status_code <> 200) \/
  (exists e, client_post query = Response 200 (Raise e)).

(** The nodes of a page, where the response has them. *)
Definition page_nodes (response : json) : pyres json :=
  (data <- getitem response "data" ;;
   search <- getitem data "search" ;;
   getitem search "nodes")%py.

(** A record that [add_primary_record] can write: username and source
    of types the driver takes, and not None. *)
Definition stageable (record : PrimaryData.t) : bool :=
  bindable (PrimaryData.username record)
  && negb (is_none (PrimaryData.username record))
  && bindable (PrimaryData.source record)
  && negb (is_none (PrimaryData.source record)).

(** The row written for a record at time [t]. *)
Definition staged_as (t : timestamp) (record : PrimaryData.t) (row : PrimaryRow) : Prop :=
  (exists u, bind_param (PrimaryData.username record) = Ok u /\
             p_username row = apply_affinity AffText u) /\
  (exists src, bind_param (PrimaryData.source record) = Ok src /\
               p_source row = apply_affinity AffText src) /\
  p_json_info row = PrimaryData.json_info record /\
  p_created_at row = t.

Definition null_user_edge : json :=
  JDict [("__typename", JStr "LeaderboardEdge"); ("node", JDict [("user", JNull)])].

Definition carol_edge : json :=
  JDict [("__typename", JStr "LeaderboardEdge");
         ("node", JDict [("user", JDict [("username", JStr "carol")])])].

(** ** Vocabulary for the keys *)

(** The keys of a table grow along the table and none is above the
    AUTOINCREMENT counter. *)
Definition table_keys_ok (ids : list Z) (seq : Z) : Prop :=
  StronglySorted Z.lt ids /\ Forall (fun i => i <= seq) ids.

Definition keys_ok (s : Store) : Prop :=
  table_keys_ok (map p_id (primary_table s)) (primary_seq s) /\
  table_keys_ok (map f_id (finally_table s)) (finally_seq s).

(** From [s] to [s']: the keys are still in order and the two counters
    have not gone back. *)
Definition advances (s s' : Store) : Prop :=
  keys_ok s' /\ primary_seq s <= primary_seq s' /\ finally_seq s <= finally_seq s'.

(** The row of primary_table after the UPDATE of
    [update_primary_record]: key and creation time stay. *)
Definition rewritten (u src : sqlval) (json_info : json) (r : PrimaryRow) : PrimaryRow :=
  mkPrimaryRow (p_id r) (apply_affinity AffText u) (apply_affinity AffText src)
    json_info (p_created_at r).

Definition has_id (record_id : Z) (r : PrimaryRow) : bool := p_id r =? record_id.

Definition has_key (record_id : Z) (r : FinallyRow) : bool := f_id r =? record_id.

Definition keys_unique (s : Store) : Prop :=
  NoDup (map p_id (primary_table s)) /\ NoDup (map f_id (finally_table s)).

(** The text LIKE compares a cell with. *)
Definition cell_text (c : sqlval) : option string :=
  match c with
  | SNull => None
  | SInt z => Some (string_of_Z z)
  | SText t => Some t
  end.

(** ** get_statistics *)

(** Equality of two cells as DISTINCT sees it. *)
Definition same_cell (a b : sqlval) : bool :=
  match a, b with
  | SNull, SNull => true
  | SInt x, SInt y => x =? y
  | SText x, SText y => String.eqb x y
  | _, _ => false
  end.

Fixpoint distinct_cells (l : list sqlval) : list sqlval :=
  match l with
  | [] => []
  | c :: r => if existsb (same_cell c) r then distinct_cells r else c :: distinct_cells r
  end.

(** COUNT(DISTINCT column): NULL is not counted. *)
Definition count_distinct (cells : list sqlval) : nat :=
  List.length (distinct_cells (filter (fun c => negb (is_null c)) cells)).

(** MAX(created_at): NULL over no row. *)
Definition sql_max (times : list timestamp) : option timestamp :=
  match times with
  | [] => None
  | t :: r => Some (fold_right Nat.max t r)
  end.

(** The dict [get_statistics] returns when no statement fails. *)
Record Statistics : Type := mkStatistics {
  primary_count : nat;
  finally_count : nat;
  unique_sources : nat;
  last_primary : option timestamp;
  last_finally : option timestamp
}.

(** One SELECT with a single result. *)
Definition query {A} (result : Store -> A) : M A :=
  (engine ;;; s <- get_store ;; ret (result s))%db.

(** [None] stands for the empty dict of the except clause. *)
Definition get_statistics : M (option Statistics) :=
  try_except
    (primary_count <- query (fun s => List.length (primary_table s)) ;;
     finally_count <- query (fun s => List.length (finally_table s)) ;;
     unique_sources <- query (fun s => count_distinct (map p_source (primary_table s))) ;;
     last_primary <- query (fun s => sql_max (map p_created_at (primary_table s))) ;;
     last_finally <- query (fun s => sql_max (map f_created_at (finally_table s))) ;;
     ret (Some (mkStatistics primary_count finally_count unique_sources
                  last_primary last_finally)))%db
    (fun _ => ret None).

(** * Properties *)

(** ** The normalizer: process_nodes *)

Lemma process_node_skips (node reporter : json) :
  getitem node "reporter" = Ok reporter ->
  truthy reporter = false ->
  DataManager.process_node node = Ok [].
Proof.
  intros Hrep Hfalsy. unfold DataManager.process_node.
  rewrite Hrep. simpl. now rewrite Hfalsy.
Qed.

Lemma process_node_record (node : json) :
  well_shaped node = true ->
  carries_reporter node = true ->
  exists record,
    DataManager.process_node node = Ok [record] /\ is_record_of node record.
Proof.
  unfold well_shaped, carries_reporter, DataManager.process_node.
  destruct (getitem node "reporter") as [reporter|e] eqn:Hrep; [|discriminate].
  intros Hshape Htruthy. simpl. rewrite Htruthy in *.
  destruct (getitem reporter "username") as [username|] eqn:Huser; [|discriminate].
  destruct (getitem node "__typename") as [source|] eqn:Hsrc; [|discriminate].
  simpl. eexists. split; [reflexivity|].
  repeat split; simpl; try assumption.
  exists reporter. now split.
Qed.

Lemma process_node_ill_shaped (node : json) :
  well_shaped node = false ->
  exists e, DataManager.process_node node = Raise e.
Proof.
  unfold well_shaped, DataManager.process_node.
  destruct (getitem node "reporter") as [reporter|e]; simpl; [|now eexists].
  destruct (truthy reporter); [|discriminate].
  destruct (getitem reporter "username"); simpl; [|now eexists].
  destruct (getitem node "__typename"); simpl; [discriminate|now eexists].
Qed.

(** A sequence with an ill-shaped node is not normalized at all: the
    exception of the first such node leaves the function. *)
Lemma process_nodes_ill_shaped (nodes : list json) :
  forallb well_shaped nodes = false ->
  exists e, DataManager.process_nodes nodes = Raise e.
Proof.
  induction nodes as [|node rest IH]; simpl; [discriminate|].
  intros H. apply andb_false_iff in H.
  destruct (well_shaped node) eqn:Hshape.
  - destruct H as [H|H]; [discriminate|]. destruct (IH H) as [e He].
    destruct (DataManager.process_node node); simpl; [|now eexists].
    rewrite He. now eexists.
  - destruct (process_node_ill_shaped node Hshape) as [e He].
    rewrite He. now eexists.
Qed.

(** C6, as amended: on nodes of the API's shape, process_nodes gives one
    record per node that carries a reporter and none for the others, in
    the order of the input; each record has the reporter's username, the
    node's type tag and the whole node. *)
Theorem process_nodes_one_record_per_reporter (nodes : list json) :
  forallb well_shaped nodes = true ->
  exists data,
    DataManager.process_nodes nodes = Ok data /\
    Forall2 is_record_of (filter carries_reporter nodes) data.
Proof.
  induction nodes as [|node rest IH]; simpl; intros Hshape.
  - exists []. split; [reflexivity|constructor].
  - apply andb_true_iff in Hshape. destruct Hshape as [Hnode Hrest].
    destruct (IH Hrest) as [data [Hdata Hrecords]]. rewrite Hdata.
    destruct (carries_reporter node) eqn:Hcarries.
    + destruct (process_node_record node Hnode Hcarries) as [record [Hrun Hrec]].
      rewrite Hrun. simpl. exists (record :: data). split; [reflexivity|].
      now constructor.
    + unfold carries_reporter in Hcarries. unfold well_shaped in Hnode.
      destruct (getitem node "reporter") as [reporter|] eqn:Hrep; [|discriminate].
      rewrite (process_node_skips node reporter Hrep Hcarries). simpl.
      exists data. now split.
Qed.

Lemma process_nodes_one_record_per_reporter_witness :
  exists data,
    DataManager.process_nodes [alice_node; redacted_node; bob_node] = Ok data /\
    Forall2 is_record_of [alice_node; bob_node] data.
Proof.
  exact (process_nodes_one_record_per_reporter
           [alice_node; redacted_node; bob_node] eq_refl).
Defined.

Example process_nodes_run :
  DataManager.process_nodes [alice_node; redacted_node; bob_node]
  = Ok [ PrimaryData.mk None (JStr "alice") (JStr "Disclosed") alice_node None;
         PrimaryData.mk None (JStr "bob") (JStr "Undisclosed") bob_node None ].
Proof. reflexivity. Qed.

(** C6, as stated, fails: a node without a reporter entry carries no
    reporter information, and it is not skipped; the lookup raises and no
    record of the sequence is produced, not even those of the nodes that
    do have a reporter. *)
Lemma process_nodes_missing_reporter_raises :
  carries_reporter bare_node = false /\
  DataManager.process_nodes [alice_node; bare_node] = Raise KeyError /\
  ~ (forall nodes, exists data, DataManager.process_nodes nodes = Ok data).
Proof.
  split; [reflexivity|]. split; [reflexivity|].
  intros H. destruct (H [alice_node; bare_node]) as [data Hdata]. discriminate.
Qed.

Example json_dumps_run :
  json_dumps (JDict [("a", JList [JNum 0; JNum (-20); JNull; JBool true]);
                     ("b", JStr "x\y")])
  = ("{" ++ dquote ++ "a" ++ dquote ++ ": [0, -20, null, true], "
     ++ dquote ++ "b" ++ dquote ++ ": " ++ dquote ++ "x\\y" ++ dquote ++ "}")%string /\
  json_dumps (JList []) = "[]" /\
  json_dumps (JStr (String (ascii_of_nat 10) (String (ascii_of_nat 1) EmptyString)))
  = (dquote ++ "\n\u0001" ++ dquote)%string.
Proof. repeat split. Qed.

(** ** The normalizer: from_user_data *)

Lemma from_user_data_dict (kvs : list (string * json)) :
  FinallyData.from_user_data (JDict kvs)
  = Ok (FinallyData.mk None
          (entry_or kvs "username" (JStr ""))
          (entry_or kvs "name" JNull)
          (entry_or kvs "intro" JNull)
          (entry_or kvs "profileActivated" (JBool false))
          (entry_or kvs "created_at" JNull)
          (entry_or kvs "location" JNull)
          (entry_or kvs "website" JNull)
          (entry_or kvs "bio" JNull)
          (entry_or kvs "bugcrowd_handle" JNull)
          (entry_or kvs "hack_the_box_handle" JNull)
          (entry_or kvs "github_handle" JNull)
          (entry_or kvs "gitlab_handle" JNull)
          (entry_or kvs "linkedin_handle" JNull)
          (entry_or kvs "twitter_handle" JNull)
          (entry_or kvs "cleared" (JBool false))
          (entry_or kvs "verified" (JBool false))
          (entry_or kvs "open_for_employment" JNull)
          (entry_or kvs "mark_as_company_on_leaderboards" (JBool false))
          (entry_or kvs "resolved_report_count" (JNum 0))
          (entry_or kvs "thanks_items_total_count" (JNum 0))
          (edges_or_empty kvs "badges")
          (edges_or_empty kvs "public_reviews")
          None).
Proof.
  unfold FinallyData.from_user_data, FinallyData.edges_of, edges_or_empty, entry_or.
  cbn [dict_get pbind].
  destruct (assoc "badges" kvs) as [[]|];
    destruct (assoc "public_reviews" kvs) as [[]|]; reflexivity.
Qed.

Lemma from_user_data_not_dict (user_data : json) :
  is_dict user_data = false ->
  FinallyData.from_user_data user_data = Raise AttributeError.
Proof. destruct user_data; simpl; intros H; try reflexivity; discriminate. Qed.

(** ** Timestamps *)

Lemma parse_timestamp_returns (fromisoformat : string -> pyres datetime) (v : json) :
  DatabaseManager._parse_timestamp fromisoformat v
  = Ok (parsed_timestamp fromisoformat v).
Proof.
  unfold parsed_timestamp, DatabaseManager._parse_timestamp.
  destruct (negb (truthy v)); [reflexivity|].
  destruct (py_replace_Z v) as [s|]; simpl; [|reflexivity].
  destruct (fromisoformat s); reflexivity.
Qed.

Lemma parsed_timestamp_cases (fromisoformat : string -> pyres datetime) (v : json) :
  parsed_timestamp fromisoformat v = JNull \/
  exists s dt,
    v = JStr s /\ fromisoformat (replace_Z s) = Ok dt /\
    parsed_timestamp fromisoformat v = JStr (strftime dt).
Proof.
  unfold parsed_timestamp, DatabaseManager._parse_timestamp.
  destruct (negb (truthy v)); [now left|].
  destruct v; simpl; try (now left).
  destruct (fromisoformat (replace_Z s)) as [dt|] eqn:Hparse; simpl; [|now left].
  right. now exists s, dt.
Qed.

Lemma parsed_timestamp_bindable (fromisoformat : string -> pyres datetime) (v : json) :
  exists c, bind_param (parsed_timestamp fromisoformat v) = Ok c.
Proof.
  destruct (parsed_timestamp_cases fromisoformat v) as [H|[s [dt [_ [_ H]]]]];
    rewrite H; simpl; now eexists.
Qed.

(** ** The INSERT of add_finally_record *)

Lemma add_finally_record_none (fromisoformat : string -> pyres datetime) (s : Store) :
  DatabaseManager.add_finally_record fromisoformat None s = (Ok None, s).
Proof. reflexivity. Qed.

Lemma add_finally_record_some
    (fromisoformat : string -> pyres datetime) (d : FinallyData.t) (s : Store) :
  DatabaseManager.add_finally_record fromisoformat (Some d) s
  = if available s then
      match cells_of fromisoformat d with
      | Ok cells =>
          (Ok (Some (next_id (finally_seq s) (map f_id (finally_table s)))),
           with_new_finally_row s cells)
      | Raise e => (Raise e, s)
      end
    else (Raise OperationalError, s).
Proof.
  unfold DatabaseManager.add_finally_record, try_except, mbind, engine, lift, cells_of.
  destruct (available s) eqn:Havail; [|reflexivity].
  cbn [to_db_dict getitem assoc String.eqb Ascii.eqb Bool.eqb sequence pbind].
  rewrite parse_timestamp_returns. cbn [pbind].
  unfold insert_parameters, update_parameters.
  match goal with |- context [bind_params ?l] => destruct (bind_params l) as [vals|] end;
    [|reflexivity].
  cbn [pbind]. unfold insert_finally, with_new_finally_row, ret.
  destruct (store_cells finally_schema vals); reflexivity.
Qed.

Lemma bindable_binds (v : json) :
  bindable v = true -> exists c, bind_param v = Ok c.
Proof.
  unfold bindable. destruct (bind_param v) as [c|]; [now exists c|discriminate].
Qed.

Lemma bound_username_not_null (v : json) (c : sqlval) :
  is_none v = false -> bind_param v = Ok c -> is_null c = false.
Proof.
  destruct v; simpl; try discriminate; intros _ H;
    repeat match type of H with
           | context [if ?b then _ else _] => destruct b
           end;
    inversion H; reflexivity.
Qed.

Lemma affinity_keeps_not_null (a : affinity) (c : sqlval) :
  is_null c = false -> is_null (apply_affinity a c) = false.
Proof. destruct a, c; simpl; congruence. Qed.

(** A storable record always yields a row: the username cell is the bound
    username, and the two sequence columns hold the serialized sequences,
    never NULL. *)
Lemma cells_of_storable (fromisoformat : string -> pyres datetime) (d : FinallyData.t) :
  storable d = true ->
  exists u cells,
    bind_param (FinallyData.username d) = Ok u /\
    is_null u = false /\
    cells_of fromisoformat d = Ok cells /\
    List.length cells = 22%nat /\
    nth 0 cells SNull = apply_affinity AffText u /\
    nth 20 cells SNull = SText (json_dumps (FinallyData.badges_json d)) /\
    nth 21 cells SNull = SText (json_dumps (FinallyData.public_reviews_json d)).
Proof.
  unfold storable, scalars. intros H.
  apply andb_true_iff in H. destruct H as [H Hscalars].
  apply andb_true_iff in H. destruct H as [Hnone Huser].
  apply negb_true_iff in Hnone.
  destruct (bindable_binds _ Huser) as [u Hu].
  pose proof (bound_username_not_null _ _ Hnone Hu) as Hnull.
  cbn [forallb] in Hscalars.
  repeat match type of Hscalars with
         | (_ && _) = true =>
             let H1 := fresh "Hb" in
             apply andb_true_iff in Hscalars; destruct Hscalars as [H1 Hscalars];
             apply bindable_binds in H1; destruct H1 as [? H1]
         end.
  clear Hscalars.
  destruct (parsed_timestamp_bindable fromisoformat (FinallyData.profile_created_at d))
    as [ts Hts].
  unfold cells_of, insert_parameters, update_parameters.
  cbn [bind_params].
  repeat match goal with
         | H : bind_param _ = Ok _ |- _ => rewrite H; clear H
         end.
  cbn [pbind bind_param].
  cbn [store_cells finally_schema andb is_null pbind].
  rewrite Hnull. cbn [andb pbind].
  eexists u, _. split; [reflexivity|]. split; [assumption|].
  split; [reflexivity|]. repeat split.
Qed.

(** ** Reads of finally_table *)

Lemma comprehension_raises {A B} (f : A -> pyres B) (l : list A) (x : A) (e : exn) :
  In x l -> f x = Raise e -> exists e', comprehension f l = Raise e'.
Proof.
  unfold comprehension. induction l as [|y r IH]; simpl; [contradiction|].
  intros [Heq|Hin] Hf.
  - subst y. rewrite Hf. now eexists.
  - destruct (f y); simpl; [|now eexists].
    destruct (IH Hin Hf) as [e' He']. rewrite He'. now eexists.
Qed.

Section Reads.

Variable from_db_row : FinallyRow -> pyres FinallyData.t.

Lemma get_finally_by_username_returns (username : json) (s : Store) :
  exists r, DatabaseManager.get_finally_by_username from_db_row username s = (Ok r, s).
Proof.
  unfold DatabaseManager.get_finally_by_username, try_except, mbind, engine, lift,
    get_store, ret.
  destruct (available s); [|now eexists].
  destruct (bind_param username) as [u|]; [|now eexists].
  destruct (fetchone _) as [row|]; [|now eexists].
  destruct (from_db_row row); now eexists.
Qed.

Lemma get_finally_by_username_unavailable (username : json) (s : Store) :
  available s = false ->
  DatabaseManager.get_finally_by_username from_db_row username s = (Ok None, s).
Proof.
  intros H. unfold DatabaseManager.get_finally_by_username, try_except, mbind, engine.
  now rewrite H.
Qed.

Lemma get_finally_by_username_undecodable
    (username : json) (s : Store) (u : sqlval) (row : FinallyRow) (e : exn) :
  bind_param username = Ok u ->
  fetchone (filter (username_is u) (finally_table s)) = Some row ->
  from_db_row row = Raise e ->
  DatabaseManager.get_finally_by_username from_db_row username s = (Ok None, s).
Proof.
  intros Hu Hrow He.
  unfold DatabaseManager.get_finally_by_username, try_except, mbind, engine, lift,
    get_store, ret.
  destruct (available s); [|reflexivity].
  now rewrite Hu, Hrow, He.
Qed.

Lemma get_finally_by_id_returns (record_id : Z) (s : Store) :
  exists r, DatabaseManager.get_finally_by_id from_db_row record_id s = (Ok r, s).
Proof.
  unfold DatabaseManager.get_finally_by_id, try_except, mbind, engine, lift,
    get_store, ret.
  destruct (available s); [|now eexists].
  destruct (fetchone _) as [row|]; [|now eexists].
  destruct (from_db_row row); now eexists.
Qed.

Lemma get_finally_by_id_failure (record_id : Z) (s : Store) :
  (available s = false \/
   exists row e,
     fetchone (filter (fun r => f_id r =? record_id) (finally_table s)) = Some row /\
     from_db_row row = Raise e) ->
  DatabaseManager.get_finally_by_id from_db_row record_id s = (Ok None, s).
Proof.
  unfold DatabaseManager.get_finally_by_id, try_except, mbind, engine, lift,
    get_store, ret.
  intros [H|[row [e [Hrow He]]]].
  - now rewrite H.
  - destruct (available s); [|reflexivity]. now rewrite Hrow, He.
Qed.

Lemma get_all_finally_records_returns (limit : Z) (s : Store) :
  exists l, DatabaseManager.get_all_finally_records from_db_row limit s = (Ok l, s).
Proof.
  unfold DatabaseManager.get_all_finally_records, try_except, mbind, engine, lift,
    get_store, ret.
  destruct (available s); [|now eexists].
  destruct (limit_literal limit); [|now eexists].
  destruct (comprehension _ _); now eexists.
Qed.

Lemma get_all_finally_records_failure (limit : Z) (s : Store) :
  (available s = false \/
   exists row e,
     In row (sql_limit limit (order_desc f_created_at (finally_table s))) /\
     from_db_row row = Raise e) ->
  DatabaseManager.get_all_finally_records from_db_row limit s = (Ok [], s).
Proof.
  unfold DatabaseManager.get_all_finally_records, try_except, mbind, engine, lift,
    get_store, ret.
  intros [H|[row [e [Hrow He]]]].
  - now rewrite H.
  - destruct (available s); [|reflexivity].
    destruct (limit_literal limit); [|reflexivity].
    destruct (comprehension_raises from_db_row _ row e Hrow He) as [e' He'].
    now rewrite He'.
Qed.

Lemma search_finally_records_returns (search_query field : string) (s : Store) :
  exists l,
    DatabaseManager.search_finally_records from_db_row search_query field s = (Ok l, s).
Proof.
  unfold DatabaseManager.search_finally_records, try_except, mbind, engine, lift,
    select_like, ret.
  destruct (available s); [|now eexists].
  destruct (column_index _ _); [|now eexists].
  destruct (comprehension _ _); now eexists.
Qed.

Lemma search_finally_records_failure (search_query field : string) (s : Store) :
  (available s = false \/
   exists row e,
     In row (finally_table s) /\
     sql_like (column (if negb (existsb (String.eqb field) DatabaseManager.valid_fields)
                       then "username" else field) row)
              ("%" ++ search_query ++ "%")%string = true /\
     from_db_row row = Raise e) ->
  DatabaseManager.search_finally_records from_db_row search_query field s = (Ok [], s).
Proof.
  unfold DatabaseManager.search_finally_records, try_except, mbind, engine, lift,
    select_like, ret.
  intros [H|[row [e [Hrow [Hlike He]]]]].
  - now rewrite H.
  - destruct (available s); [|reflexivity].
    destruct (column_index _ _); [|reflexivity].
    match goal with
    | |- context [comprehension from_db_row ?l] =>
        destruct (comprehension_raises from_db_row l row e) as [e' He'];
          [apply filter_In; now split|assumption|now rewrite He']
    end.
Qed.

End Reads.

(** C4: the four reads of finally_table always return, whatever the
    reconstruction of a row does and whether or not the engine can run
    the query, and they leave the store as it is.  When the engine fails,
    or when the reconstruction of a selected row raises, a lookup gives
    [None] and a listing or a search gives the empty list; so an
    identity whose row cannot be reconstructed is reported as absent. *)
Theorem finally_reads_never_raise
    (from_db_row : FinallyRow -> pyres FinallyData.t) (s : Store) :
  (forall username, exists r,
      DatabaseManager.get_finally_by_username from_db_row username s = (Ok r, s)) /\
  (forall record_id, exists r,
      DatabaseManager.get_finally_by_id from_db_row record_id s = (Ok r, s)) /\
  (forall limit, exists l,
      DatabaseManager.get_all_finally_records from_db_row limit s = (Ok l, s)) /\
  (forall search_query field, exists l,
      DatabaseManager.search_finally_records from_db_row search_query field s = (Ok l, s)) /\
  (forall username,
      available s = false ->
      DatabaseManager.get_finally_by_username from_db_row username s = (Ok None, s)) /\
  (forall username u row e,
      bind_param username = Ok u ->
      fetchone (filter (username_is u) (finally_table s)) = Some row ->
      from_db_row row = Raise e ->
      DatabaseManager.get_finally_by_username from_db_row username s = (Ok None, s)) /\
  (forall record_id,
      (available s = false \/
       exists row e,
         fetchone (filter (fun r => f_id r =? record_id) (finally_table s)) = Some row /\
         from_db_row row = Raise e) ->
      DatabaseManager.get_finally_by_id from_db_row record_id s = (Ok None, s)) /\
  (forall limit,
      (available s = false \/
       exists row e,
         In row (sql_limit limit (order_desc f_created_at (finally_table s))) /\
         from_db_row row = Raise e) ->
      DatabaseManager.get_all_finally_records from_db_row limit s = (Ok [], s)) /\
  (forall search_query field,
      (available s = false \/
       exists row e,
         In row (finally_table s) /\
         sql_like (column (if negb (existsb (String.eqb field) DatabaseManager.valid_fields)
                           then "username" else field) row)
                  ("%" ++ search_query ++ "%")%string = true /\
         from_db_row row = Raise e) ->
      DatabaseManager.search_finally_records from_db_row search_query field s = (Ok [], s)).
Proof.
  repeat split; intros.
  - apply get_finally_by_username_returns.
  - apply get_finally_by_id_returns.
  - apply get_all_finally_records_returns.
  - apply search_finally_records_returns.
  - now apply get_finally_by_username_unavailable.
  - eapply get_finally_by_username_undecodable; eassumption.
  - now apply get_finally_by_id_failure.
  - now apply get_all_finally_records_failure.
  - now apply search_finally_records_failure.
Qed.

(** With the class as it is written, no row can be reconstructed: the
    lookup by username answers [None] for every username and every
    store. *)
Lemma get_finally_by_username_as_written (username : json) (s : Store) :
  DatabaseManager.get_finally_by_username FinallyData_from_db_row username s = (Ok None, s).
Proof.
  unfold DatabaseManager.get_finally_by_username, try_except, mbind, engine, lift,
    get_store, ret, FinallyData_from_db_row.
  destruct (available s); [|reflexivity].
  destruct (bind_param username); [|reflexivity].
  destruct (fetchone _); reflexivity.
Qed.

(** ** The upsert *)

(** As written, the upsert never reaches its update branch: it is the
    normalization followed by the INSERT. *)
Lemma add_or_update_as_written
    (fromisoformat : string -> pyres datetime) (user_data : json) (s : Store) :
  DatabaseManager.add_or_update_finally_record fromisoformat FinallyData_from_db_row
    user_data s
  = match FinallyData.from_user_data user_data with
    | Ok data => DatabaseManager.add_finally_record fromisoformat (Some data) s
    | Raise e => (Raise e, s)
    end.
Proof.
  unfold DatabaseManager.add_or_update_finally_record, try_except, mbind, lift.
  destruct (FinallyData.from_user_data user_data) as [data|]; [|reflexivity].
  rewrite get_finally_by_username_as_written.
  destruct (DatabaseManager.add_finally_record fromisoformat (Some data) s) as [[r|e] s'];
    reflexivity.
Qed.

Lemma try_except_default_returns {A} (m : M A) (d : A) (s : Store) :
  exists a s', try_except m (fun _ => ret d) s = (Ok a, s').
Proof.
  unfold try_except, ret. destruct (m s) as [[a|e] s']; now eexists _, _.
Qed.

Lemma update_finally_record_returns
    (fromisoformat : string -> pyres datetime) (username : json) (d : FinallyData.t)
    (s : Store) :
  exists b s',
    DatabaseManager.update_finally_record fromisoformat username d s = (Ok b, s').
Proof. apply try_except_default_returns. Qed.

(** Whatever the reconstruction of an existing row gives, the upsert of
    a storable record through an engine that works does not raise. *)
Lemma upsert_of_storable_returns
    (fromisoformat : string -> pyres datetime)
    (from_db_row : FinallyRow -> pyres FinallyData.t)
    (user_data : json) (d : FinallyData.t) (s : Store) :
  FinallyData.from_user_data user_data = Ok d ->
  storable d = true ->
  available s = true ->
  exists r s',
    DatabaseManager.add_or_update_finally_record fromisoformat from_db_row user_data s
    = (Ok r, s').
Proof.
  intros Hd Hstorable Havail.
  unfold DatabaseManager.add_or_update_finally_record, try_except, mbind, lift.
  rewrite Hd.
  destruct (get_finally_by_username_returns from_db_row (FinallyData.username d) s)
    as [existing Hget].
  rewrite Hget. destruct existing as [existing|].
  - destruct (update_finally_record_returns fromisoformat
                (FinallyData.username (keep_existing d existing))
                (keep_existing d existing) s) as [b [s' Hupd]].
    rewrite Hupd. unfold ret. now eexists _, _.
  - rewrite add_finally_record_some, Havail.
    destruct (cells_of_storable fromisoformat d Hstorable)
      as [u [cells [_ [_ [Hcells _]]]]].
    rewrite Hcells. now eexists _, _.
Qed.

(** C8, as amended.  For a profile document (a dict), the missing flags
    profileActivated, cleared, verified and
    mark_as_company_on_leaderboards become false, a missing
    open_for_employment stays absent, the two missing counts become 0;
    badges and public reviews are the edges of their container when the
    container is a dict with an edges entry, and the empty list when the
    container is missing, is not a dict or has no edges entry.  When the
    username is not None and the scalars have types the driver takes, the
    upsert of the document through a working engine does not raise; as
    the code is written it adds a row whose two sequence columns hold the
    serialized sequences. *)
Theorem from_user_data_defaults
    (fromisoformat : string -> pyres datetime)
    (from_db_row : FinallyRow -> pyres FinallyData.t)
    (kvs : list (string * json)) (s : Store) :
  exists d,
    FinallyData.from_user_data (JDict kvs) = Ok d /\
    (assoc "profileActivated" kvs = None -> FinallyData.profileActivated d = JBool false) /\
    (assoc "cleared" kvs = None -> FinallyData.cleared d = JBool false) /\
    (assoc "verified" kvs = None -> FinallyData.verified d = JBool false) /\
    (assoc "mark_as_company_on_leaderboards" kvs = None ->
     FinallyData.mark_as_company_on_leaderboards d = JBool false) /\
    (assoc "open_for_employment" kvs = None -> FinallyData.open_for_employment d = JNull) /\
    (assoc "resolved_report_count" kvs = None ->
     FinallyData.resolved_report_count d = JNum 0) /\
    (assoc "thanks_items_total_count" kvs = None ->
     FinallyData.thanks_items_total_count d = JNum 0) /\
    flattened kvs "badges" (FinallyData.badges_json d) /\
    flattened kvs "public_reviews" (FinallyData.public_reviews_json d) /\
    (storable d = true -> available s = true ->
     (exists r s',
         DatabaseManager.add_or_update_finally_record fromisoformat from_db_row
           (JDict kvs) s = (Ok r, s')) /\
     (exists row,
         DatabaseManager.add_or_update_finally_record fromisoformat
           FinallyData_from_db_row (JDict kvs) s
         = (Ok (Some (f_id row)),
            set_finally s (finally_table s ++ [row]) (f_id row)) /\
         column "badges_json" row = SText (json_dumps (FinallyData.badges_json d)) /\
         column "public_reviews_json" row
         = SText (json_dumps (FinallyData.public_reviews_json d)))).
Proof.
  pose proof (from_user_data_dict kvs) as Hd.
  match type of Hd with _ = Ok ?r => set (d := r) in * end.
  exists d. split; [exact Hd|].
  assert (Hflat : forall key, flattened kvs key (edges_or_empty kvs key)).
  { intros key. unfold flattened, edges_or_empty. repeat split.
    - intros H. now rewrite H.
    - intros c H Hc. rewrite H. destruct c; try reflexivity. discriminate.
    - intros container H He. now rewrite H, He.
    - intros container edges H He. now rewrite H, He. }
  repeat (split; [intros H; subst d; cbn; unfold entry_or; now rewrite H|]).
  split; [apply Hflat|]. split; [apply Hflat|].
  clearbody d. intros Hstorable Havail. split.
  - eapply upsert_of_storable_returns; eassumption.
  - rewrite add_or_update_as_written, Hd, add_finally_record_some, Havail.
    destruct (cells_of_storable fromisoformat _ Hstorable)
      as [u [cells [_ [_ [Hcells [_ [_ [Hbadges Hreviews]]]]]]]].
    rewrite Hcells.
    exists (mkFinallyRow (next_id (finally_seq s) (map f_id (finally_table s)))
              cells (clock s)).
    split; [reflexivity|]. split; [exact Hbadges|exact Hreviews].
Qed.

Lemma from_user_data_defaults_witness :
  exists d,
    FinallyData.from_user_data (JDict [("username", JStr "bob")]) = Ok d /\
    FinallyData.verified d = JBool false /\
    FinallyData.resolved_report_count d = JNum 0 /\
    FinallyData.badges_json d = JList [] /\
    FinallyData.public_reviews_json d = JList [] /\
    exists row,
      DatabaseManager.add_or_update_finally_record iso_reference
        FinallyData_from_db_row (JDict [("username", JStr "bob")]) empty_store
      = (Ok (Some (f_id row)), set_finally empty_store [row] (f_id row)) /\
      column "badges_json" row = SText "[]".
Proof.
  destruct (from_user_data_defaults iso_reference FinallyData_from_db_row
              [("username", JStr "bob")] empty_store)
    as [d [Hd [_ [_ [Hverified [_ [_ [Hcount [_ [Hbadges [Hreviews Hupsert]]]]]]]]]]].
  exists d. split; [exact Hd|].
  split; [apply Hverified; reflexivity|].
  split; [apply Hcount; reflexivity|].
  destruct Hbadges as [Hbadges _]. destruct Hreviews as [Hreviews _].
  split; [apply Hbadges; reflexivity|].
  split; [apply Hreviews; reflexivity|].
  assert (Hstorable : storable d = true).
  { rewrite from_user_data_dict in Hd. inversion Hd. reflexivity. }
  destruct (Hupsert Hstorable eq_refl) as [_ [row [Hrun [Hcol _]]]].
  exists row. split; [exact Hrun|].
  rewrite Hcol, (Hbadges eq_refl). reflexivity.
Defined.

(** C8, as stated, fails in three places: a badges container whose edges
    entry is null gives an absent value, not an empty sequence; a profile
    without open_for_employment gets no boolean for it; and a profile
    whose username is null is refused by the NOT NULL column, so its
    upsert raises. *)
Lemma from_user_data_defaults_counterexample :
  (exists d,
      FinallyData.from_user_data
        (JDict [("username", JStr "bob"); ("badges", JDict [("edges", JNull)])]) = Ok d /\
      FinallyData.badges_json d = JNull) /\
  (exists d,
      FinallyData.from_user_data (JDict [("username", JStr "bob")]) = Ok d /\
      FinallyData.open_for_employment d = JNull) /\
  DatabaseManager.add_or_update_finally_record iso_reference FinallyData_from_db_row
    (JDict [("username", JNull)]) empty_store
  = (Raise IntegrityError, empty_store).
Proof.
  split; [eexists; split; reflexivity|].
  split; [eexists; split; reflexivity|].
  reflexivity.
Qed.

(** ** Stage 2 *)

Section Stage2.

Variable fromisoformat : string -> pyres datetime.
Variable client_post : json -> http_reply.
Variable build_profile_info_query : json -> json.

Let stage2 := profile_info_search fromisoformat client_post build_profile_info_query.
Let loop := enrich fromisoformat client_post build_profile_info_query.

Lemma get_all_primary_records_available (limit : Z) (s : Store) :
  available s = true ->
  DatabaseManager.get_all_primary_records limit s
  = match limit_literal limit with
    | Ok _ =>
        (Ok (map primary_data_of_row
               (sql_limit limit (order_desc p_created_at (primary_table s)))), s)
    | Raise _ => (Ok [], s)
    end.
Proof.
  intros H.
  unfold DatabaseManager.get_all_primary_records, try_except, mbind, engine, get_store,
    ret, lift.
  rewrite H. now destruct (limit_literal limit).
Qed.

Lemma for_each_is_enrich (hunters : list PrimaryData.t) (s : Store) :
  for_each hunters
    (fun hunter =>
       let username := PrimaryData.username hunter in
       let query := build_profile_info_query username in
       let response := graphql_post_request client_post query in
       user_data <- lift (data <- getitem response "data" ;;
                          getitem data "user")%py ;;
       processed_data <- lift (DataManager.process_profile user_data) ;;
       _ <- DatabaseManager.add_finally_record fromisoformat processed_data ;;
       ret tt)%db s
  = loop hunters s.
Proof.
  subst loop. revert s.
  induction hunters as [|hunter rest IH]; intros s; [reflexivity|].
  cbn [for_each enrich]. unfold fetch_profile. cbv zeta.
  unfold mbind at 1. unfold mbind at 1. unfold lift at 1.
  destruct (getitem (graphql_post_request client_post
                       (build_profile_info_query (PrimaryData.username hunter))) "data")
    as [data|e]; cbn [pbind].
  2: reflexivity.
  destruct (getitem data "user") as [user_data|e]; cbn [pbind].
  2: reflexivity.
  unfold mbind at 1, lift at 1.
  destruct (DataManager.process_profile user_data) as [[d|]|e].
  - unfold mbind at 1. rewrite add_finally_record_some.
    destruct (available s); [|reflexivity].
    destruct (cells_of fromisoformat d); [|reflexivity].
    unfold ret. apply IH.
  - unfold mbind at 1. rewrite add_finally_record_none. unfold ret. apply IH.
  - reflexivity.
Qed.

(** Stage 2 is the loop over the listed records, when the engine lets
    the database be opened. *)
Lemma profile_info_search_is_enrich (s : Store) :
  stage2 s
  = if available s then loop (listed s) s else (Raise OperationalError, s).
Proof.
  subst stage2. unfold profile_info_search, DatabaseManager.with_database.
  unfold mbind at 1, engine at 1.
  destruct (available s) eqn:Havail; [|reflexivity].
  unfold mbind at 1. rewrite (get_all_primary_records_available 100 s Havail).
  apply for_each_is_enrich.
Qed.

(** The loop only ever adds rows to finally_table, and leaves the rest
    of the store alone. *)
Lemma enrich_appends (hunters : list PrimaryData.t) (s : Store) :
  exists rows,
    finally_table (snd (loop hunters s)) = finally_table s ++ rows /\
    primary_table (snd (loop hunters s)) = primary_table s /\
    primary_seq (snd (loop hunters s)) = primary_seq s /\
    clock (snd (loop hunters s)) = clock s /\
    available (snd (loop hunters s)) = available s.
Proof.
  subst loop. revert s.
  induction hunters as [|hunter rest IH]; intros s; cbn [enrich].
  - exists []. now rewrite app_nil_r.
  - destruct (fetch_profile _ _ _) as [[d|]|e].
    + destruct (available s) eqn:Havail; [|exists []; now rewrite app_nil_r].
      destruct (cells_of fromisoformat d) as [cells|];
        [|exists []; now rewrite app_nil_r].
      destruct (IH (with_new_finally_row s cells)) as [rows [H1 [H2 [H3 [H4 H5]]]]].
      eexists. rewrite H1, H2, H3, H4, H5. cbn. rewrite <- app_assoc.
      repeat split. assumption.
    + apply IH.
    + exists []. now rewrite app_nil_r.
Qed.

(** An identity whose request fails ends the stage with a TypeError:
    the identities listed after it are not looked at. *)
Lemma enrich_stops_at_transport_failure
    (hunter : PrimaryData.t) (rest : list PrimaryData.t) (s : Store) :
  graphql_post_request client_post (build_profile_info_query (PrimaryData.username hunter))
  = JNull ->
  loop (hunter :: rest) s = (Raise TypeError, s).
Proof.
  intros H. subst loop. cbn [enrich]. unfold fetch_profile. now rewrite H.
Qed.

(** An identity for which the API has no profile is passed over. *)
Lemma enrich_skips_absent_profile
    (hunter : PrimaryData.t) (rest : list PrimaryData.t) (s : Store) (data : json) :
  getitem (graphql_post_request client_post
             (build_profile_info_query (PrimaryData.username hunter))) "data" = Ok data ->
  getitem data "user" = Ok JNull ->
  loop (hunter :: rest) s = loop rest s.
Proof.
  intros Hdata Huser. subst loop. cbn [enrich]. unfold fetch_profile.
  rewrite Hdata. cbn [pbind]. now rewrite Huser.
Qed.

End Stage2.

(** Stage 2 as a whole only adds rows to finally_table: no row that was
    there before the stage is rewritten or removed. *)
Lemma profile_info_search_appends
    (fromisoformat : string -> pyres datetime) (client_post : json -> http_reply)
    (build_profile_info_query : json -> json) (s : Store) :
  exists rows,
    finally_table
      (snd (profile_info_search fromisoformat client_post build_profile_info_query s))
    = finally_table s ++ rows.
Proof.
  rewrite profile_info_search_is_enrich.
  destruct (available s).
  - destruct (enrich_appends fromisoformat client_post build_profile_info_query
                (listed s) s) as [rows [H _]].
    now exists rows.
  - exists []. now rewrite app_nil_r.
Qed.

(** C1: what the code does on the failing input.  One staged record for
    bob and a remote that serves bob's profile: the first run of stage 2
    writes bob's row, the second run writes a second row for bob, because
    the stage calls the plain INSERT of add_finally_record and not the
    upsert.  The same happens within one run when bob is staged twice. *)
Theorem stage2_rerun_duplicates_identity :
  let run := profile_info_search iso_reference (sample_remote 3) sample_query in
  let first := run (store_of [staged 1 "bob" 1%nat]) in
  let second := run (snd first) in
  let twice_staged := run (store_of [staged 1 "bob" 1%nat; staged 2 "bob" 2%nat]) in
  fst first = Ok tt /\
  identities (snd first) = [SText "bob"] /\
  fst second = Ok tt /\
  identities (snd second) = [SText "bob"; SText "bob"] /\
  map f_id (finally_table (snd second)) = [1; 2] /\
  fst twice_staged = Ok tt /\
  identities (snd twice_staged) = [SText "bob"; SText "bob"].
Proof. vm_compute. repeat split. Qed.

(** C2: what the code does on the failing input.  bob is upserted with 3
    resolved reports, and later, at time 20, with 5.  The second upsert
    does not find the row of the first (its reconstruction raises inside
    the lookup, which answers None), takes the insert branch, returns the
    new key 2 and leaves row 1 with its 3 reports. *)
Theorem upsert_of_existing_identity_inserts :
  let upsert :=
    DatabaseManager.add_or_update_finally_record iso_reference FinallyData_from_db_row in
  let first := upsert (bob_profile 3) empty_store in
  let second := upsert (bob_profile 5) (at_time 20%nat (snd first)) in
  fst first = Ok (Some 1) /\
  map summary (finally_table (snd first)) = [(1, SText "bob", SInt 3, 0%nat)] /\
  fst second = Ok (Some 2) /\
  map summary (finally_table (snd second))
  = [(1, SText "bob", SInt 3, 0%nat); (2, SText "bob", SInt 5, 20%nat)].
Proof. vm_compute. repeat split. Qed.

(** As written, the upsert leaves every row it finds as it is, for every
    document and every store. *)
Lemma upsert_as_written_appends
    (fromisoformat : string -> pyres datetime) (user_data : json) (s : Store) :
  exists rows,
    finally_table
      (snd (DatabaseManager.add_or_update_finally_record fromisoformat
              FinallyData_from_db_row user_data s))
    = finally_table s ++ rows.
Proof.
  rewrite add_or_update_as_written.
  destruct (FinallyData.from_user_data user_data) as [d|];
    [|exists []; now rewrite app_nil_r].
  rewrite add_finally_record_some.
  destruct (available s); [|exists []; now rewrite app_nil_r].
  destruct (cells_of fromisoformat d) as [cells|]; [|exists []; now rewrite app_nil_r].
  now eexists.
Qed.

(** C3: what the code does on the failing input.  alice and bob are
    staged, alice most recently, so she is listed first.  The request for
    alice fails, graphql_post_request answers None, and subscripting None
    raises TypeError: the stage ends there and bob, whose profile the
    remote would serve, is never written.  An identity without a profile
    (carol) is passed over as the claim says. *)
Theorem stage2_transport_failure_aborts :
  let run := profile_info_search iso_reference (sample_remote 3) sample_query in
  let failed := run (store_of [staged 1 "bob" 1%nat; staged 2 "alice" 2%nat]) in
  let skipped := run (store_of [staged 1 "bob" 1%nat; staged 2 "carol" 2%nat]) in
  map PrimaryData.username (listed (store_of [staged 1 "bob" 1%nat; staged 2 "alice" 2%nat]))
  = [JStr "alice"; JStr "bob"] /\
  graphql_post_request (sample_remote 3) (sample_query (JStr "alice")) = JNull /\
  fst failed = Raise TypeError /\
  identities (snd failed) = [] /\
  fst skipped = Ok tt /\
  identities (snd skipped) = [SText "bob"].
Proof. vm_compute. repeat split. Qed.

(** ** The listing of primary_table *)

Section OrderByFacts.
Context {A : Type} (key : A -> nat).

Let newer_or_same (a b : A) : Prop := (key b <= key a)%nat.

Lemma insert_desc_permutation (x : A) (l : list A) :
  Permutation (insert_desc key x l) (x :: l).
Proof.
  induction l as [|y r IH]; simpl; [reflexivity|].
  destruct (Nat.leb (key y) (key x)); [reflexivity|].
  rewrite IH. apply perm_swap.
Qed.

Lemma order_desc_permutation (l : list A) : Permutation (order_desc key l) l.
Proof.
  induction l as [|x r IH]; simpl; [reflexivity|].
  rewrite insert_desc_permutation. now constructor.
Qed.

Lemma insert_desc_sorted (x : A) (l : list A) :
  StronglySorted newer_or_same l ->
  StronglySorted newer_or_same (insert_desc key x l).
Proof.
  subst newer_or_same.
  induction 1 as [|y r Hsorted IH Hall]; simpl.
  - constructor; constructor.
  - destruct (Nat.leb (key y) (key x)) eqn:Hle.
    + apply Nat.leb_le in Hle. constructor.
      * now constructor.
      * constructor; [exact Hle|].
        eapply Forall_impl; [|exact Hall]. simpl. intros. lia.
    + apply Nat.leb_gt in Hle. constructor; [exact IH|].
      eapply Permutation_Forall.
      * symmetry. apply insert_desc_permutation.
      * constructor; [lia|exact Hall].
Qed.

Lemma order_desc_sorted (l : list A) :
  StronglySorted newer_or_same (order_desc key l).
Proof.
  induction l as [|x r IH]; simpl; [constructor|].
  now apply insert_desc_sorted.
Qed.

Lemma sql_limit_prefix (limit : Z) (l : list A) :
  exists rest, sql_limit limit l ++ rest = l /\ (limit < 0 -> rest = []).
Proof.
  unfold sql_limit. destruct (limit <? 0) eqn:H.
  - exists []. split; [apply app_nil_r|reflexivity].
  - exists (skipn (Z.to_nat limit) l). split; [apply firstn_skipn|].
    apply Z.ltb_ge in H. lia.
Qed.

Lemma sql_limit_length (limit : Z) (l : list A) :
  0 <= limit ->
  List.length (sql_limit limit l) = Nat.min (Z.to_nat limit) (List.length l).
Proof.
  intros H. unfold sql_limit.
  destruct (limit <? 0) eqn:Hneg; [apply Z.ltb_lt in Hneg; lia|].
  apply length_firstn.
Qed.

End OrderByFacts.

Lemma with_new_finally_row_table (s : Store) (cells : list sqlval) :
  finally_table (with_new_finally_row s cells)
  = finally_table s
    ++ [mkFinallyRow (next_id (finally_seq s) (map f_id (finally_table s))) cells (clock s)].
Proof. reflexivity. Qed.

(** When every fetch gives a storable profile, the loop writes one row
    per listed record, in the order of the listing. *)
Lemma enrich_all_stored
    (fromisoformat : string -> pyres datetime) (client_post : json -> http_reply)
    (build_profile_info_query : json -> json)
    (hunters : list PrimaryData.t) (s : Store) :
  available s = true ->
  Forall (fetch_stores client_post build_profile_info_query) hunters ->
  exists added,
    fst (enrich fromisoformat client_post build_profile_info_query hunters s) = Ok tt /\
    finally_table (snd (enrich fromisoformat client_post build_profile_info_query hunters s))
    = finally_table s ++ added /\
    Forall2 (enriched_as client_post build_profile_info_query) hunters added.
Proof.
  intros Havail Hall. revert s Havail.
  induction Hall as [|hunter rest [d [Hfetch Hstorable]] _ IH]; intros s Havail.
  - exists []. cbn. rewrite app_nil_r. repeat split. constructor.
  - cbn [enrich]. rewrite Hfetch, Havail.
    destruct (cells_of_storable fromisoformat d Hstorable)
      as [u [cells [Hu [_ [Hcells [_ [Hname _]]]]]]].
    rewrite Hcells.
    destruct (IH (with_new_finally_row s cells) Havail) as [added [Hok [Htable Hrows]]].
    eexists (_ :: added). split; [exact Hok|]. split.
    + rewrite Htable, with_new_finally_row_table, <- app_assoc. reflexivity.
    + constructor; [|exact Hrows]. exists d, u. repeat split; assumption.
Qed.

(** C5, as amended.  The listing returns one record per staged row, so
    an identity staged several times is listed several times.  No listed
    record is older than one that comes after it or than one left out
    (creation times are whole seconds; the order among records of the
    same second is not stated), and the listing is cut at the limit: a
    limit from 0 to 2^63 - 1 keeps that many records, a negative limit
    down to -2^63 cuts nothing, and a limit outside 64 bits is refused
    by the engine, so that the listing is empty.  Stage 2 reads the
    listing with the limit 100 and works through the listed records in
    that order, once per listed record: when every fetch gives a storable
    profile it writes one row per listed record, in the order of the
    listing. *)
Theorem listing_is_newest_first_per_record (limit : Z) (s : Store) :
  available s = true ->
  exists rows rest,
    DatabaseManager.get_all_primary_records limit s
    = (Ok (map primary_data_of_row rows), s) /\
    Permutation (rows ++ rest) (primary_table s) /\
    newest_first (rows ++ rest) /\
    (0 <= limit < 2 ^ 63 ->
     List.length rows = Nat.min (Z.to_nat limit) (List.length (primary_table s))) /\
    (-(2 ^ 63) <= limit < 0 -> rest = []) /\
    (limit < -(2 ^ 63) \/ 2 ^ 63 <= limit -> rows = []) /\
    DatabaseManager.get_all_primary_records 100 s = (Ok (listed s), s) /\
    forall fromisoformat client_post build_profile_info_query,
      profile_info_search fromisoformat client_post build_profile_info_query s
      = enrich fromisoformat client_post build_profile_info_query (listed s) s /\
      (Forall (fetch_stores client_post build_profile_info_query) (listed s) ->
       exists added,
         fst (profile_info_search fromisoformat client_post build_profile_info_query s)
         = Ok tt /\
         finally_table
           (snd (profile_info_search fromisoformat client_post build_profile_info_query s))
         = finally_table s ++ added /\
         Forall2 (enriched_as client_post build_profile_info_query) (listed s) added).
Proof.
  intros Havail.
  assert (Hstage2 :
    DatabaseManager.get_all_primary_records 100 s = (Ok (listed s), s) /\
    forall fromisoformat client_post build_profile_info_query,
      profile_info_search fromisoformat client_post build_profile_info_query s
      = enrich fromisoformat client_post build_profile_info_query (listed s) s /\
      (Forall (fetch_stores client_post build_profile_info_query) (listed s) ->
       exists added,
         fst (profile_info_search fromisoformat client_post build_profile_info_query s)
         = Ok tt /\
         finally_table
           (snd (profile_info_search fromisoformat client_post build_profile_info_query s))
         = finally_table s ++ added /\
         Forall2 (enriched_as client_post build_profile_info_query) (listed s) added)).
  { split; [now rewrite (get_all_primary_records_available 100 s Havail)|].
    intros fromisoformat client_post build_profile_info_query.
    rewrite profile_info_search_is_enrich, Havail.
    split; [reflexivity|].
    intros Hall. now apply enrich_all_stored. }
  rewrite (get_all_primary_records_available limit s Havail).
  unfold limit_literal.
  destruct ((-(2 ^ 63) <=? limit) && (limit <? 2 ^ 63)) eqn:Hfits.
  - apply andb_true_iff in Hfits. destruct Hfits as [Hlow Hhigh].
    apply Z.leb_le in Hlow. apply Z.ltb_lt in Hhigh.
    destruct (sql_limit_prefix limit (order_desc p_created_at (primary_table s)))
      as [rest [Hsplit Hrest]].
    exists (sql_limit limit (order_desc p_created_at (primary_table s))), rest.
    split; [reflexivity|].
    split; [rewrite Hsplit; apply order_desc_permutation|].
    split; [unfold newest_first; rewrite Hsplit; apply order_desc_sorted|].
    split.
    { intros [Hlimit _]. rewrite (sql_limit_length limit _ Hlimit).
      now rewrite (Permutation_length (order_desc_permutation p_created_at (primary_table s))). }
    split; [intros [_ Hneg]; now apply Hrest|].
    split; [intros [H|H]; lia|].
    exact Hstage2.
  - apply andb_false_iff in Hfits.
    assert (Hout : limit < -(2 ^ 63) \/ 2 ^ 63 <= limit).
    { destruct Hfits as [H|H]; [left; apply Z.leb_gt in H|right; apply Z.ltb_ge in H];
        exact H. }
    exists [], (order_desc p_created_at (primary_table s)).
    split; [reflexivity|].
    split; [apply order_desc_permutation|].
    split; [apply order_desc_sorted|].
    split; [intros H; lia|].
    split; [intros H; lia|].
    split; [reflexivity|].
    exact Hstage2.
Qed.

Lemma listing_is_newest_first_per_record_witness :
  exists rows rest,
    DatabaseManager.get_all_primary_records 1
      (store_of [staged 1 "bob" 1%nat; staged 2 "alice" 2%nat])
    = (Ok (map primary_data_of_row rows),
       store_of [staged 1 "bob" 1%nat; staged 2 "alice" 2%nat]) /\
    Permutation (rows ++ rest) [staged 1 "bob" 1%nat; staged 2 "alice" 2%nat] /\
    newest_first (rows ++ rest) /\
    List.length rows = 1%nat.
Proof.
  destruct (listing_is_newest_first_per_record 1
              (store_of [staged 1 "bob" 1%nat; staged 2 "alice" 2%nat]) eq_refl)
    as [rows [rest [Hrun [Hperm [Hsorted [Hlen _]]]]]].
  exists rows, rest. repeat split; try assumption.
  rewrite Hlen; [reflexivity|lia].
Defined.

Example listing_run :
  fst (DatabaseManager.get_all_primary_records 1
         (store_of [staged 1 "bob" 1%nat; staged 2 "alice" 2%nat]))
  = Ok [primary_data_of_row (staged 2 "alice" 2%nat)].
Proof. reflexivity. Qed.

Example listing_limits_run :
  let s := store_of [staged 1 "bob" 1%nat; staged 2 "alice" 2%nat] in
  DatabaseManager.get_all_primary_records (2 ^ 63) s = (Ok [], s) /\
  fst (DatabaseManager.get_all_primary_records (-1) s)
  = Ok [primary_data_of_row (staged 2 "alice" 2%nat);
        primary_data_of_row (staged 1 "bob" 1%nat)] /\
  DatabaseManager.get_all_primary_records (-(2 ^ 63) - 1) s = (Ok [], s).
Proof. vm_compute. repeat split. Qed.

(** C5, as stated, fails twice.  The listing is of records, not of
    distinct identities: bob staged twice is listed, and enriched, twice.
    And stage 2 reads at most 100 records: of 101 staged identities the
    oldest is not listed. *)
Lemma listing_repeats_and_truncates :
  (map PrimaryData.username
     (listed (store_of [staged 1 "bob" 1%nat; staged 2 "bob" 2%nat]))
   = [JStr "bob"; JStr "bob"] /\
   identities
     (snd (profile_info_search iso_reference (sample_remote 3) sample_query
             (store_of [staged 1 "bob" 1%nat; staged 2 "bob" 2%nat])))
   = [SText "bob"; SText "bob"]) /\
  (List.length (primary_table (store_of crowd)) = 101%nat /\
   List.length (listed (store_of crowd)) = 100%nat /\
   existsb (names_user "1") (map primary_data_of_row (primary_table (store_of crowd)))
   = true /\
   existsb (names_user "1") (listed (store_of crowd)) = false).
Proof. vm_compute. repeat split. Qed.

(** ** The staging table *)

Lemma next_id_above_seq (seq : Z) (ids : list Z) : seq < next_id seq ids.
Proof.
  unfold next_id. induction ids as [|i r IH]; simpl; lia.
Qed.

Lemma next_id_fresh (seq : Z) (ids : list Z) (i : Z) :
  In i ids -> i < next_id seq ids.
Proof.
  unfold next_id. induction ids as [|j r IH]; simpl; [contradiction|].
  intros [->|Hin]; [lia|]. specialize (IH Hin). lia.
Qed.

Lemma add_primary_record_run (data : PrimaryData.t) (s : Store) :
  DatabaseManager.add_primary_record data s
  = if available s then
      match bind_param (PrimaryData.username data), bind_param (PrimaryData.source data) with
      | Ok u, Ok src =>
          if is_null u || is_null src then (Raise IntegrityError, s)
          else
            let rowid := next_id (primary_seq s) (map p_id (primary_table s)) in
            (Ok rowid,
             set_primary s
               (primary_table s
                ++ [mkPrimaryRow rowid (apply_affinity AffText u)
                      (apply_affinity AffText src) (PrimaryData.json_info data) (clock s)])
               rowid)
      | Raise e, _ => (Raise e, s)
      | Ok _, Raise e => (Raise e, s)
      end
    else (Raise OperationalError, s).
Proof.
  unfold DatabaseManager.add_primary_record, try_except, mbind, engine, lift,
    insert_primary, ret, raise.
  destruct (available s); [|reflexivity].
  destruct (bind_param (PrimaryData.username data)) as [u|]; [|reflexivity].
  destruct (bind_param (PrimaryData.source data)) as [src|]; [|reflexivity].
  destruct (is_null u || is_null src); reflexivity.
Qed.

(** Whether it succeeds or raises, an append leaves the committed rows
    and the other table as they are. *)
Lemma add_primary_record_keeps_rows (data : PrimaryData.t) (s : Store) :
  exists added,
    primary_table (snd (DatabaseManager.add_primary_record data s))
    = primary_table s ++ added /\
    finally_table (snd (DatabaseManager.add_primary_record data s)) = finally_table s.
Proof.
  rewrite add_primary_record_run.
  destruct (available s); [|exists []; now rewrite app_nil_r].
  destruct (bind_param (PrimaryData.username data)) as [u|];
    [|exists []; now rewrite app_nil_r].
  destruct (bind_param (PrimaryData.source data)) as [src|];
    [|exists []; now rewrite app_nil_r].
  destruct (is_null u || is_null src); [exists []; now rewrite app_nil_r|].
  eexists. split; reflexivity.
Qed.

Lemma for_each_append_keeps_rows (records : list PrimaryData.t) (s : Store) :
  let body := (fun obj => _ <- DatabaseManager.add_primary_record obj ;; ret tt)%db in
  exists added,
    primary_table (snd (for_each records body s)) = primary_table s ++ added /\
    finally_table (snd (for_each records body s)) = finally_table s.
Proof.
  intros body. revert s. induction records as [|obj rest IH]; intros s.
  - exists []. cbn. now rewrite app_nil_r.
  - cbn [for_each]. unfold mbind.
    assert (Hbody : body obj s
                    = match DatabaseManager.add_primary_record obj s with
                      | (Ok _, s1) => (Ok tt, s1)
                      | (Raise e, s1) => (Raise e, s1)
                      end) by reflexivity.
    rewrite Hbody.
    destruct (add_primary_record_keeps_rows obj s) as [added [Hp Hf]].
    destruct (DatabaseManager.add_primary_record obj s) as [[rowid|e] s1];
      cbn [snd] in Hp, Hf.
    + destruct (IH s1) as [more [Hp' Hf']].
      exists (added ++ more). rewrite Hp', Hf', Hp, Hf, app_assoc. now split.
    + exists added. now split.
Qed.

(** Stage 1 only appends to primary_table. *)
Lemma hacktivity_search_appends
    (client_post : json -> http_reply) (build_hacktivity_search_query : Z -> Z -> json)
    (size offset : Z) (s : Store) :
  exists added,
    primary_table
      (snd (hacktivity_search client_post build_hacktivity_search_query size offset s))
    = primary_table s ++ added.
Proof.
  unfold hacktivity_search. cbv zeta.
  unfold mbind at 1, lift at 1.
  match goal with |- context [match ?r with Ok _ => _ | Raise _ => _ end] =>
    destruct r as [nodes|] end; [|exists []; now rewrite app_nil_r].
  unfold mbind at 1, lift at 1.
  match goal with |- context [match ?r with Ok _ => _ | Raise _ => _ end] =>
    destruct r as [processed|] end; [|exists []; now rewrite app_nil_r].
  unfold DatabaseManager.with_database, mbind at 1, engine.
  destruct (available s); [|exists []; now rewrite app_nil_r].
  destruct (for_each_append_keeps_rows processed s) as [added [H _]].
  exists added. exact H.
Qed.

(** Stage 2 does not touch primary_table. *)
Lemma profile_info_search_keeps_staging
    (fromisoformat : string -> pyres datetime) (client_post : json -> http_reply)
    (build_profile_info_query : json -> json) (s : Store) :
  primary_table
    (snd (profile_info_search fromisoformat client_post build_profile_info_query s))
  = primary_table s.
Proof.
  rewrite profile_info_search_is_enrich.
  destruct (available s); [|reflexivity].
  destruct (enrich_appends fromisoformat client_post build_profile_info_query
              (listed s) s) as [rows [_ [H _]]].
  exact H.
Qed.

Lemma primary_reads_keep_store (s : Store) :
  (forall record_id, snd (DatabaseManager.get_primary_by_id record_id s) = s) /\
  (forall username, snd (DatabaseManager.get_primary_by_username username s) = s) /\
  (forall limit, snd (DatabaseManager.get_all_primary_records limit s) = s).
Proof.
  repeat split; intros.
  - unfold DatabaseManager.get_primary_by_id, try_except, mbind, engine, get_store, ret.
    destruct (available s); [|reflexivity]. now destruct (fetchone _).
  - unfold DatabaseManager.get_primary_by_username, try_except, mbind, engine, lift,
      get_store, ret.
    destruct (available s); [|reflexivity].
    destruct (bind_param username); [|reflexivity]. now destruct (fetchone _).
  - unfold DatabaseManager.get_all_primary_records, try_except, mbind, engine,
      get_store, ret, lift.
    destruct (available s); [|reflexivity]. now destruct (limit_literal limit).
Qed.

(** C7, as amended.  Appending is the only thing the pipeline does to
    the staging table: add_primary_record leaves every committed row as
    it is, whether it succeeds or raises; appending the same record
    twice gives two rows with the same content and two different fresh
    ids; the three reads change nothing; stage 1 only appends and stage 2
    leaves the table alone.  (A committed row is rewritten by
    update_primary_record, and removed by delete_primary_record and
    clear_all_data, none of which the pipeline calls.) *)
Theorem staging_appends_without_dedup (s : Store) :
  (forall data, exists added,
      primary_table (snd (DatabaseManager.add_primary_record data s))
      = primary_table s ++ added) /\
  (forall data u src,
      available s = true ->
      bind_param (PrimaryData.username data) = Ok u ->
      bind_param (PrimaryData.source data) = Ok src ->
      is_null u = false ->
      is_null src = false ->
      let first := DatabaseManager.add_primary_record data s in
      let second := DatabaseManager.add_primary_record data (snd first) in
      exists r1 r2,
        fst first = Ok (p_id r1) /\
        fst second = Ok (p_id r2) /\
        primary_table (snd second) = primary_table s ++ [r1; r2] /\
        p_id r1 < p_id r2 /\
        (forall r, In r (primary_table s) -> p_id r < p_id r1) /\
        p_json_info r1 = PrimaryData.json_info data /\
        p_json_info r2 = PrimaryData.json_info data /\
        p_username r1 = p_username r2 /\
        p_source r1 = p_source r2) /\
  (forall record_id, snd (DatabaseManager.get_primary_by_id record_id s) = s) /\
  (forall username, snd (DatabaseManager.get_primary_by_username username s) = s) /\
  (forall limit, snd (DatabaseManager.get_all_primary_records limit s) = s) /\
  (forall client_post build_hacktivity_search_query size offset, exists added,
      primary_table
        (snd (hacktivity_search client_post build_hacktivity_search_query size offset s))
      = primary_table s ++ added) /\
  (forall fromisoformat client_post build_profile_info_query,
      primary_table
        (snd (profile_info_search fromisoformat client_post build_profile_info_query s))
      = primary_table s).
Proof.
  split.
  { intros data. destruct (add_primary_record_keeps_rows data s) as [added [H _]].
    now exists added. }
  split.
  { intros data u src Havail Hu Hsrc Hnu Hnsrc first second.
    subst first second.
    rewrite (add_primary_record_run data s), Havail, Hu, Hsrc, Hnu, Hnsrc.
    cbn [orb snd fst].
    rewrite add_primary_record_run. cbn [available set_primary].
    rewrite Havail, Hu, Hsrc, Hnu, Hnsrc.
    cbn [orb snd fst primary_table primary_seq clock set_primary].
    eexists (mkPrimaryRow _ _ _ _ _), (mkPrimaryRow _ _ _ _ _).
    cbn [p_id p_json_info p_username p_source].
    split; [reflexivity|]. split; [reflexivity|].
    split; [now rewrite <- app_assoc|].
    split; [apply next_id_above_seq|].
    split; [|repeat split].
    intros r Hr. apply next_id_fresh. now apply in_map. }
  destruct (primary_reads_keep_store s) as [H1 [H2 H3]].
  repeat split; try assumption.
  - intros. apply hacktivity_search_appends.
  - intros. apply profile_info_search_keeps_staging.
Qed.

Lemma staging_appends_without_dedup_witness :
  let s := store_of [staged 1 "alice" 1%nat] in
  let data := PrimaryData.mk None (JStr "bob") (JStr "Undisclosed") bob_node None in
  exists r1 r2,
    primary_table
      (snd (DatabaseManager.add_primary_record data
              (snd (DatabaseManager.add_primary_record data s))))
    = [staged 1 "alice" 1%nat; r1; r2] /\
    p_id r1 < p_id r2 /\
    p_json_info r1 = bob_node /\
    p_json_info r2 = bob_node.
Proof.
  intros s data.
  destruct (staging_appends_without_dedup s) as [_ [Htwice _]].
  destruct (Htwice data (SText "bob") (SText "Undisclosed")
              eq_refl eq_refl eq_refl eq_refl eq_refl)
    as [r1 [r2 [_ [_ [Htable [Hlt [_ [Hj1 [Hj2 _]]]]]]]]].
  exists r1, r2. repeat split; assumption.
Defined.

Example append_twice_run :
  map (fun r => (p_id r, p_username r))
    (primary_table
       (snd (DatabaseManager.add_primary_record
               (PrimaryData.mk None (JStr "bob") (JStr "Undisclosed") bob_node None)
               (snd (DatabaseManager.add_primary_record
                       (PrimaryData.mk None (JStr "bob") (JStr "Undisclosed") bob_node None)
                       (store_of [staged 1 "alice" 1%nat]))))))
  = [(1, SText "alice"); (2, SText "bob"); (3, SText "bob")].
Proof. reflexivity. Qed.

Example stage1_twice_run :
  let run := hacktivity_search sample_page sample_search_query 2 0 in
  let first := run empty_store in
  let second := run (snd first) in
  fst second = Ok tt /\
  map (fun r => (p_id r, p_username r, p_source r)) (primary_table (snd second))
  = [ (1, SText "alice", SText "Disclosed"); (2, SText "bob", SText "Undisclosed");
      (3, SText "alice", SText "Disclosed"); (4, SText "bob", SText "Undisclosed") ].
Proof. vm_compute. repeat split. Qed.

(** C7, as stated, fails: update_primary_record is a staging operation
    that is neither a clear nor a delete, and it rewrites the username,
    the source and the payload of a committed row. *)
Lemma update_primary_record_rewrites_row :
  DatabaseManager.update_primary_record 1
    (PrimaryData.mk None (JStr "mallory") (JStr "Edited") JNull None)
    (store_of [staged 1 "alice" 1%nat])
  = (Ok true,
     store_of [mkPrimaryRow 1 (SText "mallory") (SText "Edited") JNull 1%nat]) /\
  staged 1 "alice" 1%nat
  <> mkPrimaryRow 1 (SText "mallory") (SText "Edited") JNull 1%nat.
Proof. split; [reflexivity|discriminate]. Qed.

(** ** The fixed timestamp format *)

















Example parse_timestamp_runs :
  DatabaseManager._parse_timestamp iso_reference (JStr "2024-01-15 10:30:05+02:00")
  = Ok (JStr "2024-01-15 10:30:05") /\
  DatabaseManager._parse_timestamp iso_reference (JStr "yesterday") = Ok JNull /\
  DatabaseManager._parse_timestamp iso_reference (JStr "") = Ok JNull /\
  DatabaseManager._parse_timestamp iso_reference JNull = Ok JNull /\
  DatabaseManager._parse_timestamp iso_reference (JNum 1705314605) = Ok JNull.
Proof. repeat split. Qed.

(** ** The search *)

(** C10: a search on a field outside [username; name; location;
    github_handle] is the search on the username: the same result from
    the same store, namely the reconstructed rows whose username matches
    the query between two percent signs (the empty list when a
    reconstruction raises), and no exception. *)
Theorem search_falls_back_to_username
    (from_db_row : FinallyRow -> pyres FinallyData.t)
    (search_query field : string) (s : Store) :
  existsb (String.eqb field) DatabaseManager.valid_fields = false ->
  DatabaseManager.search_finally_records from_db_row search_query field s
  = DatabaseManager.search_finally_records from_db_row search_query "username" s /\
  (exists l,
      DatabaseManager.search_finally_records from_db_row search_query field s = (Ok l, s)) /\
  (available s = true ->
   DatabaseManager.search_finally_records from_db_row search_query field s
   = match comprehension from_db_row (username_matches search_query s) with
     | Ok l => (Ok l, s)
     | Raise _ => (Ok [], s)
     end).
Proof.
  intros Hfield. split; [|split].
  - unfold DatabaseManager.search_finally_records. now rewrite Hfield.
  - apply search_finally_records_returns.
  - intros Havail.
    unfold DatabaseManager.search_finally_records, try_except, mbind, engine, lift,
      select_like, ret, username_matches.
    rewrite Hfield, Havail. cbn [negb].
    change (column_index "username" finally_schema) with (Some O).
    cbv beta iota.
    destruct (comprehension from_db_row _); reflexivity.
Qed.

Lemma search_falls_back_to_username_witness :
  let s :=
    snd (DatabaseManager.add_or_update_finally_record iso_reference
           FinallyData_from_db_row (bob_profile 3) empty_store) in
  DatabaseManager.search_finally_records sample_from_db_row "BO" "email" s
  = DatabaseManager.search_finally_records sample_from_db_row "BO" "username" s /\
  exists d,
    DatabaseManager.search_finally_records sample_from_db_row "BO" "email" s
    = (Ok [d], s) /\
    FinallyData.username d = JStr "bob".
Proof.
  intros s.
  destruct (search_falls_back_to_username sample_from_db_row "BO" "email" s eq_refl)
    as [Hsame _].
  split; [exact Hsame|].
  eexists. split; reflexivity.
Defined.

Example search_as_written_finds_nothing :
  let s :=
    snd (DatabaseManager.add_or_update_finally_record iso_reference
           FinallyData_from_db_row (bob_profile 3) empty_store) in
  identities s = [SText "bob"] /\
  DatabaseManager.search_finally_records FinallyData_from_db_row "bo" "username" s
  = (Ok [], s) /\
  DatabaseManager.get_finally_by_username FinallyData_from_db_row (JStr "bob") s
  = (Ok None, s).
Proof. repeat split. Qed.

(** ** The update branch of the upsert *)

Lemma update_finally_record_run
    (fromisoformat : string -> pyres datetime) (username : json) (d : FinallyData.t)
    (s : Store) :
  DatabaseManager.update_finally_record fromisoformat username d s
  = match bind_param username with
    | Ok u =>
        if available s && existsb (username_is u) (finally_table s) then
          match update_cells_of fromisoformat d with
          | Ok cells =>
              (Ok (Nat.ltb 0 (List.length (filter (username_is u) (finally_table s)))),
               set_finally s
                 (map (fun r => if username_is u r then overwritten cells r else r)
                    (finally_table s))
                 (finally_seq s))
          | Raise _ => (Ok false, s)
          end
        else (Ok false, s)
    | Raise _ => (Ok false, s)
    end.
Proof.
  unfold DatabaseManager.update_finally_record, try_except, mbind, engine, lift,
    update_cells_of, update_finally, ret.
  destruct (available s); [|now destruct (bind_param username)].
  cbn [to_db_dict getitem assoc String.eqb Ascii.eqb Bool.eqb sequence pbind andb].
  rewrite parse_timestamp_returns. cbn [pbind].
  unfold update_parameters.
  match goal with |- context [bind_params ?l] => destruct (bind_params l) as [vals|] end;
    [|cbn [pbind]; destruct (bind_param username) as [u|]; [|reflexivity];
      now destruct (existsb (username_is u) (finally_table s))].
  cbn [pbind].
  destruct (bind_param username) as [u|]; [|reflexivity].
  destruct (existsb (username_is u) (finally_table s)); [|reflexivity].
  destruct (store_cells (tl finally_schema) vals); reflexivity.
Qed.

Lemma store_cells_cons
    (name : string) (a : affinity) (notnull : bool)
    (schema : list (string * affinity * bool)) (v : sqlval) (vals : list sqlval) :
  store_cells ((name, a, notnull) :: schema) (v :: vals)
  = if notnull && is_null v then Raise IntegrityError
    else (cells <- store_cells schema vals ;; Ok (apply_affinity a v :: cells))%py.
Proof. reflexivity. Qed.

Lemma update_cells_of_storable
    (fromisoformat : string -> pyres datetime) (d : FinallyData.t) :
  storable d = true -> exists cells, update_cells_of fromisoformat d = Ok cells.
Proof.
  intros H.
  destruct (cells_of_storable fromisoformat d H) as [u [cells [Hu [Hnull [Hcells _]]]]].
  unfold cells_of, insert_parameters in Hcells. cbn [bind_params] in Hcells.
  rewrite Hu in Hcells. cbn [pbind] in Hcells.
  unfold update_cells_of.
  destruct (bind_params _) as [vals|]; cbn [pbind] in *; [|discriminate].
  unfold finally_schema in *. rewrite store_cells_cons in Hcells.
  rewrite Hnull in Hcells. cbn [andb tl] in *.
  destruct (store_cells _ vals) as [rest|]; [now exists rest|].
  cbn [pbind] in Hcells. discriminate.
Qed.

Lemma fetchone_filter_exists {A} (hit : A -> bool) (l : list A) (x : A) :
  fetchone (filter hit l) = Some x ->
  existsb hit l = true /\ Nat.ltb 0 (List.length (filter hit l)) = true.
Proof.
  unfold fetchone. induction l as [|y r IH]; cbn; [discriminate|].
  destruct (hit y); cbn; [now split|exact IH].
Qed.

(** Had the class a reconstruction of rows that recovers the key, the
    upsert of an identity that is present would do what its update branch
    is written for: return the key of the row, keep key, username and
    creation time of every row, and replace the other columns of the rows
    of that identity by the new values. *)
Lemma upsert_with_working_reconstruction
    (fromisoformat : string -> pyres datetime)
    (from_db_row : FinallyRow -> pyres FinallyData.t)
    (user_data : json) (d existing : FinallyData.t) (u : sqlval) (row : FinallyRow)
    (s : Store) :
  FinallyData.from_user_data user_data = Ok d ->
  storable d = true ->
  available s = true ->
  bind_param (FinallyData.username d) = Ok u ->
  fetchone (filter (username_is u) (finally_table s)) = Some row ->
  from_db_row row = Ok existing ->
  FinallyData.id existing = Some (f_id row) ->
  exists cells,
    update_cells_of fromisoformat d = Ok cells /\
    DatabaseManager.add_or_update_finally_record fromisoformat from_db_row user_data s
    = (Ok (Some (f_id row)),
       set_finally s
         (map (fun r => if username_is u r then overwritten cells r else r)
            (finally_table s))
         (finally_seq s)).
Proof.
  intros Hd Hstorable Havail Hu Hrow Hdecode Hid.
  destruct (update_cells_of_storable fromisoformat d Hstorable) as [cells Hcells].
  destruct (fetchone_filter_exists _ _ _ Hrow) as [Hexists Hcount].
  exists cells. split; [exact Hcells|].
  unfold DatabaseManager.add_or_update_finally_record, try_except, mbind at 1, lift at 1.
  rewrite Hd. unfold mbind at 1.
  assert (Hget : DatabaseManager.get_finally_by_username from_db_row
                   (FinallyData.username d) s = (Ok (Some existing), s)).
  { unfold DatabaseManager.get_finally_by_username, try_except, mbind, engine, lift,
      get_store, ret.
    now rewrite Havail, Hu, Hrow, Hdecode. }
  rewrite Hget. unfold mbind at 1.
  rewrite update_finally_record_run.
  change (FinallyData.username (keep_existing d existing)) with (FinallyData.username d).
  change (update_cells_of fromisoformat (keep_existing d existing))
    with (update_cells_of fromisoformat d).
  rewrite Hu, Havail, Hexists, Hcells, Hcount. cbn [andb]. unfold ret.
  now rewrite Hid.
Qed.

Example upsert_with_sample_reconstruction :
  let upsert :=
    DatabaseManager.add_or_update_finally_record iso_reference sample_from_db_row in
  let first := upsert (bob_profile 3) empty_store in
  let second := upsert (bob_profile 5) (at_time 20%nat (snd first)) in
  fst second = Ok (Some 1) /\
  map summary (finally_table (snd second)) = [(1, SText "bob", SInt 5, 0%nat)].
Proof. vm_compute. repeat split. Qed.

(** ** LIKE between two percent signs is a substring test *)

Lemma like_percent_alone (s : string) : like_match "%" s = true.
Proof.
  induction s as [|c r IH]; [reflexivity|].
  cbn [like_match Ascii.eqb Bool.eqb] in *. cbn [orb]. exact IH.
Qed.

Lemma like_percent_first (p s : string) :
  like_match (String "%" p) s = true <->
  exists pre post, s = (pre ++ post)%string /\ like_match p post = true.
Proof.
  induction s as [|c r IH].
  - cbn [like_match Ascii.eqb Bool.eqb]. rewrite orb_false_r. split.
    + intros H. now exists EmptyString, EmptyString.
    + intros [pre [post [Hs H]]].
      destruct pre; [|discriminate]. cbn in Hs. now subst post.
  - cbn [like_match Ascii.eqb Bool.eqb] in *. rewrite orb_true_iff, IH. split.
    + intros [H|[pre [post [Hs H]]]].
      * now exists EmptyString, (String c r).
      * exists (String c pre), post. cbn. now rewrite Hs.
    + intros [pre [post [Hs H]]]. destruct pre as [|c' pre].
      * left. cbn in Hs. now subst post.
      * right. cbn in Hs. inversion Hs. now exists pre, post.
Qed.

Lemma like_plain_prefix (q rest s : string) :
  plain q = true ->
  like_match (q ++ rest) s = true <->
  exists mid post,
    s = (mid ++ post)%string /\ fold_case mid = fold_case q /\
    like_match rest post = true.
Proof.
  revert s. induction q as [|c q IH]; intros s Hplain.
  - cbn [String.append]. split.
    + intros H. now exists EmptyString, s.
    + intros [mid [post [Hs [Hmid H]]]].
      destruct mid; [|discriminate]. cbn in Hs. now subst post.
  - cbn [plain] in Hplain.
    apply andb_true_iff in Hplain. destruct Hplain as [Hc Hq].
    apply andb_true_iff in Hc. destruct Hc as [Hpercent Hunder].
    apply negb_true_iff in Hpercent, Hunder.
    cbn [String.append like_match]. rewrite Hpercent, Hunder. cbn [orb].
    destruct s as [|d s].
    + split; [discriminate|].
      intros [mid [post [Hs [Hmid _]]]]. destruct mid; discriminate.
    + rewrite andb_true_iff, (IH s Hq), Ascii.eqb_eq. split.
      * intros [Hcd [mid [post [Hs [Hmid H]]]]].
        exists (String d mid), post. cbn. now rewrite Hs, Hmid, Hcd.
      * intros [mid [post [Hs [Hmid H]]]].
        destruct mid as [|d' mid]; [discriminate|].
        cbn in Hs, Hmid. inversion Hs. inversion Hmid. subst.
        split; [congruence|]. now exists mid, post.
Qed.

(** For a query without wildcards, the pattern of the search selects the
    texts in which the query occurs, capitals and small letters alike. *)
Lemma like_is_substring (q s : string) :
  plain q = true ->
  like_match ("%" ++ q ++ "%") s = true <-> occurs_in q s.
Proof.
  intros Hplain. unfold occurs_in.
  change ("%" ++ q ++ "%")%string with (String "%" (q ++ "%")).
  rewrite like_percent_first. split.
  - intros [pre [post [Hs H]]].
    apply (like_plain_prefix q "%" post Hplain) in H.
    destruct H as [mid [post' [Hpost [Hmid _]]]].
    exists pre, mid, post'. now rewrite Hs, Hpost.
  - intros [pre [mid [post [Hs Hmid]]]].
    exists pre, (mid ++ post)%string. split; [exact Hs|].
    apply (like_plain_prefix q "%" _ Hplain).
    exists mid, post. repeat split; [assumption|apply like_percent_alone].
Qed.

Example like_runs :
  like_match "%BO%" "bob" = true /\
  like_match "%bo%" "alice" = false /\
  like_match "%b_b%" "bob" = true /\
  sql_like SNull "%%" = false.
Proof. repeat split. Qed.

(** * Further properties of the code *)

(** ** The normalizer: process_edges and process_profile *)

Lemma process_edge_record (edge : json) :
  edge_shaped edge = true ->
  exists record, DataManager.process_edge edge = Ok record /\ is_edge_record edge record.
Proof.
  unfold edge_shaped, DataManager.process_edge.
  destruct (getitem edge "node") as [node|] eqn:Hnode; [|discriminate].
  destruct (getitem node "user") as [user|] eqn:Huser; [|discriminate].
  destruct (getitem user "username") as [username|] eqn:Hname; [|discriminate].
  destruct (getitem edge "__typename") as [source|] eqn:Hsrc; [|discriminate].
  intros _. cbn [pbind]. rewrite Huser. cbn [pbind]. rewrite Hname. cbn [pbind].
  eexists. split; [reflexivity|].
  repeat split; cbn; try assumption. now exists node, user.
Qed.

Lemma process_edge_ill_shaped (edge : json) :
  edge_shaped edge = false -> exists e, DataManager.process_edge edge = Raise e.
Proof.
  unfold edge_shaped, DataManager.process_edge.
  destruct (getitem edge "node") as [node|]; cbn [pbind]; [|now eexists].
  destruct (getitem node "user") as [user|]; cbn [pbind]; [|now eexists].
  destruct (getitem user "username"); cbn [pbind]; [|now eexists].
  destruct (getitem edge "__typename"); cbn [pbind]; [discriminate|now eexists].
Qed.

(** X1.  process_edges has no skip: it gives exactly one record per edge, in
    the order of the edges, when every edge has its node, user, username
    and type tag, and it raises, giving no record at all, as soon as one
    edge lacks one of them. *)
Theorem process_edges_all_or_nothing (edges : list json) :
  (forallb edge_shaped edges = true ->
   exists data,
     DataManager.process_edges edges = Ok data /\ Forall2 is_edge_record edges data) /\
  (forallb edge_shaped edges = false ->
   exists e, DataManager.process_edges edges = Raise e).
Proof.
  induction edges as [|edge rest [IHok IHbad]]; cbn [forallb DataManager.process_edges].
  - split; [|discriminate]. intros _. exists []. split; [reflexivity|constructor].
  - split.
    + intros H. apply andb_true_iff in H. destruct H as [Hedge Hrest].
      destruct (process_edge_record edge Hedge) as [record [Hrun Hrec]].
      destruct (IHok Hrest) as [data [Hdata Hall]].
      rewrite Hrun, Hdata. cbn [pbind]. exists (record :: data).
      split; [reflexivity|now constructor].
    + intros H. apply andb_false_iff in H.
      destruct (edge_shaped edge) eqn:Hedge.
      * destruct H as [H|H]; [discriminate|].
        destruct (process_edge_record edge Hedge) as [record [Hrun _]].
        destruct (IHbad H) as [e He]. rewrite Hrun, He. now eexists.
      * destruct (process_edge_ill_shaped edge Hedge) as [e He].
        rewrite He. now eexists.
Qed.

Example process_edges_runs :
  DataManager.process_edges [carol_edge]
  = Ok [PrimaryData.mk None (JStr "carol") (JStr "LeaderboardEdge") carol_edge None] /\
  DataManager.process_edges [carol_edge; null_user_edge] = Raise TypeError /\
  DataManager.process_edges [] = Ok [].
Proof. repeat split. Qed.

(** X2.  A profile that is absent goes through process_profile and
    add_finally_record without a record, without a statement and without
    an exception, even when the engine cannot run one; a dict always
    gives a record; anything else (a list, a text, a number) raises
    AttributeError. *)
Theorem process_profile_cases
    (fromisoformat : string -> pyres datetime) (user_data : json) (s : Store) :
  (user_data = JNull ->
   DataManager.process_profile user_data = Ok None /\
   (processed <- lift (DataManager.process_profile user_data) ;;
    DatabaseManager.add_finally_record fromisoformat processed)%db s = (Ok None, s)) /\
  (is_dict user_data = true ->
   exists d,
     DataManager.process_profile user_data = Ok (Some d) /\
     FinallyData.from_user_data user_data = Ok d) /\
  (user_data <> JNull -> is_dict user_data = false ->
   DataManager.process_profile user_data = Raise AttributeError).
Proof.
  split; [|split].
  - intros ->. split; reflexivity.
  - destruct user_data as [| | | | |kvs]; try discriminate. intros _.
    eexists. unfold DataManager.process_profile.
    rewrite from_user_data_dict. split; reflexivity.
  - intros Hnull Hdict. unfold DataManager.process_profile.
    destruct user_data; try reflexivity; [contradiction|discriminate].
Qed.

(** ** Stage 1 *)

Lemma graphql_post_request_fails (client_post : json -> http_reply) (query : json) :
  transport_fails client_post query -> graphql_post_request client_post query = JNull.
Proof.
  unfold graphql_post_request.
  intros [H|[[status_code [body [H Hstatus]]]|[e H]]]; rewrite H; try reflexivity.
  apply Z.eqb_neq in Hstatus. now rewrite Hstatus.
Qed.

(** X3.  When the bulk request fails (no answer, a status that is not 200, or
    a body that is no JSON), stage 1 ends with a TypeError before the
    database is opened: nothing is staged, and a whole run (main) ends
    there, without starting stage 2. *)
Theorem stage1_transport_failure_aborts
    (fromisoformat : string -> pyres datetime) (client_post : json -> http_reply)
    (build_hacktivity_search_query : Z -> Z -> json)
    (build_profile_info_query : json -> json) (size offset : Z) (s : Store) :
  transport_fails client_post (build_hacktivity_search_query size offset) ->
  hacktivity_search client_post build_hacktivity_search_query size offset s
  = (Raise TypeError, s) /\
  (size = 100 -> offset = 0 ->
   main fromisoformat client_post build_hacktivity_search_query build_profile_info_query s
   = (Raise TypeError, s)).
Proof.
  intros Hfail.
  assert (Hrun : hacktivity_search client_post build_hacktivity_search_query size offset s
                 = (Raise TypeError, s)).
  { unfold hacktivity_search. cbv zeta.
    rewrite (graphql_post_request_fails _ _ Hfail). reflexivity. }
  split; [exact Hrun|].
  intros -> ->. unfold main, primary_search, mbind. now rewrite Hrun.
Qed.

Lemma stage1_transport_failure_aborts_witness :
  hacktivity_search (sample_remote 3) sample_search_query 2 0
    (store_of [staged 1 "bob" 1%nat])
  = (Raise TypeError, store_of [staged 1 "bob" 1%nat]).
Proof.
  refine (proj1 (stage1_transport_failure_aborts iso_reference (sample_remote 3)
                   sample_search_query sample_query 2 0
                   (store_of [staged 1 "bob" 1%nat]) _)).
  right. left. exists 400, (Raise ValueError). split; [reflexivity|discriminate].
Defined.

Lemma add_primary_record_stageable (record : PrimaryData.t) (s : Store) :
  available s = true ->
  stageable record = true ->
  exists row,
    DatabaseManager.add_primary_record record s
    = (Ok (p_id row), set_primary s (primary_table s ++ [row]) (p_id row)) /\
    p_id row = next_id (primary_seq s) (map p_id (primary_table s)) /\
    staged_as (clock s) record row.
Proof.
  intros Havail Hst. unfold stageable in Hst.
  repeat (apply andb_true_iff in Hst; destruct Hst as [Hst ?]).
  destruct (bindable_binds _ Hst) as [u Hu].
  match goal with H : bindable (PrimaryData.source record) = true |- _ =>
    destruct (bindable_binds _ H) as [src Hsrc] end.
  repeat match goal with H : negb _ = true |- _ => apply negb_true_iff in H end.
  rewrite add_primary_record_run, Havail, Hu, Hsrc.
  rewrite (bound_username_not_null (PrimaryData.username record) u) by assumption.
  rewrite (bound_username_not_null (PrimaryData.source record) src) by assumption.
  cbn [orb].
  eexists (mkPrimaryRow _ _ _ _ _). cbn [p_id].
  split; [reflexivity|]. split; [reflexivity|].
  unfold staged_as. cbn. split; [now exists u|]. split; [now exists src|]. now split.
Qed.

Lemma for_each_append_stageable (records : list PrimaryData.t) (s : Store) :
  let body := (fun obj => _ <- DatabaseManager.add_primary_record obj ;; ret tt)%db in
  available s = true ->
  forallb stageable records = true ->
  exists rows,
    fst (for_each records body s) = Ok tt /\
    primary_table (snd (for_each records body s)) = primary_table s ++ rows /\
    finally_table (snd (for_each records body s)) = finally_table s /\
    Forall2 (staged_as (clock s)) records rows /\
    Forall (fun row => primary_seq s < p_id row) rows.
Proof.
  intros body Havail. revert s Havail.
  induction records as [|obj rest IH]; intros s Havail Hall.
  - exists []. cbn. rewrite app_nil_r. repeat split; constructor.
  - cbn [forallb] in Hall. apply andb_true_iff in Hall. destruct Hall as [Hobj Hrest].
    destruct (add_primary_record_stageable obj s Havail Hobj) as [row [Hrun [Hid Hrow]]].
    cbn [for_each]. unfold mbind.
    assert (Hbody : body obj s
                    = (Ok tt, set_primary s (primary_table s ++ [row]) (p_id row))).
    { unfold body, mbind. now rewrite Hrun. }
    rewrite Hbody.
    destruct (IH (set_primary s (primary_table s ++ [row]) (p_id row)) Havail Hrest)
      as [rows [Hok [Hp [Hf [Hrows Hids]]]]].
    exists (row :: rows). split; [exact Hok|].
    split; [rewrite Hp; cbn; now rewrite <- app_assoc|].
    split; [exact Hf|]. split; [now constructor|].
    cbn [primary_seq set_primary] in Hids.
    pose proof (next_id_above_seq (primary_seq s) (map p_id (primary_table s))) as Hlt.
    constructor; [lia|].
    eapply Forall_impl; [|exact Hids]. cbn. intros. lia.
Qed.

(** X4.  When the bulk request brings a page and every record made from its
    nodes can be written, stage 1 appends exactly one row per record, in
    the order of the page, each stamped with the current time and keyed
    above the counter, and leaves finally_table alone. *)
Theorem stage1_stages_the_page
    (client_post : json -> http_reply) (build_hacktivity_search_query : Z -> Z -> json)
    (size offset : Z) (s : Store) (nodes : list json) (data : list PrimaryData.t) :
  available s = true ->
  page_nodes (graphql_post_request client_post (build_hacktivity_search_query size offset))
  = Ok (JList nodes) ->
  DataManager.process_nodes nodes = Ok data ->
  forallb stageable data = true ->
  exists rows,
    fst (hacktivity_search client_post build_hacktivity_search_query size offset s) = Ok tt /\
    primary_table
      (snd (hacktivity_search client_post build_hacktivity_search_query size offset s))
    = primary_table s ++ rows /\
    finally_table
      (snd (hacktivity_search client_post build_hacktivity_search_query size offset s))
    = finally_table s /\
    Forall2 (staged_as (clock s)) data rows /\
    Forall (fun row => primary_seq s < p_id row) rows.
Proof.
  intros Havail Hpage Hdata Hall.
  assert (Hrun : hacktivity_search client_post build_hacktivity_search_query size offset s
                 = for_each data
                     (fun obj => _ <- DatabaseManager.add_primary_record obj ;; ret tt)%db s).
  { unfold hacktivity_search. cbv zeta. unfold page_nodes in Hpage.
    unfold mbind at 1, lift at 1. rewrite Hpage.
    unfold mbind at 1, lift at 1. cbn [py_iter pbind]. rewrite Hdata.
    unfold DatabaseManager.with_database, mbind at 1, engine. now rewrite Havail. }
  rewrite Hrun. now apply for_each_append_stageable.
Qed.

Lemma stage1_stages_the_page_witness :
  exists rows,
    primary_table (snd (hacktivity_search sample_page sample_search_query 2 0 empty_store))
    = rows /\
    Forall2 (staged_as 0%nat)
      [ PrimaryData.mk None (JStr "alice") (JStr "Disclosed") alice_node None;
        PrimaryData.mk None (JStr "bob") (JStr "Undisclosed") bob_node None ] rows.
Proof.
  destruct (stage1_stages_the_page sample_page sample_search_query 2 0 empty_store
              [alice_node; redacted_node; bob_node]
              [ PrimaryData.mk None (JStr "alice") (JStr "Disclosed") alice_node None;
                PrimaryData.mk None (JStr "bob") (JStr "Undisclosed") bob_node None ]
              eq_refl eq_refl eq_refl eq_refl)
    as [rows [_ [Htable [_ [Hrows _]]]]].
  exists rows. split; [exact Htable|exact Hrows].
Defined.

(** ** Keys *)

Lemma table_keys_ok_nil (seq : Z) : table_keys_ok [] seq.
Proof. split; constructor. Qed.

Lemma sorted_append_above (ids : list Z) (n : Z) :
  StronglySorted Z.lt ids ->
  Forall (fun i => i < n) ids ->
  StronglySorted Z.lt (ids ++ [n]).
Proof.
  induction 1 as [|i r Hr IH Hall]; cbn; intros Hfresh.
  - constructor; constructor.
  - inversion Hfresh; subst. constructor; [now apply IH|].
    apply Forall_app. split; [exact Hall|]. constructor; [assumption|constructor].
Qed.

Lemma table_keys_ok_append (ids : list Z) (seq : Z) :
  table_keys_ok ids seq ->
  table_keys_ok (ids ++ [next_id seq ids]) (next_id seq ids).
Proof.
  intros [Hsorted Hbound].
  pose proof (next_id_above_seq seq ids) as Hseq.
  assert (Hfresh : Forall (fun i => i < next_id seq ids) ids).
  { apply Forall_forall. intros i Hi. now apply next_id_fresh. }
  split.
  - now apply sorted_append_above.
  - apply Forall_app. split.
    + eapply Forall_impl; [|exact Hfresh]. cbn. intros. lia.
    + constructor; [lia|constructor].
Qed.

Lemma table_keys_ok_filter {A} (key : A -> Z) (keep : A -> bool) (rows : list A) (seq : Z) :
  table_keys_ok (map key rows) seq -> table_keys_ok (map key (filter keep rows)) seq.
Proof.
  intros [Hsorted Hbound]. split.
  - induction rows as [|r rest IH]; cbn in *; [constructor|].
    inversion Hsorted as [|? ? Hrest Hall]; subst. inversion Hbound; subst.
    destruct (keep r); cbn; [|now apply IH].
    constructor; [now apply IH|].
    apply Forall_forall. intros i Hi. rewrite Forall_forall in Hall. apply Hall.
    apply in_map_iff in Hi. destruct Hi as [x [Hx Hin]]. apply filter_In in Hin.
    apply in_map_iff. exists x. now split.
  - apply Forall_forall. intros i Hi. rewrite Forall_forall in Hbound. apply Hbound.
    apply in_map_iff in Hi. destruct Hi as [x [Hx Hin]]. apply filter_In in Hin.
    apply in_map_iff. exists x. now split.
Qed.

Lemma map_key_unchanged {A} (key : A -> Z) (upd : A -> A) (rows : list A) :
  (forall r, key (upd r) = key r) -> map key (map upd rows) = map key rows.
Proof.
  intros H. rewrite map_map. apply map_ext. exact H.
Qed.

Lemma table_keys_ok_unique (ids : list Z) (seq : Z) : table_keys_ok ids seq -> NoDup ids.
Proof.
  intros [Hsorted _]. induction Hsorted as [|i r Hr IH Hall]; constructor; [|exact IH].
  intros Hin. rewrite Forall_forall in Hall. specialize (Hall i Hin). lia.
Qed.

Lemma advances_refl (s : Store) : keys_ok s -> advances s s.
Proof. intros H. split; [exact H|]. split; lia. Qed.

Lemma advances_trans (s1 s2 s3 : Store) :
  advances s1 s2 -> advances s2 s3 -> advances s1 s3.
Proof. intros [_ [H1 H2]] [H [H3 H4]]. split; [exact H|]. split; lia. Qed.

Lemma advances_new_primary_row (s : Store) (row : PrimaryRow) :
  keys_ok s ->
  p_id row = next_id (primary_seq s) (map p_id (primary_table s)) ->
  advances s (set_primary s (primary_table s ++ [row]) (p_id row)).
Proof.
  intros [Hp Hf] Hid. split; [split|]; cbn.
  - rewrite map_app. cbn. rewrite Hid. now apply table_keys_ok_append.
  - exact Hf.
  - pose proof (next_id_above_seq (primary_seq s) (map p_id (primary_table s))). lia.
Qed.

Lemma advances_new_finally_row (s : Store) (cells : list sqlval) :
  keys_ok s -> advances s (with_new_finally_row s cells).
Proof.
  intros [Hp Hf]. split; [split|]; cbn.
  - exact Hp.
  - rewrite map_app. cbn. now apply table_keys_ok_append.
  - pose proof (next_id_above_seq (finally_seq s) (map f_id (finally_table s))). lia.
Qed.

Lemma advances_primary_rows (s : Store) (rows : list PrimaryRow) :
  keys_ok s ->
  table_keys_ok (map p_id rows) (primary_seq s) ->
  advances s (set_primary s rows (primary_seq s)).
Proof.
  intros [Hp Hf] H. split; [split|]; cbn; try assumption. lia.
Qed.

Lemma advances_finally_rows (s : Store) (rows : list FinallyRow) :
  keys_ok s ->
  table_keys_ok (map f_id rows) (finally_seq s) ->
  advances s (set_finally s rows (finally_seq s)).
Proof.
  intros [Hp Hf] H. split; [split|]; cbn; try assumption. lia.
Qed.

(** ** What each write does to the store *)

Lemma count_positive_exists {A} (hit : A -> bool) (l : list A) :
  Nat.ltb 0 (List.length (filter hit l)) = existsb hit l.
Proof.
  induction l as [|x r IH]; cbn; [reflexivity|].
  destruct (hit x); cbn; [reflexivity|exact IH].
Qed.

Lemma update_primary_record_run (record_id : Z) (data : PrimaryData.t) (s : Store) :
  DatabaseManager.update_primary_record record_id data s
  = match bind_param (PrimaryData.username data), bind_param (PrimaryData.source data) with
    | Ok u, Ok src =>
        if available s && existsb (has_id record_id) (primary_table s)
           && negb (is_null u || is_null src)
        then (Ok true,
              set_primary s
                (map (fun r => if has_id record_id r
                               then rewritten u src (PrimaryData.json_info data) r else r)
                   (primary_table s))
                (primary_seq s))
        else (Ok false, s)
    | _, _ => (Ok false, s)
    end.
Proof.
  unfold DatabaseManager.update_primary_record, try_except, mbind, engine, lift,
    update_primary, ret.
  fold (has_id record_id).
  destruct (available s).
  - destruct (bind_param (PrimaryData.username data)) as [u|]; [|reflexivity].
    destruct (bind_param (PrimaryData.source data)) as [src|]; [|reflexivity].
    cbn [andb].
    destruct (existsb (has_id record_id) (primary_table s)) eqn:Hex; [|reflexivity].
    destruct (is_null u || is_null src); [reflexivity|].
    cbn [andb negb]. now rewrite count_positive_exists, Hex.
  - destruct (bind_param (PrimaryData.username data)); [|reflexivity].
    now destruct (bind_param (PrimaryData.source data)).
Qed.

Lemma delete_primary_record_run (record_id : Z) (s : Store) :
  DatabaseManager.delete_primary_record record_id s
  = if available s then
      (Ok (existsb (has_id record_id) (primary_table s)),
       set_primary s (filter (fun r => negb (has_id record_id r)) (primary_table s))
         (primary_seq s))
    else (Ok false, s).
Proof.
  unfold DatabaseManager.delete_primary_record, try_except, mbind, engine, delete_primary, ret.
  fold (has_id record_id).
  destruct (available s); [|reflexivity]. now rewrite count_positive_exists.
Qed.

Lemma delete_finally_record_run (username : json) (s : Store) :
  DatabaseManager.delete_finally_record username s
  = match bind_param username with
    | Ok u =>
        if available s then
          (Ok (existsb (username_is u) (finally_table s)),
           set_finally s (filter (fun r => negb (username_is u r)) (finally_table s))
             (finally_seq s))
        else (Ok false, s)
    | Raise _ => (Ok false, s)
    end.
Proof.
  unfold DatabaseManager.delete_finally_record, try_except, mbind, engine, lift,
    delete_finally, ret.
  destruct (available s); [|now destruct (bind_param username)].
  destruct (bind_param username); [|reflexivity]. now rewrite count_positive_exists.
Qed.

Lemma delete_finally_by_id_run (record_id : Z) (s : Store) :
  DatabaseManager.delete_finally_by_id record_id s
  = if available s then
      (Ok (existsb (has_key record_id) (finally_table s)),
       set_finally s (filter (fun r => negb (has_key record_id r)) (finally_table s))
         (finally_seq s))
    else (Ok false, s).
Proof.
  unfold DatabaseManager.delete_finally_by_id, try_except, mbind, engine, delete_finally, ret.
  fold (has_key record_id).
  destruct (available s); [|reflexivity]. now rewrite count_positive_exists.
Qed.

Lemma clear_all_data_run (s : Store) :
  DatabaseManager.clear_all_data s
  = if available s then
      (Ok tt, mkStore [] (primary_seq s) [] (finally_seq s) (clock s) (available s))
    else (Raise OperationalError, s).
Proof.
  unfold DatabaseManager.clear_all_data, try_except, mbind, engine, get_store, put_store, raise.
  destruct (available s) eqn:Havail; [|reflexivity].
  unfold set_primary, set_finally. cbn. now rewrite Havail.
Qed.

(** ** Staging: insert, lookup, update, delete *)

Lemma no_row_with_fresh_id (rows : list PrimaryRow) (seq : Z) :
  filter (has_id (next_id seq (map p_id rows))) rows = [].
Proof.
  assert (H : forall n, (forall r, In r rows -> p_id r < n) -> filter (has_id n) rows = []).
  { intros n. induction rows as [|r rest IH]; cbn; [reflexivity|]. intros Hall.
    unfold has_id at 1.
    destruct (p_id r =? n) eqn:Heq.
    - apply Z.eqb_eq in Heq. specialize (Hall r (or_introl eq_refl)). lia.
    - apply IH. intros x Hx. apply Hall. now right. }
  apply H. intros r Hr. apply next_id_fresh. now apply in_map.
Qed.

(** X5.  A record that is appended is found again under the key the append
    returned: the lookup gives that key, the username and the source as
    stored, the payload, and the time of the append. *)
Theorem appended_record_is_found_by_id (data : PrimaryData.t) (s : Store) (u src : sqlval) :
  available s = true ->
  bind_param (PrimaryData.username data) = Ok u ->
  bind_param (PrimaryData.source data) = Ok src ->
  is_null u = false ->
  is_null src = false ->
  exists record_id s',
    DatabaseManager.add_primary_record data s = (Ok record_id, s') /\
    DatabaseManager.get_primary_by_id record_id s'
    = (Ok (Some (PrimaryData.mk (Some record_id)
                   (py_of_sql (apply_affinity AffText u))
                   (py_of_sql (apply_affinity AffText src))
                   (PrimaryData.json_info data)
                   (Some (clock s)))), s').
Proof.
  intros Havail Hu Hsrc Hnu Hnsrc.
  rewrite add_primary_record_run, Havail, Hu, Hsrc, Hnu, Hnsrc. cbn [orb].
  eexists _, _. split; [reflexivity|].
  unfold DatabaseManager.get_primary_by_id, try_except, mbind, engine, get_store, ret.
  cbn [available set_primary primary_table]. rewrite Havail.
  fold (has_id (next_id (primary_seq s) (map p_id (primary_table s)))).
  unfold set_primary at 1. cbn [primary_table].
  rewrite filter_app, no_row_with_fresh_id. cbn [filter app].
  unfold has_id at 1. cbn [p_id]. rewrite Z.eqb_refl. reflexivity.
Qed.

Lemma appended_record_is_found_by_id_witness :
  exists s',
    DatabaseManager.add_primary_record
      (PrimaryData.mk None (JStr "bob") (JStr "Undisclosed") bob_node None)
      (store_of [staged 1 "alice" 1%nat]) = (Ok 2, s') /\
    DatabaseManager.get_primary_by_id 2 s'
    = (Ok (Some (PrimaryData.mk (Some 2) (JStr "bob") (JStr "Undisclosed") bob_node
                   (Some 10%nat))), s').
Proof.
  destruct (appended_record_is_found_by_id
              (PrimaryData.mk None (JStr "bob") (JStr "Undisclosed") bob_node None)
              (store_of [staged 1 "alice" 1%nat]) (SText "bob") (SText "Undisclosed")
              eq_refl eq_refl eq_refl eq_refl eq_refl)
    as [record_id [s' [Hadd Hget]]].
  pose proof Hadd as Hrun. vm_compute in Hrun.
  injection Hrun as Hid _. subst record_id.
  exists s'. split; [exact Hadd|exact Hget].
Defined.

Lemma sql_eq_text (c : sqlval) (name : string) :
  sql_eq c (SText name) = true <-> c = SText name.
Proof.
  destruct c; cbn; split; try discriminate.
  - intros H. apply String.eqb_eq in H. now subst.
  - intros H. inversion H. apply String.eqb_refl.
Qed.

(** X6.  The lookup of a staged record by username answers None exactly when
    no row has that username, and otherwise a record of a row with that
    username; the store is left as it is. *)
Theorem get_primary_by_username_finds (name : string) (s : Store) :
  available s = true ->
  exists r,
    DatabaseManager.get_primary_by_username (JStr name) s = (Ok r, s) /\
    (r = None <-> forall row, In row (primary_table s) -> p_username row <> SText name) /\
    (forall record,
        r = Some record ->
        PrimaryData.username record = JStr name /\
        exists row, In row (primary_table s) /\ record = primary_data_of_row row).
Proof.
  intros Havail.
  unfold DatabaseManager.get_primary_by_username, try_except, mbind, engine, lift,
    get_store, ret.
  rewrite Havail. cbn [bind_param apply_affinity].
  destruct (fetchone _) as [row|] eqn:Hfetch.
  - eexists. split; [reflexivity|].
    unfold fetchone in Hfetch.
    assert (Hin : In row (filter (fun r => sql_eq (p_username r) (SText name))
                            (primary_table s))).
    { destruct (filter _ _); [discriminate|]. inversion Hfetch. now left. }
    apply filter_In in Hin. destruct Hin as [Hin Hname]. apply sql_eq_text in Hname.
    split.
    + split; [discriminate|]. intros H. now contradiction (H row Hin).
    + intros record Hrec. inversion Hrec. subst record. split.
      * cbn. now rewrite Hname.
      * now exists row.
  - eexists. split; [reflexivity|]. split; [|discriminate].
    split; [|reflexivity]. intros _ row Hin Hname.
    unfold fetchone in Hfetch.
    assert (Hfil : In row (filter (fun r => sql_eq (p_username r) (SText name))
                             (primary_table s))).
    { apply filter_In. split; [exact Hin|]. now apply sql_eq_text. }
    destruct (filter _ _); [contradiction|discriminate].
Qed.

Lemma get_primary_by_username_finds_witness :
  exists record,
    DatabaseManager.get_primary_by_username (JStr "bob")
      (store_of [staged 1 "alice" 1%nat; staged 2 "bob" 2%nat; staged 3 "bob" 3%nat])
    = (Ok (Some record),
       store_of [staged 1 "alice" 1%nat; staged 2 "bob" 2%nat; staged 3 "bob" 3%nat]) /\
    PrimaryData.username record = JStr "bob".
Proof.
  destruct (get_primary_by_username_finds "bob"
              (store_of [staged 1 "alice" 1%nat; staged 2 "bob" 2%nat; staged 3 "bob" 3%nat])
              eq_refl) as [r [Hrun [_ Hsome]]].
  destruct r as [record|]; [|cbv in Hrun; discriminate].
  exists record. split; [exact Hrun|]. now apply Hsome.
Defined.

Lemma filter_out_then_find {A} (hit : A -> bool) (l : list A) :
  filter hit (filter (fun r => negb (hit r)) l) = [].
Proof.
  induction l as [|x r IH]; cbn; [reflexivity|].
  destruct (hit x) eqn:H; cbn; [exact IH|]. now rewrite H.
Qed.

(** X7.  Through a working engine (every statement runs and is
    committed), delete_primary_record answers whether a row had the id,
    removes exactly the rows with that id and keeps the others in their
    order, after which the id is not found any more; the counter and
    finally_table are untouched. *)
Theorem delete_primary_record_removes (record_id : Z) (s : Store) :
  available s = true ->
  exists s',
    DatabaseManager.delete_primary_record record_id s
    = (Ok (existsb (has_id record_id) (primary_table s)), s') /\
    primary_table s' = filter (fun r => negb (has_id record_id r)) (primary_table s) /\
    DatabaseManager.get_primary_by_id record_id s' = (Ok None, s') /\
    primary_seq s' = primary_seq s /\
    finally_table s' = finally_table s.
Proof.
  intros Havail. rewrite delete_primary_record_run, Havail.
  eexists. split; [reflexivity|]. repeat split.
  unfold DatabaseManager.get_primary_by_id, try_except, mbind, engine, get_store, ret.
  cbn [available set_primary]. rewrite Havail.
  unfold set_primary at 1. cbn [primary_table].
  fold (has_id record_id). now rewrite filter_out_then_find.
Qed.

Lemma delete_primary_record_removes_witness :
  exists s',
    DatabaseManager.delete_primary_record 1
      (store_of [staged 1 "alice" 1%nat; staged 2 "bob" 2%nat])
    = (Ok true, s') /\
    primary_table s' = [staged 2 "bob" 2%nat] /\
    DatabaseManager.get_primary_by_id 1 s' = (Ok None, s').
Proof.
  destruct (delete_primary_record_removes 1
              (store_of [staged 1 "alice" 1%nat; staged 2 "bob" 2%nat]) eq_refl)
    as [s' [Hrun [Htable [Hget _]]]].
  exists s'. split; [exact Hrun|]. split; [exact Htable|exact Hget].
Defined.

Example delete_primary_record_runs :
  let s := store_of [staged 1 "alice" 1%nat; staged 2 "bob" 2%nat] in
  fst (DatabaseManager.delete_primary_record 1 s) = Ok true /\
  primary_table (snd (DatabaseManager.delete_primary_record 1 s)) = [staged 2 "bob" 2%nat] /\
  DatabaseManager.delete_primary_record 7 s = (Ok false, s).
Proof. repeat split. Qed.



Example update_primary_record_runs :
  let s := store_of [staged 1 "alice" 1%nat] in
  DatabaseManager.update_primary_record 1
    (PrimaryData.mk None JNull (JStr "Edited") JNull None) s = (Ok false, s) /\
  DatabaseManager.update_primary_record 2
    (PrimaryData.mk None (JStr "mallory") (JStr "Edited") JNull None) s = (Ok false, s) /\
  DatabaseManager.update_primary_record 1
    (PrimaryData.mk None (JList []) (JStr "Edited") JNull None) s = (Ok false, s).
Proof. repeat split. Qed.

(** ** The keys through every write *)

Lemma add_primary_record_advances (data : PrimaryData.t) (s : Store) :
  keys_ok s -> advances s (snd (DatabaseManager.add_primary_record data s)).
Proof.
  intros Hok. rewrite add_primary_record_run.
  destruct (available s); [|now apply advances_refl].
  destruct (bind_param (PrimaryData.username data)) as [u|]; [|now apply advances_refl].
  destruct (bind_param (PrimaryData.source data)) as [src|]; [|now apply advances_refl].
  destruct (is_null u || is_null src); [now apply advances_refl|].
  cbn [snd]. now apply (advances_new_primary_row s (mkPrimaryRow _ _ _ _ _)).
Qed.

Lemma update_primary_record_advances (record_id : Z) (data : PrimaryData.t) (s : Store) :
  keys_ok s -> advances s (snd (DatabaseManager.update_primary_record record_id data s)).
Proof.
  intros Hok. rewrite update_primary_record_run.
  destruct (bind_param (PrimaryData.username data)) as [u|]; [|now apply advances_refl].
  destruct (bind_param (PrimaryData.source data)) as [src|]; [|now apply advances_refl].
  destruct (_ && _); [|now apply advances_refl].
  cbn [snd]. apply advances_primary_rows; [exact Hok|].
  rewrite map_key_unchanged; [apply Hok|].
  intros r. now destruct (has_id record_id r).
Qed.

Lemma delete_primary_record_advances (record_id : Z) (s : Store) :
  keys_ok s -> advances s (snd (DatabaseManager.delete_primary_record record_id s)).
Proof.
  intros Hok. rewrite delete_primary_record_run.
  destruct (available s); [|now apply advances_refl].
  cbn [snd]. apply advances_primary_rows; [exact Hok|].
  apply table_keys_ok_filter, Hok.
Qed.

Lemma add_finally_record_advances
    (fromisoformat : string -> pyres datetime) (data : option FinallyData.t) (s : Store) :
  keys_ok s -> advances s (snd (DatabaseManager.add_finally_record fromisoformat data s)).
Proof.
  intros Hok. destruct data as [d|]; [|now apply advances_refl].
  rewrite add_finally_record_some.
  destruct (available s); [|now apply advances_refl].
  destruct (cells_of fromisoformat d); [|now apply advances_refl].
  now apply advances_new_finally_row.
Qed.

Lemma update_finally_record_advances
    (fromisoformat : string -> pyres datetime) (username : json) (d : FinallyData.t)
    (s : Store) :
  keys_ok s ->
  advances s (snd (DatabaseManager.update_finally_record fromisoformat username d s)).
Proof.
  intros Hok. rewrite update_finally_record_run.
  destruct (bind_param username) as [u|]; [|now apply advances_refl].
  destruct (_ && _); [|now apply advances_refl].
  destruct (update_cells_of fromisoformat d); [|now apply advances_refl].
  cbn [snd]. apply advances_finally_rows; [exact Hok|].
  rewrite map_key_unchanged; [apply Hok|].
  intros r. now destruct (username_is u r).
Qed.

Lemma delete_finally_record_advances (username : json) (s : Store) :
  keys_ok s -> advances s (snd (DatabaseManager.delete_finally_record username s)).
Proof.
  intros Hok. rewrite delete_finally_record_run.
  destruct (bind_param username) as [u|]; [|now apply advances_refl].
  destruct (available s); [|now apply advances_refl].
  cbn [snd]. apply advances_finally_rows; [exact Hok|].
  apply table_keys_ok_filter, Hok.
Qed.

Lemma delete_finally_by_id_advances (record_id : Z) (s : Store) :
  keys_ok s -> advances s (snd (DatabaseManager.delete_finally_by_id record_id s)).
Proof.
  intros Hok. rewrite delete_finally_by_id_run.
  destruct (available s); [|now apply advances_refl].
  cbn [snd]. apply advances_finally_rows; [exact Hok|].
  apply table_keys_ok_filter, Hok.
Qed.

Lemma add_or_update_advances
    (fromisoformat : string -> pyres datetime)
    (from_db_row : FinallyRow -> pyres FinallyData.t) (user_data : json) (s : Store) :
  keys_ok s ->
  advances s
    (snd (DatabaseManager.add_or_update_finally_record fromisoformat from_db_row
            user_data s)).
Proof.
  intros Hok.
  unfold DatabaseManager.add_or_update_finally_record, try_except, mbind at 1, lift at 1.
  destruct (FinallyData.from_user_data user_data) as [d|]; [|now apply advances_refl].
  unfold mbind at 1.
  destruct (get_finally_by_username_returns from_db_row (FinallyData.username d) s)
    as [existing Hget].
  rewrite Hget. destruct existing as [existing|].
  - unfold mbind at 1.
    pose proof (update_finally_record_advances fromisoformat
                  (FinallyData.username (keep_existing d existing))
                  (keep_existing d existing) s Hok) as Hupd.
    destruct (DatabaseManager.update_finally_record _ _ _ s) as [[b|e] s']; exact Hupd.
  - pose proof (add_finally_record_advances fromisoformat (Some d) s Hok) as Hadd.
    destruct (DatabaseManager.add_finally_record _ _ s) as [[r|e] s']; exact Hadd.
Qed.

Lemma clear_all_data_advances (s : Store) :
  keys_ok s -> advances s (snd (DatabaseManager.clear_all_data s)).
Proof.
  intros Hok. rewrite clear_all_data_run.
  destruct (available s); [|now apply advances_refl].
  split; [split; apply table_keys_ok_nil|]. cbn. split; lia.
Qed.

Lemma for_each_append_advances (records : list PrimaryData.t) (s : Store) :
  let body := (fun obj => _ <- DatabaseManager.add_primary_record obj ;; ret tt)%db in
  keys_ok s -> advances s (snd (for_each records body s)).
Proof.
  intros body. revert s. induction records as [|obj rest IH]; intros s Hok.
  - now apply advances_refl.
  - cbn [for_each]. unfold mbind.
    assert (Hbody : body obj s
                    = match DatabaseManager.add_primary_record obj s with
                      | (Ok _, s1) => (Ok tt, s1)
                      | (Raise e, s1) => (Raise e, s1)
                      end) by reflexivity.
    rewrite Hbody.
    pose proof (add_primary_record_advances obj s Hok) as Hadd.
    destruct (DatabaseManager.add_primary_record obj s) as [[rowid|e] s1]; cbn [snd] in *.
    + eapply advances_trans; [exact Hadd|]. apply IH. apply Hadd.
    + exact Hadd.
Qed.

Lemma hacktivity_search_advances
    (client_post : json -> http_reply) (build_hacktivity_search_query : Z -> Z -> json)
    (size offset : Z) (s : Store) :
  keys_ok s ->
  advances s
    (snd (hacktivity_search client_post build_hacktivity_search_query size offset s)).
Proof.
  intros Hok. unfold hacktivity_search. cbv zeta.
  unfold mbind at 1, lift at 1.
  match goal with |- context [match ?r with Ok _ => _ | Raise _ => _ end] =>
    destruct r as [nodes|] end; [|now apply advances_refl].
  unfold mbind at 1, lift at 1.
  match goal with |- context [match ?r with Ok _ => _ | Raise _ => _ end] =>
    destruct r as [processed|] end; [|now apply advances_refl].
  unfold DatabaseManager.with_database, mbind at 1, engine.
  destruct (available s); [|now apply advances_refl].
  now apply for_each_append_advances.
Qed.

Lemma enrich_advances
    (fromisoformat : string -> pyres datetime) (client_post : json -> http_reply)
    (build_profile_info_query : json -> json) (hunters : list PrimaryData.t) (s : Store) :
  keys_ok s ->
  advances s (snd (enrich fromisoformat client_post build_profile_info_query hunters s)).
Proof.
  revert s. induction hunters as [|hunter rest IH]; intros s Hok; cbn [enrich].
  - now apply advances_refl.
  - destruct (fetch_profile _ _ _) as [[d|]|e]; [| |now apply advances_refl].
    + destruct (available s); [|now apply advances_refl].
      destruct (cells_of fromisoformat d) as [cells|]; [|now apply advances_refl].
      pose proof (advances_new_finally_row s cells Hok) as Hrow.
      eapply advances_trans; [exact Hrow|]. apply IH. apply Hrow.
    + now apply IH.
Qed.

Lemma profile_info_search_advances
    (fromisoformat : string -> pyres datetime) (client_post : json -> http_reply)
    (build_profile_info_query : json -> json) (s : Store) :
  keys_ok s ->
  advances s
    (snd (profile_info_search fromisoformat client_post build_profile_info_query s)).
Proof.
  intros Hok. rewrite profile_info_search_is_enrich.
  destruct (available s); [|now apply advances_refl]. now apply enrich_advances.
Qed.

Lemma keys_ok_unique (s : Store) : keys_ok s -> keys_unique s.
Proof.
  intros [Hp Hf]. split; eapply table_keys_ok_unique; eassumption.
Qed.

Lemma main_advances
    (fromisoformat : string -> pyres datetime) (client_post : json -> http_reply)
    (build_hacktivity_search_query : Z -> Z -> json)
    (build_profile_info_query : json -> json) (s : Store) :
  keys_ok s ->
  advances s
    (snd (main fromisoformat client_post build_hacktivity_search_query
            build_profile_info_query s)).
Proof.
  intros Hok. unfold main, primary_search, finally_search, mbind.
  pose proof (hacktivity_search_advances client_post build_hacktivity_search_query
                100 0 s Hok) as H1.
  destruct (hacktivity_search _ _ 100 0 s) as [[r|e] s1]; cbn [snd] in *; [|exact H1].
  eapply advances_trans; [exact H1|]. apply profile_info_search_advances. apply H1.
Qed.

(** X9.  In a store whose keys grow along each table and lie under the
    AUTOINCREMENT counters, every write of DatabaseManager and every
    stage of the pipeline, whether it succeeds, fails or raises, leaves
    a store of the same kind and never moves a counter back; in such a
    store no two rows of a table share a key. *)
Theorem keys_stay_in_order
    (fromisoformat : string -> pyres datetime)
    (from_db_row : FinallyRow -> pyres FinallyData.t)
    (client_post : json -> http_reply)
    (build_hacktivity_search_query : Z -> Z -> json)
    (build_profile_info_query : json -> json) (s : Store) :
  keys_ok s ->
  keys_unique s /\
  (forall data, advances s (snd (DatabaseManager.add_primary_record data s))) /\
  (forall record_id data,
      advances s (snd (DatabaseManager.update_primary_record record_id data s))) /\
  (forall record_id, advances s (snd (DatabaseManager.delete_primary_record record_id s))) /\
  (forall data,
      advances s (snd (DatabaseManager.add_finally_record fromisoformat data s))) /\
  (forall username data,
      advances s
        (snd (DatabaseManager.update_finally_record fromisoformat username data s))) /\
  (forall username, advances s (snd (DatabaseManager.delete_finally_record username s))) /\
  (forall record_id, advances s (snd (DatabaseManager.delete_finally_by_id record_id s))) /\
  (forall user_data,
      advances s
        (snd (DatabaseManager.add_or_update_finally_record fromisoformat from_db_row
                user_data s))) /\
  advances s (snd (DatabaseManager.clear_all_data s)) /\
  (forall size offset,
      advances s
        (snd (hacktivity_search client_post build_hacktivity_search_query size offset s))) /\
  advances s
    (snd (profile_info_search fromisoformat client_post build_profile_info_query s)) /\
  advances s
    (snd (main fromisoformat client_post build_hacktivity_search_query
            build_profile_info_query s)).
Proof.
  intros Hok.
  split; [now apply keys_ok_unique|].
  split; [intros; now apply add_primary_record_advances|].
  split; [intros; now apply update_primary_record_advances|].
  split; [intros; now apply delete_primary_record_advances|].
  split; [intros; now apply add_finally_record_advances|].
  split; [intros; now apply update_finally_record_advances|].
  split; [intros; now apply delete_finally_record_advances|].
  split; [intros; now apply delete_finally_by_id_advances|].
  split; [intros; now apply add_or_update_advances|].
  split; [now apply clear_all_data_advances|].
  split; [intros; now apply hacktivity_search_advances|].
  split; [now apply profile_info_search_advances|].
  now apply main_advances.
Qed.

Lemma empty_store_keys_ok : keys_ok empty_store.
Proof. split; apply table_keys_ok_nil. Qed.

Lemma keys_stay_in_order_witness :
  keys_unique
    (snd (main iso_reference (sample_remote 3) sample_search_query sample_query
            empty_store)) /\
  keys_unique
    (snd (hacktivity_search sample_page sample_search_query 2 0 empty_store)).
Proof.
  destruct (keys_stay_in_order iso_reference FinallyData_from_db_row (sample_remote 3)
              sample_search_query sample_query empty_store empty_store_keys_ok)
    as [_ [_ [_ [_ [_ [_ [_ [_ [_ [_ [_ [_ Hmain]]]]]]]]]]]].
  split.
  - apply keys_ok_unique, Hmain.
  - apply keys_ok_unique.
    apply (hacktivity_search_advances sample_page sample_search_query 2 0 empty_store
             empty_store_keys_ok).
Defined.

(** X10.  A key is never given twice: after a delete or a full clear, the next
    record appended gets a key above every key the table held before. *)
Theorem removed_keys_are_not_reused (record : PrimaryData.t) (s s1 : Store) :
  keys_ok s ->
  available s = true ->
  stageable record = true ->
  (s1 = snd (DatabaseManager.clear_all_data s) \/
   exists record_id, s1 = snd (DatabaseManager.delete_primary_record record_id s)) ->
  exists rowid s2,
    DatabaseManager.add_primary_record record s1 = (Ok rowid, s2) /\
    forall r, In r (primary_table s) -> p_id r < rowid.
Proof.
  intros [[_ Hbound] _] Havail Hst Hs1.
  assert (Hs : available s1 = true /\ primary_seq s1 = primary_seq s).
  { destruct Hs1 as [->|[record_id ->]].
    - rewrite clear_all_data_run, Havail. cbn. now split.
    - rewrite delete_primary_record_run, Havail. cbn. now split. }
  destruct Hs as [Havail1 Hseq].
  destruct (add_primary_record_stageable record s1 Havail1 Hst) as [row [Hrun [Hid _]]].
  eexists _, _. split; [exact Hrun|].
  intros r Hr. rewrite Hid, Hseq.
  pose proof (next_id_above_seq (primary_seq s) (map p_id (primary_table s1))) as Habove.
  rewrite Forall_forall in Hbound. specialize (Hbound (p_id r) (in_map p_id _ _ Hr)). lia.
Qed.

Lemma removed_keys_are_not_reused_witness :
  let s := mkStore [staged 1 "alice" 1%nat; staged 2 "bob" 2%nat] 2 [] 0 10%nat true in
  exists rowid s2,
    DatabaseManager.add_primary_record
      (PrimaryData.mk None (JStr "carol") (JStr "Disclosed") JNull None)
      (snd (DatabaseManager.delete_primary_record 2 s)) = (Ok rowid, s2) /\
    2 < rowid.
Proof.
  intros s.
  assert (Hok : keys_ok s).
  { split; split; cbn; repeat constructor; lia. }
  destruct (removed_keys_are_not_reused
              (PrimaryData.mk None (JStr "carol") (JStr "Disclosed") JNull None)
              s (snd (DatabaseManager.delete_primary_record 2 s))
              Hok eq_refl eq_refl (or_intror (ex_intro _ 2 eq_refl)))
    as [rowid [s2 [Hrun Habove]]].
  exists rowid, s2. split; [exact Hrun|].
  apply (Habove (staged 2 "bob" 2%nat)). right. now left.
Defined.

Example key_after_delete_runs :
  let s := mkStore [staged 1 "alice" 1%nat; staged 2 "bob" 2%nat] 2 [] 0 10%nat true in
  fst (DatabaseManager.add_primary_record
         (PrimaryData.mk None (JStr "carol") (JStr "Disclosed") JNull None)
         (snd (DatabaseManager.delete_primary_record 2 s))) = Ok 3 /\
  fst (DatabaseManager.add_primary_record
         (PrimaryData.mk None (JStr "carol") (JStr "Disclosed") JNull None)
         (snd (DatabaseManager.clear_all_data s))) = Ok 3.
Proof. repeat split. Qed.

(** ** Writes that raise, reads as the class is written *)




Example failed_writes_run :
  let s := store_of [staged 1 "alice" 1%nat] in
  DatabaseManager.add_primary_record
    (PrimaryData.mk None JNull (JStr "Disclosed") JNull None) s
  = (Raise IntegrityError, s) /\
  DatabaseManager.add_primary_record
    (PrimaryData.mk None (JStr "bob") (JDict []) JNull None) s
  = (Raise InterfaceError, s) /\
  DatabaseManager.add_or_update_finally_record iso_reference FinallyData_from_db_row
    (JList []) s
  = (Raise AttributeError, s) /\
  DatabaseManager.add_or_update_finally_record iso_reference FinallyData_from_db_row
    (JDict [("username", JStr "bob"); ("name", JNum (2 ^ 70))]) s
  = (Raise OverflowError, s).
Proof. repeat split. Qed.

Lemma comprehension_as_written (rows : list FinallyRow) :
  comprehension FinallyData_from_db_row rows
  = match rows with [] => Ok [] | _ => Raise AttributeError end.
Proof. destruct rows; reflexivity. Qed.

(** X12.  As the class is written, without a from_db_row, finally_table cannot
    be read back: whatever the table holds, the two lookups answer None
    and the listing and the search answer the empty list. *)
Theorem finally_reads_find_nothing (s : Store) :
  (forall username,
      DatabaseManager.get_finally_by_username FinallyData_from_db_row username s
      = (Ok None, s)) /\
  (forall record_id,
      DatabaseManager.get_finally_by_id FinallyData_from_db_row record_id s = (Ok None, s)) /\
  (forall limit,
      DatabaseManager.get_all_finally_records FinallyData_from_db_row limit s = (Ok [], s)) /\
  (forall search_query field,
      DatabaseManager.search_finally_records FinallyData_from_db_row search_query field s
      = (Ok [], s)).
Proof.
  split; [intros; apply get_finally_by_username_as_written|].
  split; [|split].
  - intros record_id.
    unfold DatabaseManager.get_finally_by_id, try_except, mbind, engine, lift, get_store, ret,
      FinallyData_from_db_row.
    destruct (available s); [|reflexivity]. now destruct (fetchone _).
  - intros limit.
    unfold DatabaseManager.get_all_finally_records, try_except, mbind, engine, lift,
      get_store, ret.
    destruct (available s); [|reflexivity].
    destruct (limit_literal limit); [|reflexivity].
    rewrite comprehension_as_written. now destruct (sql_limit _ _).
  - intros search_query field.
    unfold DatabaseManager.search_finally_records, try_except, mbind, engine, lift,
      select_like, ret.
    destruct (available s); [|reflexivity].
    destruct (column_index _ _); [|reflexivity].
    rewrite comprehension_as_written. now destruct (filter _ _).
Qed.

(** ** finally_table: delete, update, search *)

Lemma set_finally_same (s : Store) :
  set_finally s (finally_table s) (finally_seq s) = s.
Proof. now destruct s. Qed.

Lemma filter_all {A} (l : list A) : filter (fun _ => true) l = l.
Proof. induction l as [|x r IH]; cbn; [reflexivity|now rewrite IH]. Qed.

(** X13.  delete_finally_record and delete_finally_by_id never raise.  Through
    a working engine, deleting a username removes every row of that
    username, also when the identity has several rows, keeps the other
    rows in their order and answers whether there was such a row; no row
    with the username is left.  Deleting the username None removes
    nothing.  Deleting by id does the same for the rows with that id. *)
Theorem delete_finally_removes_all_rows (s : Store) :
  available s = true ->
  (forall name, exists s',
      DatabaseManager.delete_finally_record (JStr name) s
      = (Ok (existsb (username_is (SText name)) (finally_table s)), s') /\
      finally_table s'
      = filter (fun r => negb (username_is (SText name) r)) (finally_table s) /\
      (forall row, In row (finally_table s') -> column "username" row <> SText name) /\
      finally_seq s' = finally_seq s /\
      primary_table s' = primary_table s) /\
  DatabaseManager.delete_finally_record JNull s = (Ok false, s) /\
  (forall record_id, exists s',
      DatabaseManager.delete_finally_by_id record_id s
      = (Ok (existsb (has_key record_id) (finally_table s)), s') /\
      finally_table s' = filter (fun r => negb (has_key record_id r)) (finally_table s) /\
      (forall row, In row (finally_table s') -> f_id row <> record_id) /\
      finally_seq s' = finally_seq s /\
      primary_table s' = primary_table s).
Proof.
  intros Havail. split; [|split].
  - intros name. rewrite delete_finally_record_run. cbn [bind_param]. rewrite Havail.
    eexists. split; [reflexivity|]. cbn [finally_table set_finally].
    split; [reflexivity|]. split; [|now split].
    intros row Hin Hname. apply filter_In in Hin. destruct Hin as [_ Hhit].
    apply negb_true_iff in Hhit. unfold username_is in Hhit.
    cbn [apply_affinity] in Hhit. rewrite Hname in Hhit. cbn in Hhit.
    now rewrite String.eqb_refl in Hhit.
  - rewrite delete_finally_record_run. cbn [bind_param]. rewrite Havail.
    assert (Hnone : forall r, username_is SNull r = false).
    { intros r. unfold username_is. cbn [apply_affinity].
      now destruct (column "username" r). }
    rewrite (filter_ext _ (fun _ => true)) by (intros r; now rewrite Hnone).
    rewrite filter_all, set_finally_same.
    replace (existsb (username_is SNull) (finally_table s)) with false; [reflexivity|].
    symmetry. induction (finally_table s) as [|r rest IH]; cbn; [reflexivity|].
    now rewrite Hnone.
  - intros record_id. rewrite delete_finally_by_id_run, Havail.
    eexists. split; [reflexivity|]. cbn [finally_table set_finally].
    split; [reflexivity|]. split; [|now split].
    intros row Hin Hid. apply filter_In in Hin. destruct Hin as [_ Hhit].
    apply negb_true_iff in Hhit. unfold has_key in Hhit. apply Z.eqb_neq in Hhit.
    contradiction.
Qed.

Lemma delete_finally_removes_all_rows_witness :
  let s :=
    snd (profile_info_search iso_reference (sample_remote 3) sample_query
           (store_of [staged 1 "bob" 1%nat; staged 2 "bob" 2%nat])) in
  identities s = [SText "bob"; SText "bob"] /\
  exists s',
    DatabaseManager.delete_finally_record (JStr "bob") s = (Ok true, s') /\
    finally_table s' = [].
Proof.
  intros s. split; [reflexivity|].
  destruct (delete_finally_removes_all_rows s eq_refl) as [Hname _].
  destruct (Hname "bob"%string) as [s' [Hrun [Htable _]]].
  exists s'. split; [exact Hrun|]. rewrite Htable. reflexivity.
Defined.

(** X14.  Through a working engine (every statement runs and is
    committed), update_finally_record answers True or False and does not
    raise.  Every row keeps its key, its username and its creation time,
    and finally_table keeps its length; when the answer is False the
    store is unchanged; when it is True, each row of the username, also
    when there are several, has its 21 other columns replaced by the same
    new cells, and the other rows are untouched. *)
Theorem update_finally_record_effect
    (fromisoformat : string -> pyres datetime) (username : json) (d : FinallyData.t)
    (s : Store) :
  available s = true ->
  exists b s',
    DatabaseManager.update_finally_record fromisoformat username d s = (Ok b, s') /\
    map f_id (finally_table s') = map f_id (finally_table s) /\
    map f_created_at (finally_table s') = map f_created_at (finally_table s) /\
    map (column "username") (finally_table s') = map (column "username") (finally_table s) /\
    primary_table s' = primary_table s /\
    (b = false -> s' = s) /\
    (b = true ->
     exists u cells,
       bind_param username = Ok u /\
       update_cells_of fromisoformat d = Ok cells /\
       existsb (username_is u) (finally_table s) = true /\
       finally_table s'
       = map (fun r => if username_is u r then overwritten cells r else r)
           (finally_table s)).
Proof.
  intros Havail. rewrite update_finally_record_run, Havail. cbn [andb].
  destruct (bind_param username) as [u|];
    [|exists false, s; repeat split; discriminate].
  destruct (existsb (username_is u) (finally_table s)) eqn:Hex;
    [|exists false, s; repeat split; discriminate].
  destruct (update_cells_of fromisoformat d) as [cells|];
    [|exists false, s; repeat split; discriminate].
  rewrite count_positive_exists, Hex.
  eexists true, _. split; [reflexivity|]. cbn [finally_table primary_table set_finally].
  split; [apply map_key_unchanged; intros r; now destruct (username_is u r)|].
  split; [rewrite map_map; apply map_ext; intros r; now destruct (username_is u r)|].
  split; [rewrite map_map; apply map_ext; intros r; now destruct (username_is u r)|].
  split; [reflexivity|]. split; [discriminate|].
  intros _. now exists u, cells.
Qed.

Lemma update_finally_record_effect_witness :
  let s :=
    snd (profile_info_search iso_reference (sample_remote 3) sample_query
           (store_of [staged 1 "bob" 1%nat; staged 2 "bob" 2%nat])) in
  let d := FinallyData.mk None (JStr "bob") JNull JNull JNull JNull JNull JNull JNull JNull
             JNull JNull JNull JNull JNull JNull JNull JNull JNull (JNum 9) JNull
             (JList []) (JList []) None in
  exists s',
    DatabaseManager.update_finally_record iso_reference (JStr "bob") d s = (Ok true, s') /\
    map f_id (finally_table s') = [1; 2].
Proof.
  intros s d.
  destruct (update_finally_record_effect iso_reference (JStr "bob") d s eq_refl)
    as [b [s' [Hrun [Hids _]]]].
  destruct b; [|vm_compute in Hrun; discriminate].
  exists s'. split; [exact Hrun|]. rewrite Hids. reflexivity.
Defined.

Example update_finally_record_runs :
  let s :=
    snd (profile_info_search iso_reference (sample_remote 3) sample_query
           (store_of [staged 1 "bob" 1%nat; staged 2 "bob" 2%nat])) in
  let d := FinallyData.mk None (JStr "bob") JNull JNull JNull JNull JNull JNull JNull JNull
             JNull JNull JNull JNull JNull JNull JNull JNull JNull (JNum 9) JNull
             (JList []) (JList []) None in
  fst (DatabaseManager.update_finally_record iso_reference (JStr "bob") d s) = Ok true /\
  map summary
    (finally_table (snd (DatabaseManager.update_finally_record iso_reference (JStr "bob") d s)))
  = [(1, SText "bob", SInt 9, 10%nat); (2, SText "bob", SInt 9, 10%nat)] /\
  DatabaseManager.update_finally_record iso_reference (JStr "alice") d s = (Ok false, s).
Proof. vm_compute. repeat split. Qed.

(** ** Stage 2: what is written before a failure stays *)

Lemma enrich_prefix_stored
    (fromisoformat : string -> pyres datetime) (client_post : json -> http_reply)
    (build_profile_info_query : json -> json)
    (before rest : list PrimaryData.t) (s : Store) :
  available s = true ->
  Forall (fetch_stores client_post build_profile_info_query) before ->
  exists added s1,
    enrich fromisoformat client_post build_profile_info_query (before ++ rest) s
    = enrich fromisoformat client_post build_profile_info_query rest s1 /\
    finally_table s1 = finally_table s ++ added /\
    Forall2 (enriched_as client_post build_profile_info_query) before added /\
    available s1 = true.
Proof.
  intros Havail Hall. revert s Havail.
  induction Hall as [|hunter tail [d [Hfetch Hstorable]] _ IH]; intros s Havail.
  - exists [], s. cbn. rewrite app_nil_r. repeat split; [constructor|assumption].
  - cbn [app enrich]. rewrite Hfetch, Havail.
    destruct (cells_of_storable fromisoformat d Hstorable)
      as [u [cells [Hu [_ [Hcells [_ [Hname _]]]]]]].
    rewrite Hcells.
    destruct (IH (with_new_finally_row s cells) Havail) as [added [s1 [Hrun [Ht [Hrows Ha]]]]].
    eexists (_ :: added), s1. split; [exact Hrun|]. split.
    + rewrite Ht, with_new_finally_row_table, <- app_assoc. reflexivity.
    + split; [|exact Ha]. constructor; [|exact Hrows]. exists d, u. repeat split; assumption.
Qed.

(** X15.  Stage 2 has no rollback: when the request of a listed identity fails
    after the identities listed before it were fetched and stored, the
    stage ends with a TypeError and the rows of those earlier identities
    are in finally_table, in the order of the listing; the identities
    listed after the failing one are not written. *)
Theorem stage2_keeps_rows_written_before_failure
    (fromisoformat : string -> pyres datetime) (client_post : json -> http_reply)
    (build_profile_info_query : json -> json) (s : Store)
    (before after : list PrimaryData.t) (failing : PrimaryData.t) :
  available s = true ->
  listed s = before ++ failing :: after ->
  Forall (fetch_stores client_post build_profile_info_query) before ->
  transport_fails client_post (build_profile_info_query (PrimaryData.username failing)) ->
  exists added,
    fst (profile_info_search fromisoformat client_post build_profile_info_query s)
    = Raise TypeError /\
    finally_table
      (snd (profile_info_search fromisoformat client_post build_profile_info_query s))
    = finally_table s ++ added /\
    Forall2 (enriched_as client_post build_profile_info_query) before added.
Proof.
  intros Havail Hlisted Hbefore Hfail.
  rewrite profile_info_search_is_enrich, Havail, Hlisted.
  destruct (enrich_prefix_stored fromisoformat client_post build_profile_info_query
              before (failing :: after) s Havail Hbefore)
    as [added [s1 [Hrun [Htable [Hrows _]]]]].
  rewrite Hrun.
  rewrite (enrich_stops_at_transport_failure fromisoformat client_post
             build_profile_info_query failing after s1
             (graphql_post_request_fails _ _ Hfail)).
  exists added. cbn [fst snd]. now repeat split.
Qed.

Lemma stage2_keeps_rows_written_before_failure_witness :
  let s := store_of [staged 1 "alice" 1%nat; staged 2 "bob" 2%nat; staged 3 "bob" 0%nat] in
  fst (profile_info_search iso_reference (sample_remote 3) sample_query s)
  = Raise TypeError /\
  exists added,
    finally_table (snd (profile_info_search iso_reference (sample_remote 3) sample_query s))
    = added /\
    List.length added = 1%nat.
Proof.
  intros s.
  destruct (stage2_keeps_rows_written_before_failure iso_reference (sample_remote 3)
              sample_query s
              [primary_data_of_row (staged 2 "bob" 2%nat)]
              [primary_data_of_row (staged 3 "bob" 0%nat)]
              (primary_data_of_row (staged 1 "alice" 1%nat)) eq_refl eq_refl)
    as [added [Hraise [Htable Hrows]]].
  - constructor; [|constructor]. eexists. split; reflexivity.
  - left. reflexivity.
  - split; [exact Hraise|]. exists added. split; [exact Htable|].
    apply Forall2_length in Hrows. now rewrite <- Hrows.
Defined.

Lemma sql_like_text (c : sqlval) (pattern : string) :
  sql_like c pattern = true <->
  exists text, cell_text c = Some text /\ like_match pattern text = true.
Proof.
  unfold sql_like, cell_text. destruct c; split.
  - discriminate.
  - intros [text [H _]]. discriminate.
  - intros H. eexists. split; [reflexivity|exact H].
  - intros [text [H Hlike]]. injection H as <-. exact Hlike.
  - intros H. eexists. split; [reflexivity|exact H].
  - intros [text [H Hlike]]. injection H as <-. exact Hlike.
Qed.

Lemma valid_field_has_column (field : string) :
  existsb (String.eqb field) DatabaseManager.valid_fields = true ->
  exists i, column_index field finally_schema = Some i.
Proof.
  unfold DatabaseManager.valid_fields. cbn [existsb].
  intros H. repeat (apply orb_true_iff in H; destruct H as [H|H]);
    try discriminate; apply String.eqb_eq in H; subst field; now eexists.
Qed.

(** X16.  For a query without the wildcards of LIKE, a search on one of the
    four fields selects exactly the rows whose cell in that field holds
    the query as a substring, letters compared without case, in the
    order of the table; the result is their reconstruction, or the empty
    list when a reconstruction raises. *)
Theorem search_selects_substring_matches
    (from_db_row : FinallyRow -> pyres FinallyData.t)
    (search_query field : string) (s : Store) :
  available s = true ->
  existsb (String.eqb field) DatabaseManager.valid_fields = true ->
  plain search_query = true ->
  exists rows,
    DatabaseManager.search_finally_records from_db_row search_query field s
    = match comprehension from_db_row rows with
      | Ok l => (Ok l, s)
      | Raise _ => (Ok [], s)
      end /\
    (exists keep, rows = filter keep (finally_table s)) /\
    forall row,
      In row rows <->
      In row (finally_table s) /\
      exists text, cell_text (column field row) = Some text /\ occurs_in search_query text.
Proof.
  intros Havail Hfield Hplain.
  destruct (valid_field_has_column field Hfield) as [i Hi].
  exists (filter (fun r => sql_like (column field r) ("%" ++ search_query ++ "%")%string)
            (finally_table s)).
  split; [|split].
  - unfold DatabaseManager.search_finally_records, try_except, mbind, engine, lift,
      select_like, ret.
    rewrite Hfield, Havail. cbn [negb]. rewrite Hi. cbv beta iota.
    destruct (comprehension from_db_row _); reflexivity.
  - now eexists.
  - intros row. rewrite filter_In, sql_like_text. split.
    + intros [Hin [text [Htext Hlike]]]. split; [exact Hin|].
      exists text. split; [exact Htext|]. now apply like_is_substring.
    + intros [Hin [text [Htext Hocc]]]. split; [exact Hin|].
      exists text. split; [exact Htext|]. now apply like_is_substring.
Qed.

Lemma search_selects_substring_matches_witness :
  let s :=
    snd (DatabaseManager.add_or_update_finally_record iso_reference
           FinallyData_from_db_row (bob_profile 3) empty_store) in
  exists rows row,
    DatabaseManager.search_finally_records sample_from_db_row "OB" "username" s
    = match comprehension sample_from_db_row rows with
      | Ok l => (Ok l, s)
      | Raise _ => (Ok [], s)
      end /\
    In row rows /\
    column "username" row = SText "bob".
Proof.
  intros s.
  destruct (search_selects_substring_matches sample_from_db_row "OB" "username" s
              eq_refl eq_refl eq_refl) as [rows [Hrun [_ Hsel]]].
  destruct (finally_table s) as [|row rest] eqn:Htable; [discriminate|].
  assert (Hname : column "username" row = SText "bob").
  { vm_compute in Htable. now inversion Htable. }
  exists rows, row. split; [exact Hrun|]. split; [|exact Hname].
  apply Hsel. split; [now left|].
  exists "bob"%string. split; [now rewrite Hname|].
  exists "b"%string, "ob"%string, EmptyString. split; reflexivity.
Defined.

Example search_wildcards_run :
  plain "b_b" = false /\
  like_match "%b_b%" "bob" = true /\
  ~ occurs_in "b_b" "bob".
Proof.
  split; [reflexivity|]. split; [reflexivity|].
  intros [pre [mid [post [Hs Hmid]]]].
  destruct mid as [|a [|b [|c [|d r]]]]; try discriminate.
  cbn in Hmid. injection Hmid as Ha Hb Hc.
  destruct pre as [|p1 pre]; cbn in Hs.
  - injection Hs as _ Hb' _. subst b. discriminate.
  - injection Hs as _ Hs. destruct pre as [|p2 pre]; cbn in Hs.
    + injection Hs as _ Hs. destruct post; discriminate.
    + injection Hs as _ Hs. destruct pre as [|p3 pre]; cbn in Hs.
      * injection Hs as _ Hs. discriminate.
      * injection Hs as _ Hs. destruct pre; discriminate.
Qed.

(** ** get_statistics *)

Lemma sql_max_is_greatest (times : list timestamp) (t : timestamp) :
  sql_max times = Some t ->
  In t times /\ forall x, In x times -> (x <= t)%nat.
Proof.
  destruct times as [|t0 r]; [discriminate|]. cbn [sql_max]. intros H. injection H as <-.
  induction r as [|y r [IHin IHmax]]; cbn [fold_right].
  - split; [now left|]. intros x [->|[]]. lia.
  - split.
    + destruct (Nat.max_spec y (fold_right Nat.max t0 r)) as [[_ ->]|[_ ->]].
      * destruct IHin as [H|H]; [now left|right; now right].
      * right. now left.
    + intros x [->|[->|Hx]].
      * specialize (IHmax x (or_introl eq_refl)). lia.
      * lia.
      * specialize (IHmax x (or_intror Hx)). lia.
Qed.

Lemma distinct_cells_shorter (l : list sqlval) :
  (List.length (distinct_cells l) <= List.length l)%nat.
Proof.
  induction l as [|c r IH]; cbn; [lia|].
  destruct (existsb (same_cell c) r); cbn; lia.
Qed.

Lemma count_distinct_bounded (cells : list sqlval) :
  (count_distinct cells <= List.length cells)%nat.
Proof.
  unfold count_distinct.
  pose proof (distinct_cells_shorter (filter (fun c => negb (is_null c)) cells)).
  pose proof (filter_length_le (fun c => negb (is_null c)) cells). lia.
Qed.

Lemma order_desc_head_is_newest {A} (key : A -> nat) (l : list A) (x : A) (rest : list A) :
  order_desc key l = x :: rest ->
  In x l /\ forall y, In y l -> (key y <= key x)%nat.
Proof.
  intros H.
  pose proof (order_desc_permutation key l) as Hperm.
  pose proof (order_desc_sorted key l) as Hsorted.
  rewrite H in Hperm, Hsorted. split.
  - eapply Permutation_in; [exact Hperm|]. now left.
  - intros y Hy. apply (Permutation_in _ (Permutation_sym Hperm)) in Hy.
    inversion Hsorted as [|? ? _ Hall]; subst.
    destruct Hy as [->|Hy]; [lia|].
    rewrite Forall_forall in Hall. now apply Hall.
Qed.

Lemma mbind_query {A B} (result : Store -> A) (k : A -> M B) (s : Store) :
  available s = true -> mbind (query result) k s = k (result s) s.
Proof.
  intros H. unfold query, mbind, engine, get_store, ret. now rewrite H.
Qed.

(** X17.  get_statistics never raises and changes nothing.  When a statement
    fails it answers the empty dict.  Otherwise the two counts are the
    numbers of rows of the two tables, unique_sources is at most
    primary_count, last_primary is absent exactly when nothing is
    staged and is otherwise the newest creation time of primary_table,
    which is the creation time of the first record of the listing. *)
Theorem get_statistics_reports (s : Store) :
  (available s = false -> get_statistics s = (Ok None, s)) /\
  (available s = true ->
   exists st,
     get_statistics s = (Ok (Some st), s) /\
     primary_count st = List.length (primary_table s) /\
     finally_count st = List.length (finally_table s) /\
     (unique_sources st <= primary_count st)%nat /\
     (last_primary st = None <-> primary_table s = []) /\
     (forall t,
         last_primary st = Some t ->
         (exists row, In row (primary_table s) /\ p_created_at row = t) /\
         (forall row, In row (primary_table s) -> (p_created_at row <= t)%nat)) /\
     (forall record others limit,
         fst (DatabaseManager.get_all_primary_records limit s) = Ok (record :: others) ->
         PrimaryData.created_at record = last_primary st)).
Proof.
  split; intros Havail.
  - unfold get_statistics, try_except, query, mbind, engine. now rewrite Havail.
  - eexists. split.
    { unfold get_statistics, try_except.
      rewrite !(mbind_query _ _ _ Havail). reflexivity. }
    cbn [primary_count finally_count unique_sources last_primary].
    split; [reflexivity|]. split; [reflexivity|].
    split.
    { rewrite <- (length_map p_source (primary_table s)). apply count_distinct_bounded. }
    assert (Hmax : forall t,
               sql_max (map p_created_at (primary_table s)) = Some t ->
               (exists row, In row (primary_table s) /\ p_created_at row = t) /\
               (forall row, In row (primary_table s) -> (p_created_at row <= t)%nat)).
    { intros t Ht. destruct (sql_max_is_greatest _ t Ht) as [Hin Hall]. split.
      - apply in_map_iff in Hin. destruct Hin as [row [Hrow Hin]]. now exists row.
      - intros row Hrow. apply Hall. now apply in_map. }
    split.
    { destruct (primary_table s); cbn; split; try discriminate; reflexivity. }
    split; [exact Hmax|].
    intros record others limit Hlist.
    rewrite (get_all_primary_records_available limit s Havail) in Hlist.
    destruct (limit_literal limit); cbn [fst] in Hlist; [|discriminate].
    injection Hlist as Hlist.
    destruct (sql_limit limit (order_desc p_created_at (primary_table s)))
      as [|row rows] eqn:Hrows; [discriminate|].
    cbn [map] in Hlist. injection Hlist as Hrecord _. subst record.
    cbn [primary_data_of_row PrimaryData.created_at].
    destruct (order_desc p_created_at (primary_table s)) as [|first sorted] eqn:Hsorted.
    { unfold sql_limit in Hrows. destruct (limit <? 0); [discriminate|].
      now rewrite firstn_nil in Hrows. }
    assert (Hfirst : row = first).
    { unfold sql_limit in Hrows. destruct (limit <? 0); [now inversion Hrows|].
      destruct (Z.to_nat limit); cbn in Hrows; [discriminate|now inversion Hrows]. }
    subst row.
    destruct (order_desc_head_is_newest p_created_at _ _ _ Hsorted) as [Hin Hnewest].
    destruct (sql_max (map p_created_at (primary_table s))) as [t|] eqn:Ht.
    + destruct (Hmax t eq_refl) as [[row [Hrow Hkey]] Hall].
      specialize (Hnewest row Hrow). specialize (Hall first Hin). f_equal. lia.
    + destruct (primary_table s); [contradiction|discriminate].
Qed.

Example get_statistics_runs :
  fst (get_statistics
         (store_of [staged 1 "alice" 5%nat; staged 2 "bob" 7%nat; staged 3 "bob" 6%nat]))
  = Ok (Some (mkStatistics 3 0 1 (Some 7%nat) None)) /\
  fst (get_statistics empty_store) = Ok (Some (mkStatistics 0 0 0 None None)).
Proof. repeat split. Qed.
